(** * baseline-init: the SECURITY-INSIGHTS validator

    A shallow embedding of [pkg/validator/validator.go]: the version router
    [validateSecurityInsights] and the two validators behind it,
    [validateSecurityInsightsV1] and [validateSecurityInsightsV2].

    The Go code builds one [*ValidationResult] per call and mutates it as the
    checks run.  Here a check is a function from the result so far to the
    result after it, and the statements of a Go block are chained with [;;].
    What comes from outside the package (the YAML decoder, the si-tooling
    structure, [time.Parse], the rendering of an [interface{}] by [%v]) is
    gathered in the class [Externals]; the clock read by [time.Now()] is an
    argument of the functions that read it. *)

From Stdlib Require Import Bool List String Ascii ZArith Lia PeanoNat.
From Stdlib Require Import Strings.Byte.
From Stdlib Require Import Decimal DecimalString.
Import ListNotations.
Local Open Scope string_scope.

(* ===================================================================== *)
(** ** The pieces of Go the validator relies on *)
(* ===================================================================== *)

Module Go.

(** A Go slice is either [nil] or a (possibly empty) sequence; the two are
    told apart by [s == nil] and by the JSON encoder, not by [len]. *)
Inductive slice (A : Type) : Type :=
| nil_slice : slice A
| mk_slice : list A -> slice A.
Arguments nil_slice {A}.
Arguments mk_slice {A} _.

Definition elems {A} (s : slice A) : list A :=
  match s with
  | nil_slice => []
  | mk_slice l => l
  end.

Definition len {A} (s : slice A) : nat := List.length (elems s).

Definition is_nil {A} (s : slice A) : bool :=
  match s with
  | nil_slice => true
  | mk_slice _ => false
  end.

(** [append(s, x)]: the result is never nil. *)
Definition append {A} (s : slice A) (x : A) : slice A :=
  mk_slice (elems s ++ [x])%list.

(** An [error] value is rendered by [%v] as its message; the validator
    does nothing else with it. *)
Definition error : Type := string.

(** [strings.HasPrefix(s, prefix)] *)
Definition HasPrefix (s pre : string) : bool := String.prefix pre s.

(** [strings.Join(elems, sep)] *)
Definition Join (l : list string) (sep : string) : string :=
  String.concat sep l.

(** [fmt.Sprintf("%d", i)] for a loop index. *)
Definition Itoa (i : nat) : string :=
  NilEmpty.string_of_uint (Nat.to_uint i).

(** A [time.Time] as an instant: nanoseconds on the Unix time line.
    [t.After(u)] compares instants. *)
Definition Time : Type := Z.
Definition After (t u : Time) : bool := (u <? t)%Z.

End Go.

(* ===================================================================== *)
(** ** Data model *)
(* ===================================================================== *)

(** [type ValidationResult struct] *)
Record ValidationResult : Type := {
  IsValid : bool;
  Errors : Go.slice string;
  Warnings : Go.slice string
}.

(** [type SecurityInsightsV1 struct]; a field [si.Header.SchemaVersion] of
    the nested anonymous structs is the projection [Header_SchemaVersion]. *)
Module V1.

Record SecurityContact : Type := {
  Type_ : string;
  Value : string
}.

Record SecurityInsightsV1 : Type := {
  Header_SchemaVersion : string;
  Header_ExpirationDate : string;
  Header_LastUpdated : string;
  Header_LastReviewed : string;
  Header_ProjectURL : string;
  ProjectLifecycle_Status : string;
  ProjectLifecycle_BugFixesOnly : bool;
  ContributionPolicy_AcceptsPullRequests : bool;
  ContributionPolicy_AcceptsAutomatedPullRequests : bool;
  SecurityContacts : list SecurityContact;
  VulnerabilityReporting_AcceptsVulnerabilityReports : bool
}.

End V1.

Module sitooling.

Record Person : Type := {
  Name : string;
  Email : string
}.

(** Modelled from the spec: the structure [sitooling.SecurityInsights] of
    [github.com/ossf/si-tooling/v2/si] is declared outside the repository.
    The record keeps the V2 shape the spec lists,
    [header{schema-version, last-updated, last-reviewed, url}],
    [project{name, administrators[]{name,email},
    vulnerability-reporting{reports-accepted}}] and
    [repository{url, status, accepts-change-request,
    accepts-automated-change-request}], with the types the validator's
    uses force: every field it reads is compared with a string, and
    [Header.SchemaVersion] is passed to [strings.HasPrefix]. *)
Record SecurityInsights : Type := {
  Header_SchemaVersion : string;
  Header_LastUpdated : string;
  Header_LastReviewed : string;
  Header_URL : string;
  Project_Name : string;
  Project_Administrators : list Person;
  Project_VulnerabilityReporting_ReportsAccepted : bool;
  Repository_URL : string;
  Repository_Status : string;
  Repository_AcceptsChangeRequest : bool;
  Repository_AcceptsAutomatedChangeRequest : bool
}.

End sitooling.

(** The anonymous [header] struct the router decodes into: only
    [header.schema-version], kept as an [interface{}]. *)
Record HeaderProbe (any : Type) : Type := {
  Header_SchemaVersion : any
}.
Arguments Header_SchemaVersion {any} _.

(** What the validator calls outside its package.  [yaml.Unmarshal(data, &x)]
    is used at three target types; each use either fails with an error or
    fills the target.  [any] is the type of the values the decoder stores in
    an [interface{}] and [Sprint_v] is [fmt.Sprintf("%v", x)] on them.
    [ParseRFC3339 s] is [time.Parse(time.RFC3339, s)]. *)
Class Externals : Type := {
  any : Type;
  Sprint_v : any -> string;
  Unmarshal_header : list byte -> Go.error + HeaderProbe any;
  Unmarshal_V1 : list byte -> Go.error + V1.SecurityInsightsV1;
  Unmarshal_V2 : list byte -> Go.error + sitooling.SecurityInsights;
  ParseRFC3339 : string -> Go.error + Go.Time
}.

(* ===================================================================== *)
(** ** Checks: statements that update the result under construction *)
(* ===================================================================== *)

Definition Check : Type := ValidationResult -> ValidationResult.

Definition skip : Check := fun result => result.

Definition seq (c1 c2 : Check) : Check := fun result => c2 (c1 result).

Notation "c1 ;; c2" := (seq c1 c2) (at level 61, right associativity).

(** [result.IsValid = false] *)
Definition set_invalid : Check := fun result =>
  {| IsValid := false;
     Errors := Errors result;
     Warnings := Warnings result |}.

(** [result.Errors = append(result.Errors, msg)] *)
Definition append_error (msg : string) : Check := fun result =>
  {| IsValid := IsValid result;
     Errors := Go.append (Errors result) msg;
     Warnings := Warnings result |}.

(** [result.Warnings = append(result.Warnings, msg)] *)
Definition append_warning (msg : string) : Check := fun result =>
  {| IsValid := IsValid result;
     Errors := Errors result;
     Warnings := Go.append (Warnings result) msg |}.

(** [&ValidationResult{IsValid: true, Errors: []string{}, Warnings: []string{}}] *)
Definition new_result : ValidationResult :=
  {| IsValid := true;
     Errors := Go.mk_slice [];
     Warnings := Go.mk_slice [] |}.

(** [validStatuses := []string{"active", "archived", "concept", "moved", "wip"}] *)
Definition validStatuses : list string :=
  ["active"; "archived"; "concept"; "moved"; "wip"].

(** The loop [for _, status := range validStatuses] that sets [isValid] and
    breaks at the first match; [isValid] starts out false. *)
Fixpoint status_isValid (s : string) (statuses : list string) : bool :=
  match statuses with
  | [] => false
  | status :: rest => if (s =? status)%string then true else status_isValid s rest
  end.

(* ===================================================================== *)
(** ** The validators *)
(* ===================================================================== *)

Section Validators.

Context {ext : Externals}.

(** [for i, contact := range si.SecurityContacts], from index [i] on. *)
Fixpoint range_SecurityContacts (i : nat) (contacts : list V1.SecurityContact)
  : Check :=
  match contacts with
  | [] => skip
  | contact :: rest =>
      (if (V1.Type_ contact =? "")%string
       then append_warning ("Security contact " ++ Go.Itoa i ++ " missing type")
       else skip) ;;
      (if (V1.Value contact =? "")%string
       then append_warning ("Security contact " ++ Go.Itoa i ++ " missing value")
       else skip) ;;
      range_SecurityContacts (S i) rest
  end.

(** The body of [validateSecurityInsightsV1] after a successful decode. *)
Definition checksV1 (now : Go.Time) (si : V1.SecurityInsightsV1) : Check :=
  (if (V1.Header_SchemaVersion si =? "")%string
   then set_invalid ;;
        append_error "Missing required field: header.schema-version"
   else skip) ;;
  (if (V1.Header_ProjectURL si =? "")%string
   then set_invalid ;;
        append_error "Missing required field: header.project-url"
   else skip) ;;
  (if (V1.Header_ExpirationDate si =? "")%string
   then set_invalid ;;
        append_error "Missing required field: header.expiration-date"
   else match ParseRFC3339 (V1.Header_ExpirationDate si) with
        | inl _ =>
            append_warning "Invalid expiration-date format (should be RFC3339)"
        | inr expirationDate =>
            if Go.After now expirationDate
            then append_warning "File has expired - please update expiration-date"
            else skip
        end) ;;
  (if (V1.Header_LastUpdated si =? "")%string
   then append_warning "Missing recommended field: header.last-updated"
   else skip) ;;
  (if (V1.Header_LastReviewed si =? "")%string
   then append_warning "Missing recommended field: header.last-reviewed"
   else skip) ;;
  (if (V1.ProjectLifecycle_Status si =? "")%string
   then set_invalid ;;
        append_error "Missing required field: project-lifecycle.status"
   else
     let isValid := status_isValid (V1.ProjectLifecycle_Status si) validStatuses in
     if negb isValid
     then append_warning
            ("Unusual project-lifecycle.status: " ++ V1.ProjectLifecycle_Status si
             ++ " (expected one of: " ++ Go.Join validStatuses ", " ++ ")")
     else skip) ;;
  (if (List.length (V1.SecurityContacts si) =? 0)%nat
   then append_warning "No security-contacts specified"
   else range_SecurityContacts 0 (V1.SecurityContacts si)).

(** [func (v *Validator) validateSecurityInsightsV1(data []byte)], which returns a
    [*ValidationResult] and an [error] that is nil on every path. *)
Definition validateSecurityInsightsV1 (now : Go.Time) (data : list byte)
  : ValidationResult * option Go.error :=
  let result := new_result in
  match Unmarshal_V1 data with
  | inl err =>
      ((set_invalid ;; append_error ("Invalid YAML: " ++ err)) result, None)
  | inr si => (checksV1 now si result, None)
  end.

(** [for i, admin := range insights.Project.Administrators], from index [i] on. *)
Fixpoint range_Administrators (i : nat) (admins : list sitooling.Person)
  : Check :=
  match admins with
  | [] => skip
  | admin :: rest =>
      (if (sitooling.Name admin =? "")%string
       then append_warning ("Administrator " ++ Go.Itoa i ++ " missing name")
       else skip) ;;
      (if (sitooling.Email admin =? "")%string
       then append_warning ("Administrator " ++ Go.Itoa i ++ " missing email")
       else skip) ;;
      range_Administrators (S i) rest
  end.

(** The body of [validateSecurityInsightsV2] after the schema version has
    been accepted. *)
Definition checksV2 (insights : sitooling.SecurityInsights) : Check :=
  (if (sitooling.Header_LastUpdated insights =? "")%string
   then append_warning "Missing recommended field: header.last-updated"
   else skip) ;;
  (if (sitooling.Header_LastReviewed insights =? "")%string
   then append_warning "Missing recommended field: header.last-reviewed"
   else skip) ;;
  (if (sitooling.Header_URL insights =? "")%string
   then set_invalid ;;
        append_error "Missing required field: header.url"
   else skip) ;;
  (if (sitooling.Project_Name insights =? "")%string
   then append_warning "Missing recommended field: project.name"
   else skip) ;;
  (if (List.length (sitooling.Project_Administrators insights) =? 0)%nat
   then append_warning "No project administrators specified"
   else range_Administrators 0 (sitooling.Project_Administrators insights)) ;;
  (if (sitooling.Repository_URL insights =? "")%string
   then set_invalid ;;
        append_error "Missing required field: repository.url"
   else skip) ;;
  (if (sitooling.Repository_Status insights =? "")%string
   then set_invalid ;;
        append_error "Missing required field: repository.status"
   else
     let isValid := status_isValid (sitooling.Repository_Status insights) validStatuses in
     if negb isValid
     then append_warning
            ("Unusual repository.status: " ++ sitooling.Repository_Status insights
             ++ " (expected one of: " ++ Go.Join validStatuses ", " ++ ")")
     else skip).

(** [func (v *Validator) validateSecurityInsightsV2(data []byte)], which returns a
    [*ValidationResult] and an [error] that is nil on every path. *)
Definition validateSecurityInsightsV2 (data : list byte)
  : ValidationResult * option Go.error :=
  let result := new_result in
  match Unmarshal_V2 data with
  | inl err =>
      ((set_invalid ;; append_error ("Schema validation failed: " ++ err)) result,
       None)
  | inr insights =>
      if negb (Go.HasPrefix (sitooling.Header_SchemaVersion insights) "2.")
      then ((set_invalid ;;
             append_error ("Invalid schema version: "
                           ++ sitooling.Header_SchemaVersion insights
                           ++ " (expected 2.x.x)")) result,
            None)
      else (checksV2 insights result, None)
  end.

(** [func (v *Validator) validateSecurityInsights(data []byte)], which returns a
    [*ValidationResult] and an [error] that is nil on every path. *)
Definition validateSecurityInsights (now : Go.Time) (data : list byte)
  : ValidationResult * option Go.error :=
  let result := new_result in
  match Unmarshal_header data with
  | inl err =>
      ((set_invalid ;; append_error ("Invalid YAML: " ++ err)) result, None)
  | inr header =>
      let schemaVersion := Sprint_v (Header_SchemaVersion header) in
      if Go.HasPrefix schemaVersion "2."
      then validateSecurityInsightsV2 data
      else validateSecurityInsightsV1 now data
  end.

End Validators.

(* ===================================================================== *)
(** ** What a run contributes *)
(* ===================================================================== *)

(** The errors and warnings a run of the checks adds, written as lists: one
    segment per block of the validator, in the order of the blocks.  The
    lemmas below show that the validators compute exactly these lists. *)

(** [len(es) == 0] *)
Definition no_errors (es : list string) : bool :=
  match es with
  | [] => true
  | _ :: _ => false
  end.

(** A slice after the messages [l] have been appended to it one by one. *)
Definition extend (s : Go.slice string) (l : list string) : Go.slice string :=
  match l with
  | [] => s
  | _ :: _ => Go.mk_slice (Go.elems s ++ l)%list
  end.

(** The check [c] appends the errors [es] and the warnings [ws], and clears
    [IsValid] exactly when [es] is not empty. *)
Definition adds (c : Check) (es ws : list string) : Prop :=
  forall result,
    c result = {| IsValid := IsValid result && no_errors es;
                  Errors := extend (Errors result) es;
                  Warnings := extend (Warnings result) ws |}.

Definition required (field value : string) : list string :=
  if (value =? "")%string then ["Missing required field: " ++ field] else [].

Definition recommended (field value : string) : list string :=
  if (value =? "")%string then ["Missing recommended field: " ++ field] else [].

Definition unusual (field value : string) : list string :=
  if (value =? "")%string then []
  else if status_isValid value validStatuses then []
       else ["Unusual " ++ field ++ ": " ++ value
             ++ " (expected one of: active, archived, concept, moved, wip)"].

Fixpoint contact_warnings (i : nat) (contacts : list V1.SecurityContact)
  : list string :=
  match contacts with
  | [] => []
  | contact :: rest =>
      ((if (V1.Type_ contact =? "")%string
        then [("Security contact " ++ Go.Itoa i ++ " missing type")%string] else [])
       ++ (if (V1.Value contact =? "")%string
           then [("Security contact " ++ Go.Itoa i ++ " missing value")%string] else [])
       ++ contact_warnings (S i) rest)%list
  end.

Fixpoint administrator_warnings (i : nat) (admins : list sitooling.Person)
  : list string :=
  match admins with
  | [] => []
  | admin :: rest =>
      ((if (sitooling.Name admin =? "")%string
        then [("Administrator " ++ Go.Itoa i ++ " missing name")%string] else [])
       ++ (if (sitooling.Email admin =? "")%string
           then [("Administrator " ++ Go.Itoa i ++ " missing email")%string] else [])
       ++ administrator_warnings (S i) rest)%list
  end.

Section Summaries.

Context {ext : Externals}.

(** The warnings of the V1 checks that do not look at
    [header.expiration-date] or at the clock. *)
Definition other_warningsV1 (si : V1.SecurityInsightsV1) : list string :=
  (recommended "header.last-updated" (V1.Header_LastUpdated si)
   ++ recommended "header.last-reviewed" (V1.Header_LastReviewed si)
   ++ unusual "project-lifecycle.status" (V1.ProjectLifecycle_Status si)
   ++ (if (List.length (V1.SecurityContacts si) =? 0)%nat
       then ["No security-contacts specified"]
       else contact_warnings 0 (V1.SecurityContacts si)))%list.

(** The errors of the V1 checks on the fields other than
    [header.expiration-date]; the first two are raised before that field
    is looked at and the third after. *)
Definition early_errorsV1 (si : V1.SecurityInsightsV1) : list string :=
  (required "header.schema-version" (V1.Header_SchemaVersion si)
   ++ required "header.project-url" (V1.Header_ProjectURL si))%list.

Definition late_errorsV1 (si : V1.SecurityInsightsV1) : list string :=
  required "project-lifecycle.status" (V1.ProjectLifecycle_Status si).

(** What the block on [header.expiration-date] warns about. *)
Definition expiration_warnings (now : Go.Time) (value : string) : list string :=
  if (value =? "")%string then []
  else match ParseRFC3339 value with
       | inl _ => ["Invalid expiration-date format (should be RFC3339)"]
       | inr expirationDate =>
           if Go.After now expirationDate
           then ["File has expired - please update expiration-date"]
           else []
       end.

Definition errorsV1 (si : V1.SecurityInsightsV1) : list string :=
  (early_errorsV1 si
   ++ required "header.expiration-date" (V1.Header_ExpirationDate si)
   ++ late_errorsV1 si)%list.

Definition warningsV1 (now : Go.Time) (si : V1.SecurityInsightsV1)
  : list string :=
  (expiration_warnings now (V1.Header_ExpirationDate si)
   ++ other_warningsV1 si)%list.

Definition errorsV2 (insights : sitooling.SecurityInsights) : list string :=
  (required "header.url" (sitooling.Header_URL insights)
   ++ required "repository.url" (sitooling.Repository_URL insights)
   ++ required "repository.status" (sitooling.Repository_Status insights))%list.

Definition warningsV2 (insights : sitooling.SecurityInsights) : list string :=
  (recommended "header.last-updated" (sitooling.Header_LastUpdated insights)
   ++ recommended "header.last-reviewed" (sitooling.Header_LastReviewed insights)
   ++ recommended "project.name" (sitooling.Project_Name insights)
   ++ (if (List.length (sitooling.Project_Administrators insights) =? 0)%nat
       then ["No project administrators specified"]
       else administrator_warnings 0 (sitooling.Project_Administrators insights))
   ++ unusual "repository.status" (sitooling.Repository_Status insights))%list.

(** The result of a call that collected the errors [es] and the warnings
    [ws]. *)
Definition collected (es ws : list string) : ValidationResult :=
  {| IsValid := no_errors es;
     Errors := Go.mk_slice es;
     Warnings := Go.mk_slice ws |}.

(** The result of a call that stopped at its one fatal error. *)
Definition rejected (msg : string) : ValidationResult :=
  {| IsValid := false;
     Errors := Go.mk_slice [msg];
     Warnings := Go.mk_slice [] |}.

(** The clock readings [now1] and [now2] fall on the same side of the
    expiration date of [data], if [data] decodes as a V1 document that
    carries a well-formed one. *)
Definition same_side_of_expiration (data : list byte) (now1 now2 : Go.Time)
  : Prop :=
  forall si expirationDate,
    Unmarshal_V1 data = inr si ->
    ParseRFC3339 (V1.Header_ExpirationDate si) = inr expirationDate ->
    Go.After now1 expirationDate = Go.After now2 expirationDate.

(** The decode that a call reaches first on its way fails: the router's,
    or else the full decode of the validator the router selects. *)
Definition decode_fails (data : list byte) : Prop :=
  match Unmarshal_header data with
  | inl _ => True
  | inr header =>
      if Go.HasPrefix (Sprint_v (Header_SchemaVersion header)) "2."
      then exists err, Unmarshal_V2 data = inl err
      else exists err, Unmarshal_V1 data = inl err
  end.

End Summaries.

(* ===================================================================== *)
(** ** Sample documents and a decoder for them *)
(* ===================================================================== *)

(** The documents of [validator_test.go], with a few more of the V2 shape,
    and an instance of [Externals] that decodes exactly these documents.  It
    is a stand-in for the YAML decoder on a finite set of buffers: the
    validator is run on them below to replay the test table and to give the
    general theorems concrete inputs. *)
Module Fixtures.

(** The values the decoder leaves in the [interface{}] field: nothing
    (absent key), or a string scalar.  [%v] prints a nil interface as
    [<nil>] and a string as itself. *)
Inductive scalar : Type :=
| Absent : scalar
| Str : string -> scalar.

Definition render (x : scalar) : string :=
  match x with
  | Absent => "<nil>"
  | Str s => s
  end.

(** A buffer together with what decoding it into each target yields. *)
Record Document : Type := {
  content : string;
  as_header : HeaderProbe scalar;
  as_V1 : V1.SecurityInsightsV1;
  as_V2 : sitooling.SecurityInsights
}.

Definition bytes (d : Document) : list byte := list_byte_of_string (content d).

Definition emailContact : V1.SecurityContact :=
  {| V1.Type_ := "email"; V1.Value := "security@example.com" |}.

(** A V1 structure from the fields the sample documents set; the booleans
    the validator never reads are left at their zero value. *)
Definition mkV1 (schemaVersion expirationDate lastUpdated lastReviewed
                   projectURL status : string)
                (contacts : list V1.SecurityContact) : V1.SecurityInsightsV1 :=
  {| V1.Header_SchemaVersion := schemaVersion;
     V1.Header_ExpirationDate := expirationDate;
     V1.Header_LastUpdated := lastUpdated;
     V1.Header_LastReviewed := lastReviewed;
     V1.Header_ProjectURL := projectURL;
     V1.ProjectLifecycle_Status := status;
     V1.ProjectLifecycle_BugFixesOnly := false;
     V1.ContributionPolicy_AcceptsPullRequests := false;
     V1.ContributionPolicy_AcceptsAutomatedPullRequests := false;
     V1.SecurityContacts := contacts;
     V1.VulnerabilityReporting_AcceptsVulnerabilityReports := false |}.

Definition mkV2 (schemaVersion lastUpdated lastReviewed url name : string)
                (admins : list sitooling.Person)
                (repoURL status : string) : sitooling.SecurityInsights :=
  {| sitooling.Header_SchemaVersion := schemaVersion;
     sitooling.Header_LastUpdated := lastUpdated;
     sitooling.Header_LastReviewed := lastReviewed;
     sitooling.Header_URL := url;
     sitooling.Project_Name := name;
     sitooling.Project_Administrators := admins;
     sitooling.Project_VulnerabilityReporting_ReportsAccepted := false;
     sitooling.Repository_URL := repoURL;
     sitooling.Repository_Status := status;
     sitooling.Repository_AcceptsChangeRequest := false;
     sitooling.Repository_AcceptsAutomatedChangeRequest := false |}.

(** A document of the V1 shape: the V2 target sees its header only. *)
Definition docV1 (text : string) (si : V1.SecurityInsightsV1) : Document :=
  {| content := text;
     as_header := {| Header_SchemaVersion := Str (V1.Header_SchemaVersion si) |};
     as_V1 := si;
     as_V2 := mkV2 (V1.Header_SchemaVersion si) (V1.Header_LastUpdated si)
                   (V1.Header_LastReviewed si) "" "" [] "" "" |}.

(** A document of the V2 shape: the V1 target sees its header only. *)
Definition docV2 (text : string) (insights : sitooling.SecurityInsights)
  : Document :=
  {| content := text;
     as_header :=
       {| Header_SchemaVersion := Str (sitooling.Header_SchemaVersion insights) |};
     as_V1 := mkV1 (sitooling.Header_SchemaVersion insights) ""
                   (sitooling.Header_LastUpdated insights)
                   (sitooling.Header_LastReviewed insights) "" "" [];
     as_V2 := insights |}.

(** Test case "valid minimal file". *)
Definition valid_minimal_file : Document := docV1
"header:
  schema-version: '1.0.0'
  expiration-date: '2026-12-31T23:59:59Z'
  last-updated: '2025-01-01T00:00:00Z'
  last-reviewed: '2025-01-01T00:00:00Z'
  project-url: https://github.com/example/repo

project-lifecycle:
  status: active
  bug-fixes-only: false

contribution-policy:
  accepts-pull-requests: true
  accepts-automated-pull-requests: true

security-contacts:
  - type: email
    value: security@example.com

vulnerability-reporting:
  accepts-vulnerability-reports: true
"
  {| V1.Header_SchemaVersion := "1.0.0";
     V1.Header_ExpirationDate := "2026-12-31T23:59:59Z";
     V1.Header_LastUpdated := "2025-01-01T00:00:00Z";
     V1.Header_LastReviewed := "2025-01-01T00:00:00Z";
     V1.Header_ProjectURL := "https://github.com/example/repo";
     V1.ProjectLifecycle_Status := "active";
     V1.ProjectLifecycle_BugFixesOnly := false;
     V1.ContributionPolicy_AcceptsPullRequests := true;
     V1.ContributionPolicy_AcceptsAutomatedPullRequests := true;
     V1.SecurityContacts := [emailContact];
     V1.VulnerabilityReporting_AcceptsVulnerabilityReports := true |}.

(** Test case "missing required fields". *)
Definition missing_required_fields : Document := docV1
"header:
  schema-version: ''
  expiration-date: ''
  project-url: ''

project-lifecycle:
  status: ''
"
  (mkV1 "" "" "" "" "" "" []).

(** Test case "missing recommended fields". *)
Definition missing_recommended_fields : Document := docV1
"header:
  schema-version: '1.0.0'
  expiration-date: '2026-12-31T23:59:59Z'
  project-url: https://github.com/example/repo

project-lifecycle:
  status: active
"
  (mkV1 "1.0.0" "2026-12-31T23:59:59Z" "" ""
        "https://github.com/example/repo" "active" []).

(** Test case "expired file". *)
Definition expired_file : Document := docV1
"header:
  schema-version: '1.0.0'
  expiration-date: '2020-01-01T00:00:00Z'
  last-updated: '2020-01-01T00:00:00Z'
  last-reviewed: '2020-01-01T00:00:00Z'
  project-url: https://github.com/example/repo

project-lifecycle:
  status: active

security-contacts:
  - type: email
    value: security@example.com
"
  (mkV1 "1.0.0" "2020-01-01T00:00:00Z" "2020-01-01T00:00:00Z"
        "2020-01-01T00:00:00Z" "https://github.com/example/repo" "active"
        [emailContact]).

(** Test case "invalid YAML": no decoding exists for it. *)
Definition invalid_YAML : string := "this is not: valid: yaml:".

(** A V1 document whose expiration date is not a timestamp and whose
    status is outside the usual set. *)
Definition odd_date_and_status : Document := docV1
"header:
  schema-version: '1.0.0'
  expiration-date: 'next year'
  last-updated: '2025-01-01T00:00:00Z'
  last-reviewed: '2025-01-01T00:00:00Z'
  project-url: https://github.com/example/repo

project-lifecycle:
  status: experimental

security-contacts:
  - type: email
    value: security@example.com
"
  (mkV1 "1.0.0" "next year" "2025-01-01T00:00:00Z" "2025-01-01T00:00:00Z"
        "https://github.com/example/repo" "experimental" [emailContact]).

Definition alice : sitooling.Person :=
  {| sitooling.Name := "Alice"; sitooling.Email := "alice@example.com" |}.

(** A complete V2 document. *)
Definition v2_complete : Document := docV2
"header:
  schema-version: '2.0.0'
  last-updated: '2025-01-01'
  last-reviewed: '2025-01-01'
  url: https://github.com/example/repo/SECURITY-INSIGHTS.yml

project:
  name: example
  administrators:
    - name: Alice
      email: alice@example.com

repository:
  url: https://github.com/example/repo
  status: active
"
  (mkV2 "2.0.0" "2025-01-01" "2025-01-01"
        "https://github.com/example/repo/SECURITY-INSIGHTS.yml" "example"
        [alice] "https://github.com/example/repo" "active").

(** The same with an unusual [repository.status]. *)
Definition v2_unusual_status : Document := docV2
"header:
  schema-version: '2.0.0'
  last-updated: '2025-01-01'
  last-reviewed: '2025-01-01'
  url: https://github.com/example/repo/SECURITY-INSIGHTS.yml

project:
  name: example
  administrators:
    - name: Alice
      email: alice@example.com

repository:
  url: https://github.com/example/repo
  status: experimental
"
  (mkV2 "2.0.0" "2025-01-01" "2025-01-01"
        "https://github.com/example/repo/SECURITY-INSIGHTS.yml" "example"
        [alice] "https://github.com/example/repo" "experimental").

(** A V2 document with its three required fields empty. *)
Definition v2_missing_required : Document := docV2
"header:
  schema-version: '2.0.0'
  last-updated: '2025-01-01'
  last-reviewed: '2025-01-01'
  url: ''

project:
  name: example
  administrators:
    - name: Alice
      email: alice@example.com

repository:
  url: ''
  status: ''
"
  (mkV2 "2.0.0" "2025-01-01" "2025-01-01" "" "example" [alice] "" "").

(** A document of the V2 shape that declares schema version 1.0.0 and an
    unusual [repository.status]. *)
Definition v2_shape_version_1 : Document := docV2
"header:
  schema-version: '1.0.0'
  last-updated: '2025-01-01'
  last-reviewed: '2025-01-01'
  url: https://github.com/example/repo/SECURITY-INSIGHTS.yml

repository:
  url: https://github.com/example/repo
  status: experimental
"
  (mkV2 "1.0.0" "2025-01-01" "2025-01-01"
        "https://github.com/example/repo/SECURITY-INSIGHTS.yml" "" []
        "https://github.com/example/repo" "experimental").

Definition documents : list Document :=
  [valid_minimal_file; missing_required_fields; missing_recommended_fields;
   expired_file; odd_date_and_status; v2_complete; v2_unusual_status;
   v2_missing_required; v2_shape_version_1].

(** Decoding a buffer: the decoding of the sample document with these
    bytes, and for any other buffer the error the decoder gives for
    [invalid_YAML]. *)
Definition decode {T : Type} (target : Document -> T) (data : list byte)
  : Go.error + T :=
  match find (fun d => (content d =? string_of_list_byte data)%string) documents with
  | Some d => inr (target d)
  | None => inl "yaml: mapping values are not allowed in this context"
  end.

(** The timestamps the sample documents use, as Unix nanoseconds. *)
Definition timestamps : list (string * Go.Time) :=
  [("2020-01-01T00:00:00Z", 1577836800000000000%Z);
   ("2025-01-01T00:00:00Z", 1735689600000000000%Z);
   ("2026-12-31T23:59:59Z", 1798761599000000000%Z)].

Definition parse_timestamp (s : string) : Go.error + Go.Time :=
  match find (fun e => (fst e =? s)%string) timestamps with
  | Some e => inr (snd e)
  | None => inl ("parsing time " ++ s ++ ": not an RFC3339 timestamp")
  end.

Definition sample : Externals := {|
  any := scalar;
  Sprint_v := render;
  Unmarshal_header := decode as_header;
  Unmarshal_V1 := decode as_V1;
  Unmarshal_V2 := decode as_V2;
  ParseRFC3339 := parse_timestamp
|}.

(** 2026-01-01T00:00:00Z, a clock reading between the two expiration dates
    of the test table. *)
Definition new_year_2026 : Go.Time := 1767225600000000000%Z.

End Fixtures.

(* ===================================================================== *)
(** ** The decoder in two stages *)
(* ===================================================================== *)

(** [yaml.Unmarshal] works in two stages.  The parser reads the bytes into
    a document node and fails on a syntax error; the decoder then fills the
    target from the node and fails, with a type error, where a node does
    not fit the type of the target.  A buffer is well-formed YAML when the
    parser accepts it, whatever the decoder makes of its node. *)
Record Decoder : Type := {
  Node : Type;
  Dynamic : Type;
  Render : Dynamic -> string;
  Parse : list byte -> Go.error + Node;
  Decode_header : Node -> Go.error + HeaderProbe Dynamic;
  Decode_V1 : Node -> Go.error + V1.SecurityInsightsV1;
  Decode_V2 : Node -> Go.error + sitooling.SecurityInsights;
  Parse_time : string -> Go.error + Go.Time
}.

(** [yaml.Unmarshal(data, &target)]: parse, then decode. *)
Definition Unmarshal {T : Type} (y : Decoder) (decode : Node y -> Go.error + T)
           (data : list byte) : Go.error + T :=
  match Parse y data with
  | inl err => inl err
  | inr node => decode node
  end.

Definition externals_of (y : Decoder) : Externals := {|
  any := Dynamic y;
  Sprint_v := Render y;
  Unmarshal_header := Unmarshal y (Decode_header y);
  Unmarshal_V1 := Unmarshal y (Decode_V1 y);
  Unmarshal_V2 := Unmarshal y (Decode_V2 y);
  ParseRFC3339 := Parse_time y
|}.

Definition well_formed (y : Decoder) (data : list byte) : Prop :=
  exists node, Parse y data = inr node.

(** The sample documents once more, with two documents on which the three
    targets of the validator disagree. *)
Module Samples.

(** What the decoder stores in an [interface{}]: nothing, a string, or a
    [float64], kept as the text that [%v] prints for it. *)
Inductive dynamic : Type :=
| Nil
| Text (s : string)
| Float64 (printed : string).

Definition render (v : dynamic) : string :=
  match v with
  | Nil => "<nil>"
  | Text s => s
  | Float64 printed => printed
  end.

(** A parsed document, by what each of the three targets gets from it. *)
Record node : Type := {
  to_header : Go.error + HeaderProbe dynamic;
  to_V1 : Go.error + V1.SecurityInsightsV1;
  to_V2 : Go.error + sitooling.SecurityInsights
}.

Definition of_scalar (v : Fixtures.scalar) : dynamic :=
  match v with
  | Fixtures.Absent => Nil
  | Fixtures.Str s => Text s
  end.

Definition of_document (d : Fixtures.Document) : node := {|
  to_header :=
    inr {| Header_SchemaVersion :=
             of_scalar (Header_SchemaVersion (Fixtures.as_header d)) |};
  to_V1 := inr (Fixtures.as_V1 d);
  to_V2 := inr (Fixtures.as_V2 d)
|}.

Definition quote : string := String "034"%char EmptyString.

Definition backslash : string := String "092"%char EmptyString.

(** The struct tag [yaml:"name"] as a struct type prints it. *)
Definition tag (name : string) : string :=
  quote ++ "yaml:" ++ backslash ++ quote ++ name ++ backslash ++ quote ++ quote.

(** The type error of the decoder for the integer 5 on line 1 where the
    target, of the type [target], takes a mapping. *)
Definition cannot_unmarshal (target : string) : Go.error :=
  "yaml: unmarshal errors:
  line 1: cannot unmarshal !!int `5` into " ++ target.

(** A well-formed document whose [header] is a number, not a mapping: none
    of the three targets can take it. *)
Definition scalar_header_text : string :=
"header: 5
".

Definition scalar_header : node := {|
  to_header :=
    inl (cannot_unmarshal
           ("struct { SchemaVersion interface {} " ++ tag "schema-version" ++ " }"));
  to_V1 :=
    inl (cannot_unmarshal
           ("struct { SchemaVersion string " ++ tag "schema-version"
            ++ "; ExpirationDate string " ++ tag "expiration-date"
            ++ "; LastUpdated string " ++ tag "last-updated"
            ++ "; LastReviewed string " ++ tag "last-reviewed"
            ++ "; ProjectURL string " ++ tag "project-url" ++ " }"));
  to_V2 := inl (cannot_unmarshal "si.Header")
|}.

(** A V2 document whose [schema-version] is the plain scalar [25e-1].  The
    scalar is a YAML float: the router's [interface{}] gets the number 2.5,
    which [%v] prints as 2.5, while a target field of type [string] gets
    the text of the scalar as it is written. *)
Definition float_version_text : string :=
"header:
  schema-version: 25e-1
  last-updated: '2025-01-01'
  last-reviewed: '2025-01-01'
  url: https://github.com/example/repo/SECURITY-INSIGHTS.yml

project:
  name: example
  administrators:
    - name: Alice
      email: alice@example.com

repository:
  url: https://github.com/example/repo
  status: experimental
".

Definition float_version : node := {|
  to_header := inr {| Header_SchemaVersion := Float64 "2.5" |};
  to_V1 := inr (Fixtures.mkV1 "25e-1" "" "2025-01-01" "2025-01-01" "" "" []);
  to_V2 :=
    inr (Fixtures.mkV2 "25e-1" "2025-01-01" "2025-01-01"
           "https://github.com/example/repo/SECURITY-INSIGHTS.yml" "example"
           [Fixtures.alice] "https://github.com/example/repo" "experimental")
|}.

Definition parsed : list (string * node) :=
  (scalar_header_text, scalar_header)
  :: (float_version_text, float_version)
  :: map (fun d => (Fixtures.content d, of_document d)) Fixtures.documents.

(** The parser: the node of the sample document with these bytes, and for
    any other buffer the syntax error of [Fixtures.invalid_YAML]. *)
Definition parse (data : list byte) : Go.error + node :=
  match find (fun e => (fst e =? string_of_list_byte data)%string) parsed with
  | Some e => inr (snd e)
  | None => inl "yaml: mapping values are not allowed in this context"
  end.

Definition yaml : Decoder := {|
  Node := node;
  Dynamic := dynamic;
  Render := render;
  Parse := parse;
  Decode_header := to_header;
  Decode_V1 := to_V1;
  Decode_V2 := to_V2;
  Parse_time := Fixtures.parse_timestamp
|}.

Definition sample : Externals := externals_of yaml.

End Samples.

(* ===================================================================== *)
(** ** The rest of the program: what it takes from packages strings and os *)
(* ===================================================================== *)

(** Package [strings], on Go strings as sequences of bytes. *)
Module strings.

(** [c < utf8.RuneSelf] *)
Definition is_ascii (c : ascii) : bool := (nat_of_ascii c <? 128)%nat.

(** ['A' <= c && c <= 'Z'] *)
Definition is_upper (c : ascii) : bool :=
  ((65 <=? nat_of_ascii c) && (nat_of_ascii c <=? 90))%nat.

(** ['a' <= c && c <= 'z'] *)
Definition is_lower (c : ascii) : bool :=
  ((97 <=? nat_of_ascii c) && (nat_of_ascii c <=? 122))%nat.

(** [c += 'a' - 'A'] on an upper-case letter. *)
Definition lower_byte (c : ascii) : ascii :=
  if is_upper c then ascii_of_nat (nat_of_ascii c + 32) else c.

(** [c -= 'a' - 'A'] on a lower-case letter. *)
Definition upper_byte (c : ascii) : ascii :=
  if is_lower c then ascii_of_nat (nat_of_ascii c - 32) else c.

Fixpoint isASCII (s : string) : bool :=
  match s with
  | EmptyString => true
  | String c rest => is_ascii c && isASCII rest
  end.

Fixpoint hasUpper (s : string) : bool :=
  match s with
  | EmptyString => false
  | String c rest => is_upper c || hasUpper rest
  end.

Fixpoint hasLower (s : string) : bool :=
  match s with
  | EmptyString => false
  | String c rest => is_lower c || hasLower rest
  end.

Fixpoint map_bytes (f : ascii -> ascii) (s : string) : string :=
  match s with
  | EmptyString => EmptyString
  | String c rest => String (f c) (map_bytes f rest)
  end.

(** [strings.ToLower(s)]: a string of ASCII bytes is lowered byte by byte
    (and returned as it is when it has no upper-case letter); any other
    string goes through the Unicode tables, [unicode_ToLower] here. *)
Definition ToLower (unicode_ToLower : string -> string) (s : string) : string :=
  if isASCII s
  then if hasUpper s then map_bytes lower_byte s else s
  else unicode_ToLower s.

(** [strings.ToUpper(s)], in the same way. *)
Definition ToUpper (unicode_ToUpper : string -> string) (s : string) : string :=
  if isASCII s
  then if hasLower s then map_bytes upper_byte s else s
  else unicode_ToUpper s.

(** [strings.Contains(s, substr)]: [substr] starts at some offset of [s]. *)
Fixpoint Contains (s substr : string) : bool :=
  if String.prefix substr s then true
  else match s with
       | EmptyString => false
       | String _ rest => Contains rest substr
       end.

(** [s[n:]] for [n <= len(s)]. *)
Fixpoint drop (n : nat) (s : string) : string :=
  match n, s with
  | O, _ => s
  | S n', String _ rest => drop n' rest
  | S _, EmptyString => EmptyString
  end.

(** [s[:n]] for [n <= len(s)]. *)
Fixpoint take (n : nat) (s : string) : string :=
  match n, s with
  | O, _ => EmptyString
  | S n', String c rest => String c (take n' rest)
  | S _, EmptyString => EmptyString
  end.

(** [strings.HasSuffix(s, suffix)]:
    [len(s) >= len(suffix) && s[len(s)-len(suffix):] == suffix]. *)
Definition HasSuffix (s suffix : string) : bool :=
  (String.length suffix <=? String.length s)%nat
  && (drop (String.length s - String.length suffix) s =? suffix)%string.

(** [strings.TrimSuffix(s, suffix)] *)
Definition TrimSuffix (s suffix : string) : string :=
  if HasSuffix s suffix
  then take (String.length s - String.length suffix) s
  else s.

(** [strings.Replace(s, old, new, 1)]: the first occurrence of [old] in
    [s], if there is one, is replaced by [new]. *)
Fixpoint Replace1 (s old new : string) : string :=
  if String.prefix old s then new ++ drop (String.length old) s
  else match s with
       | EmptyString => EmptyString
       | String c rest => String c (Replace1 rest old new)
       end.

(** [strings.Split(s, sep)] for a separator of one byte: the pieces of [s]
    between the separators, the empty ones included; the empty string
    splits into one empty piece. *)
Fixpoint Split_byte (s : string) (sep : ascii) : list string :=
  match s with
  | EmptyString => [EmptyString]
  | String c rest =>
      if Ascii.eqb c sep then EmptyString :: Split_byte rest sep
      else match Split_byte rest sep with
           | [] => [String c EmptyString]
           | piece :: pieces => String c piece :: pieces
           end
  end.

(** [strings.Split(s, ",")] *)
Definition Split (s : string) (sep : string) : list string :=
  match sep with
  | String c EmptyString => Split_byte s c
  | _ => [s]
  end.

(** [strings.Repeat(s, count)] *)
Fixpoint Repeat (s : string) (count : nat) : string :=
  match count with
  | O => EmptyString
  | S n => s ++ Repeat s n
  end.

End strings.

(** The outcome of [os.Stat(path)], by what the callers ask of its error:
    [err == nil], [os.IsNotExist(err)], or neither. *)
Inductive stat_result : Type :=
| StatFound : stat_result
| StatNotExist : Go.error -> stat_result
| StatFailed : Go.error -> stat_result.

(** [_, err := os.Stat(path); err == nil] *)
Definition stat_ok (r : stat_result) : bool :=
  match r with
  | StatFound => true
  | _ => false
  end.

(** [_, err := os.Stat(path); os.IsNotExist(err)] *)
Definition stat_IsNotExist (r : stat_result) : bool :=
  match r with
  | StatNotExist _ => true
  | _ => false
  end.

(** What the rest of the program asks of the machine it runs on, as seen
    during one call: the file system through [os.ReadFile] and [os.Stat],
    path arithmetic through [filepath.Join] and [filepath.Base], and the
    Unicode case tables
    behind [strings.ToLower] and [strings.ToUpper]. *)
Class System : Type := {
  ReadFile : string -> Go.error + list byte;
  Stat : string -> stat_result;
  Join : list string -> string;
  Base : string -> string;
  unicode_ToLower : string -> string;
  unicode_ToUpper : string -> string
}.

(** How a command ends: it returns its [error], or the process stops in
    [os.Exit], or the run panics. *)
Inductive outcome : Type :=
| Return : option Go.error -> outcome
| Exit : Z -> outcome
| Panic : string -> outcome.

Section Commands.

Context {ext : Externals} {sys : System}.

(** [func (v *Validator) ValidateFile(path string)], which returns a
    [*ValidationResult], nil here as [None], and an [error]. *)
Definition ValidateFile (now : Go.Time) (path : string)
  : option ValidationResult * option Go.error :=
  match ReadFile path with
  | inl err => (None, Some ("failed to read file: " ++ err))
  | inr data =>
      let filename := strings.ToLower unicode_ToLower path in
      if strings.Contains filename "security-insights"
      then let (result, err) := validateSecurityInsights now data in
           (Some result, err)
      else (None, Some ("unknown file type: " ++ path))
  end.

(** One [fmt.Printf("  - %s\n", e)] per element, in order. *)
Definition print_items (items : list string) : list string :=
  map (fun e => "  - " ++ e ++ "
") items.

(** [func runValidate(cmd *cobra.Command, args []string) error], with what
    it writes to standard output, one string per print statement. *)
Definition runValidate (now : Go.Time) (args : list string)
  : list string * outcome :=
  match args with
  | [] => ([], Panic "index out of range [0] with length 0")
  | filePath :: _ =>
      if stat_IsNotExist (Stat filePath)
      then ([], Return (Some ("file does not exist: " ++ filePath)))
      else
        match ValidateFile now filePath with
        | (_, Some err) => ([], Return (Some ("validation failed: " ++ err)))
        | (None, None) => ([], Panic "nil pointer dereference")
        | (Some result, None) =>
            if IsValid result
            then (["✓ " ++ filePath ++ " is valid
"], Return None)
            else
              let header := "✗ " ++ filePath ++ " is invalid:
" in
              let warnings :=
                if (0 <? Go.len (Warnings result))%nat
                then "
Warnings:
" :: print_items (Go.elems (Warnings result))
                else [] in
              (header :: (print_items (Go.elems (Errors result)) ++ warnings)%list,
               Exit 1)
        end
  end.

End Commands.

(* ===================================================================== *)
(** ** The checker *)
(* ===================================================================== *)

Module checker.

(** [type FileCheck struct] *)
Record FileCheck : Type := {
  Name : string;
  Path : string;
  Exists : bool;
  Valid : bool;
  Errors : Go.slice string;
  Warnings : Go.slice string
}.

(** [type Recommendation struct] *)
Record Recommendation : Type := {
  Priority : string;
  Category : string;
  Description : string;
  Action : string
}.

(** [type CheckResult struct]; its field [Path] is [Result_Path] here. *)
Record CheckResult : Type := {
  Result_Path : string;
  IsCompliant : bool;
  Files : Go.slice FileCheck;
  MissingFiles : Go.slice string;
  Recommendations : Go.slice Recommendation
}.

(** [type Checker struct] *)
Record Checker : Type := {
  repoPath : string
}.

(** [func New(repoPath string) *Checker] *)
Definition New (path : string) : Checker := {| repoPath := path |}.

(** [result.Files = append(result.Files, check)] *)
Definition add_file (check : FileCheck) (result : CheckResult) : CheckResult :=
  {| Result_Path := Result_Path result;
     IsCompliant := IsCompliant result;
     Files := Go.append (Files result) check;
     MissingFiles := MissingFiles result;
     Recommendations := Recommendations result |}.

(** [result.MissingFiles = append(result.MissingFiles, name)] *)
Definition add_missing (name : string) (result : CheckResult) : CheckResult :=
  {| Result_Path := Result_Path result;
     IsCompliant := IsCompliant result;
     Files := Files result;
     MissingFiles := Go.append (MissingFiles result) name;
     Recommendations := Recommendations result |}.

(** [result.Recommendations = append(result.Recommendations, rec)] *)
Definition add_recommendation (rec : Recommendation) (result : CheckResult)
  : CheckResult :=
  {| Result_Path := Result_Path result;
     IsCompliant := IsCompliant result;
     Files := Files result;
     MissingFiles := MissingFiles result;
     Recommendations := Go.append (Recommendations result) rec |}.

(** [result.IsCompliant = len(result.MissingFiles) == 0] *)
Definition set_compliance (result : CheckResult) : CheckResult :=
  {| Result_Path := Result_Path result;
     IsCompliant := (Go.len (MissingFiles result) =? 0)%nat;
     Files := Files result;
     MissingFiles := MissingFiles result;
     Recommendations := Recommendations result |}.

Section Checks.

Context {sys : System}.

(** The loop [for _, path := range possiblePaths] of the five [check]
    functions, which returns at the first path that [os.Stat] finds, and the
    [FileCheck] they return when the loop finds none. *)
Fixpoint range_possiblePaths (name : string) (possiblePaths : list string)
  : FileCheck :=
  match possiblePaths with
  | [] =>
      {| Name := name; Path := ""; Exists := false; Valid := false;
         Errors := Go.nil_slice; Warnings := Go.nil_slice |}
  | path :: rest =>
      if stat_ok (Stat path)
      then {| Name := name; Path := path; Exists := true; Valid := true;
              Errors := Go.nil_slice; Warnings := Go.nil_slice |}
      else range_possiblePaths name rest
  end.

(** [func (c *Checker) checkSecurityInsights() FileCheck] *)
Definition checkSecurityInsights (c : Checker) : FileCheck :=
  let possiblePaths :=
    [Join [repoPath c; "SECURITY-INSIGHTS.yml"];
     Join [repoPath c; ".github"; "SECURITY-INSIGHTS.yml"];
     Join [repoPath c; "SECURITY-INSIGHTS.yaml"];
     Join [repoPath c; ".github"; "SECURITY-INSIGHTS.yaml"]] in
  range_possiblePaths "SECURITY-INSIGHTS.yml" possiblePaths.

(** [func (c *Checker) checkSecurityPolicy() FileCheck] *)
Definition checkSecurityPolicy (c : Checker) : FileCheck :=
  let possiblePaths :=
    [Join [repoPath c; "SECURITY.md"];
     Join [repoPath c; ".github"; "SECURITY.md"];
     Join [repoPath c; "docs"; "SECURITY.md"]] in
  range_possiblePaths "SECURITY.md" possiblePaths.

(** [func (c *Checker) checkLicense() FileCheck] *)
Definition checkLicense (c : Checker) : FileCheck :=
  let possiblePaths :=
    [Join [repoPath c; "LICENSE"];
     Join [repoPath c; "LICENSE.md"];
     Join [repoPath c; "LICENSE.txt"];
     Join [repoPath c; "COPYING"]] in
  range_possiblePaths "LICENSE" possiblePaths.

(** [func (c *Checker) checkCodeOfConduct() FileCheck] *)
Definition checkCodeOfConduct (c : Checker) : FileCheck :=
  let possiblePaths :=
    [Join [repoPath c; "CODE_OF_CONDUCT.md"];
     Join [repoPath c; ".github"; "CODE_OF_CONDUCT.md"];
     Join [repoPath c; "docs"; "CODE_OF_CONDUCT.md"]] in
  range_possiblePaths "CODE_OF_CONDUCT.md" possiblePaths.

(** [func (c *Checker) checkContributing() FileCheck] *)
Definition checkContributing (c : Checker) : FileCheck :=
  let possiblePaths :=
    [Join [repoPath c; "CONTRIBUTING.md"];
     Join [repoPath c; ".github"; "CONTRIBUTING.md"];
     Join [repoPath c; "docs"; "CONTRIBUTING.md"]] in
  range_possiblePaths "CONTRIBUTING.md" possiblePaths.

(** [func (c *Checker) Check()], which returns a [*CheckResult] and an
    [error] that is nil. *)
Definition Check (c : Checker) : CheckResult * option Go.error :=
  let result :=
    {| Result_Path := repoPath c;
       IsCompliant := false;
       Files := Go.mk_slice [];
       MissingFiles := Go.mk_slice [];
       Recommendations := Go.mk_slice [] |} in
  let siCheck := checkSecurityInsights c in
  let result := add_file siCheck result in
  let result :=
    if negb (Exists siCheck)
    then add_recommendation
           {| Priority := "high";
              Category := "Security Metadata";
              Description := "SECURITY-INSIGHTS.yml file is missing";
              Action := "Run 'baseline-init setup --auto' to generate this file" |}
           (add_missing "SECURITY-INSIGHTS.yml" result)
    else result in
  let securityMdCheck := checkSecurityPolicy c in
  let result := add_file securityMdCheck result in
  let result :=
    if negb (Exists securityMdCheck)
    then add_recommendation
           {| Priority := "medium";
              Category := "Security Policy";
              Description := "SECURITY.md file is missing";
              Action := "Create a SECURITY.md file documenting your security policy" |}
           (add_missing "SECURITY.md" result)
    else result in
  let licenseCheck := checkLicense c in
  let result := add_file licenseCheck result in
  let result :=
    if negb (Exists licenseCheck)
    then add_recommendation
           {| Priority := "high";
              Category := "Legal";
              Description := "LICENSE file is missing";
              Action := "Add an appropriate open source license to your repository" |}
           (add_missing "LICENSE" result)
    else result in
  let cocCheck := checkCodeOfConduct c in
  let result := add_file cocCheck result in
  let result :=
    if negb (Exists cocCheck)
    then add_recommendation
           {| Priority := "medium";
              Category := "Community";
              Description := "CODE_OF_CONDUCT.md file is missing";
              Action := "Consider adding a code of conduct for contributors" |}
           result
    else result in
  let contributingCheck := checkContributing c in
  let result := add_file contributingCheck result in
  let result :=
    if negb (Exists contributingCheck)
    then add_recommendation
           {| Priority := "low";
              Category := "Community";
              Description := "CONTRIBUTING.md file is missing";
              Action := "Consider adding contribution guidelines" |}
           result
    else result in
  let result := set_compliance result in
  (result, None).

End Checks.

End checker.

(* ===================================================================== *)
(** ** The generator *)
(* ===================================================================== *)

(** [fmt.Sprintf("%t", b)] *)
Definition Sprint_t (b : bool) : string := if b then "true" else "false".

(** The slice expression [s[:hi]] on a string, which panics, [None] here,
    unless [0 <= hi <= len(s)]. *)
Definition slice_to (s : string) (hi : Z) : option string :=
  if ((0 <=? hi) && (hi <=? Z.of_nat (String.length s)))%Z
  then Some (strings.take (Z.to_nat hi) s)
  else None.

(** The colour functions [color.New(...).SprintFunc()] the commands use. *)
Class Terminal : Type := {
  green : string -> string;
  yellow : string -> string;
  red : string -> string;
  cyan : string -> string;
  bold : string -> string;
  white : string -> string;
  red_bold : string -> string
}.

(** The machine as the generator changes it: [World] is its state, which
    [os.MkdirAll] and [os.WriteFile] update and [os.Stat] reads;
    [Today] is [time.Now().Format("2006-01-02")], a reading of the clock. *)
Class Disk : Type := {
  World : Type;
  MkdirAll : string -> World -> option Go.error * World;
  StatAt : string -> World -> stat_result;
  WriteFile : string -> list byte -> World -> option Go.error * World;
  Today : World -> string * World
}.

Module generator.

(** [type Generator struct] *)
Record Generator : Type := {
  repoPath : string;
  force : bool
}.

(** [type Config struct] *)
Record Config : Type := {
  ProjectURL : string;
  ProjectName : string;
  SecurityEmail : string;
  AcceptsVulnReports : bool;
  AcceptsPullRequests : bool;
  AcceptsAutomatedPR : bool;
  ProjectStage : string;
  BugFixesOnly : bool;
  Maintainers : Go.slice string;
  DistributionPoints : Go.slice string
}.

(** [func New(repoPath string, force bool) *Generator] *)
Definition New (path : string) (overwrite : bool) : Generator :=
  {| repoPath := path; force := overwrite |}.

(** The loop [for _, m := range items { result += fmt.Sprintf(lead + "%s\n", m) }]
    of [formatMaintainersList] and [formatDistributionPoints]. *)
Fixpoint range_lines (lead : string) (items : list string) (result : string)
  : string :=
  match items with
  | [] => result
  | m :: rest => range_lines lead rest (result ++ lead ++ m ++ "
")
  end.

(** [func formatMaintainersList(maintainers []string) string]; [None] is a
    panic of the final slice expression. *)
Definition formatMaintainersList (maintainers : Go.slice string) : option string :=
  if (Go.len maintainers =? 0)%nat
  then Some "    - github:maintainer"
  else
    let result := range_lines "    - " (Go.elems maintainers) "" in
    slice_to result (Z.of_nat (String.length result) - 1).

(** [func formatDistributionPoints(points []string) string] *)
Definition formatDistributionPoints (points : Go.slice string) : option string :=
  if (Go.len points =? 0)%nat
  then Some "  - https://github.com/example/repo/releases"
  else
    let result := range_lines "  - " (Go.elems points) "" in
    slice_to result (Z.of_nat (String.length result) - 1).

(** [username := m; if len(m) > 7 && m[:7] == "github:" { username = m[7:] }] *)
Definition username_of (m : string) : string :=
  if (7 <? String.length m)%nat && (strings.take 7 m =? "github:")%string
  then strings.drop 7 m
  else m.

(** The loop [for i, m := range maintainers] of [formatMaintainersV2], from
    index [i] on. *)
Fixpoint range_maintainersV2 (email : string) (i : nat) (maintainers : list string)
         (result : string) : string :=
  match maintainers with
  | [] => result
  | m :: rest =>
      let username := username_of m in
      let primary := if (i =? 0)%nat then "true" else "false" in
      range_maintainersV2 email (S i) rest
        (result
         ++ "    - name: "
         ++ username
         ++ "
      affiliation: Organization
      email: "
         ++ email
         ++ "
      social: https://github.com/"
         ++ username
         ++ "
      primary: "
         ++ primary
         ++ "
")
  end.

(** [func formatMaintainersV2(maintainers []string, email string) string] *)
Definition formatMaintainersV2 (maintainers : Go.slice string) (email : string)
  : option string :=
  if (Go.len maintainers =? 0)%nat
  then Some ("    - name: Maintainer
      affiliation: Organization
      email: " ++ email ++ "
      social: https://github.com/maintainer
      primary: true")
  else
    let result := range_maintainersV2 email 0 (Go.elems maintainers) "" in
    slice_to result (Z.of_nat (String.length result) - 1).

(** The text [generateSecurityInsights] writes, from the two dates it reads
    and the maintainers section. *)
Definition SecurityInsights_content (lastUpdated lastReviewed : string)
           (maintainersSection : string) (config : Config) : string :=
  "# OpenSSF Security Insights
# Schema version 2.0.0
# For more information, see: https://github.com/ossf/security-insights-spec

header:
  schema-version: 2.0.0
  last-updated: '"
  ++ lastUpdated
  ++ "'
  last-reviewed: '"
  ++ lastReviewed
  ++ "'
  url: "
  ++ ProjectURL config
  ++ "
  comment: |
    This file provides security insights for the project.

project:
  name: "
  ++ ProjectName config
  ++ "
  administrators:
"
  ++ maintainersSection
  ++ "
  vulnerability-reporting:
    reports-accepted: "
  ++ (Sprint_t (AcceptsVulnReports config))
  ++ "
    bug-bounty-available: false

repository:
  url: "
  ++ ProjectURL config
  ++ "
  status: "
  ++ ProjectStage config
  ++ "
  accepts-change-request: "
  ++ (Sprint_t (AcceptsPullRequests config))
  ++ "
  accepts-automated-change-request: "
  ++ (Sprint_t (AcceptsAutomatedPR config))
  ++ "
  core-team:
"
  ++ maintainersSection
  ++ "
  license:
    url: "
  ++ ProjectURL config
  ++ "/blob/main/LICENSE
    expression: Apache-2.0
  security:
    assessments:
      self:
        comment: |
          Self assessment has not yet been completed.
".

(** The text [generateSecurityMd] writes. *)
Definition SecurityMd_content (config : Config) : string :=
  "# Security Policy

## Supported Versions

We release patches for security vulnerabilities. Which versions are eligible for
receiving such patches depends on the CVSS v3.0 Rating:

| Version | Supported          |
| ------- | ------------------ |
| 1.0.x   | :white_check_mark: |

## Reporting a Vulnerability

Please report security vulnerabilities to: "
  ++ SecurityEmail config
  ++ "

We will acknowledge your email within 48 hours, and will send a more detailed response
within 7 days indicating the next steps in handling your report.

After the initial reply to your report, we will endeavor to keep you informed of the
progress being made towards a fix and full announcement.

## Disclosure Policy

When we receive a security bug report, we will:

1. Confirm the problem and determine the affected versions.
2. Audit code to find any potential similar problems.
3. Prepare fixes for all releases still under maintenance.

## Comments on this Policy

If you have suggestions on how this process could be improved, please submit a pull
request or open an issue.
".

Section Generate.

Context {sys : System} {disk : Disk} {term : Terminal}.

(** [func (g *Generator) generateSecurityInsights(path string, config *Config) error] *)
Definition generateSecurityInsights (g : Generator) (path : string)
           (config : Config) (w : World) : outcome * World :=
  let (lastUpdated, w) := Today w in
  let (lastReviewed, w) := Today w in
  match formatMaintainersV2 (Maintainers config) (SecurityEmail config) with
  | None => (Panic "slice bounds out of range", w)
  | Some maintainersSection =>
      let content :=
        SecurityInsights_content lastUpdated lastReviewed maintainersSection config in
      let (err, w) := WriteFile path (list_byte_of_string content) w in
      (Return err, w)
  end.

(** [func (g *Generator) generateSecurityMd(path string, config *Config) error] *)
Definition generateSecurityMd (g : Generator) (path : string)
           (config : Config) (w : World) : outcome * World :=
  let content := SecurityMd_content config in
  let (err, w) := WriteFile path (list_byte_of_string content) w in
  (Return err, w).

(** [func (g *Generator) GenerateWithConfig(config *Config) error], with
    what it prints and the state it leaves the machine in. *)
Definition GenerateWithConfig (g : Generator) (config : Config) (w : World)
  : list string * outcome * World :=
  let githubDir := Join [repoPath g; ".github"] in
  let (err, w) := MkdirAll githubDir w in
  match err with
  | Some err =>
      ([], Return (Some ("failed to create .github directory: " ++ err)), w)
  | None =>
      let siPath := Join [repoPath g; "SECURITY-INSIGHTS.yml"] in
      let '(out1, res1, w) :=
        if stat_ok (StatAt siPath w) && negb (force g)
        then ([yellow "⚠"
               ++ " SECURITY-INSIGHTS.yml already exists (use --force to overwrite)
"], Return None, w)
        else
          let (res, w) := generateSecurityInsights g siPath config w in
          match res with
          | Return None =>
              ([green "✓" ++ " Generated SECURITY-INSIGHTS.yml
"], Return None, w)
          | Return (Some err) =>
              ([], Return (Some ("failed to generate SECURITY-INSIGHTS.yml: " ++ err)), w)
          | stop => ([], stop, w)
          end in
      match res1 with
      | Return None =>
          let securityMdPath := Join [repoPath g; "SECURITY.md"] in
          if stat_ok (StatAt securityMdPath w) && negb (force g)
          then
            let line := yellow "⚠"
                        ++ " SECURITY.md already exists (use --force to overwrite)
" in
            ((out1 ++ [line])%list, Return None, w)
          else
            let (res, w) := generateSecurityMd g securityMdPath config w in
            match res with
            | Return None =>
                let line := green "✓" ++ " Generated SECURITY.md
" in
                ((out1 ++ [line])%list, Return None, w)
            | Return (Some err) =>
                (out1, Return (Some ("failed to generate SECURITY.md: " ++ err)), w)
            | stop => (out1, stop, w)
            end
      | stop => (out1, stop, w)
      end
  end.

(** [func (g *Generator) GenerateDefaults() error] *)
Definition GenerateDefaults (g : Generator) (w : World)
  : list string * outcome * World :=
  let config :=
    {| ProjectURL := "https://github.com/example/repo";
       ProjectName := Base (repoPath g);
       SecurityEmail := "security@example.com";
       AcceptsVulnReports := true;
       AcceptsPullRequests := true;
       AcceptsAutomatedPR := true;
       ProjectStage := "active";
       BugFixesOnly := false;
       Maintainers := Go.mk_slice ["github:maintainer"];
       DistributionPoints := Go.mk_slice [] |} in
  GenerateWithConfig g config w.

End Generate.

End generator.

(* ===================================================================== *)
(** ** The reporter *)
(* ===================================================================== *)

(** The encoders behind [outputJSON] and [outputYAML]: what
    [json.NewEncoder(os.Stdout)] and [yaml.NewEncoder(os.Stdout)] write for
    a result, and the error of [Encode]. *)
Class Encoders : Type := {
  json_Encode : checker.CheckResult -> list string * option Go.error;
  yaml_Encode : checker.CheckResult -> list string * option Go.error
}.

Module report.

(** [type Reporter struct] *)
Record Reporter : Type := {
  format : string
}.

(** [func NewReporter(format string) *Reporter] *)
Definition NewReporter (f : string) : Reporter := {| format := f |}.

(** [priorities := []string{"critical", "high", "medium", "low"}] *)
Definition priorities : list string := ["critical"; "high"; "medium"; "low"].

(** The loop [for _, rec := range result.Recommendations] that appends to
    [recs] the recommendations of the given priority. *)
Fixpoint select_priority (priority : string)
         (recommendations : list checker.Recommendation)
         (recs : Go.slice checker.Recommendation)
  : Go.slice checker.Recommendation :=
  match recommendations with
  | [] => recs
  | rec :: rest =>
      select_priority priority rest
        (if (checker.Priority rec =? priority)%string
         then Go.append recs rec
         else recs)
  end.

Section Output.

Context {sys : System} {term : Terminal} {enc : Encoders}.

(** [priorityColor], white unless the [switch] on the priority sets it. *)
Definition priorityColor (priority : string) : string -> string :=
  if (priority =? "critical")%string then red_bold
  else if (priority =? "high")%string then red
  else if (priority =? "medium")%string then yellow
  else if (priority =? "low")%string then cyan
  else white.

(** What the body of [for _, file := range result.Files] prints. *)
Definition print_file (file : checker.FileCheck) : list string :=
  if checker.Exists file
  then
    let name := "  " ++ green "✓" ++ " " ++ checker.Name file ++ "
" in
    let location :=
      if negb (checker.Path file =? "")%string
      then ["    Location: " ++ cyan (checker.Path file) ++ "
"]
      else [] in
    let warnings :=
      if (0 <? Go.len (checker.Warnings file))%nat
      then map (fun warning => "    " ++ yellow "⚠" ++ " " ++ warning ++ "
")
               (Go.elems (checker.Warnings file))
      else [] in
    name :: (location ++ warnings)%list
  else ["  " ++ red "✗" ++ " " ++ checker.Name file ++ "
"].

(** What the body of [for _, rec := range recs] prints. *)
Definition print_recommendation (priority : string) (rec : checker.Recommendation)
  : list string :=
  let color := priorityColor priority in
  ["
  [" ++ color (strings.ToUpper unicode_ToUpper priority) ++ "] "
     ++ bold (checker.Description rec) ++ "
";
   "  Category: " ++ checker.Category rec ++ "
";
   "  Action: " ++ cyan (checker.Action rec) ++ "
"].

(** The loop [for _, priority := range priorities]. *)
Fixpoint range_priorities (ps : list string)
         (recommendations : list checker.Recommendation) : list string :=
  match ps with
  | [] => []
  | priority :: rest =>
      let recs := select_priority priority recommendations Go.nil_slice in
      let printed :=
        if (Go.len recs =? 0)%nat
        then []
        else flat_map (print_recommendation priority) (Go.elems recs) in
      (printed ++ range_priorities rest recommendations)%list
  end.

(** [func (r *Reporter) outputText(result *checker.CheckResult) error], with
    what it prints. *)
Definition outputText (r : Reporter) (result : checker.CheckResult)
  : list string * option Go.error :=
  let header :=
    [bold "OpenSSF Baseline Compliance Check" ++ "
";
     strings.Repeat "=" 50 ++ "
";
     "Repository: " ++ checker.Result_Path result ++ "

";
     (if checker.IsCompliant result
      then "Status: " ++ green "✓ COMPLIANT" ++ "

"
      else "Status: " ++ red "✗ NOT COMPLIANT" ++ "

");
     bold "File Checks:" ++ "
"] in
  let files := flat_map print_file (Go.elems (checker.Files result)) in
  let blank := ["
"] in
  let missing :=
    if (0 <? Go.len (checker.MissingFiles result))%nat
    then
      let heading := bold "Missing Files:" ++ "
" in
      let lines :=
        map (fun missing => "  " ++ red "✗" ++ " " ++ missing ++ "
")
            (Go.elems (checker.MissingFiles result)) in
      (heading :: lines ++ blank)%list
    else [] in
  let recommendations :=
    if (0 <? Go.len (checker.Recommendations result))%nat
    then
      let heading := bold "Recommendations:" ++ "
" in
      (heading
       :: range_priorities priorities (Go.elems (checker.Recommendations result))
       ++ blank)%list
    else [] in
  let summary :=
    if negb (checker.IsCompliant result)
    then [bold "Next Steps:" ++ "
";
          "  1. Run 'baseline-init setup --auto' to auto-generate missing files
";
          "  2. Or run 'baseline-init setup --interactive' for guided setup
";
          "  3. Review and customize generated files
";
          "  4. Run 'baseline-init check' again to verify
"]
    else [] in
  ((header ++ files ++ blank ++ missing ++ recommendations ++ summary)%list, None).

(** [func (r *Reporter) outputJSON(result *checker.CheckResult) error] *)
Definition outputJSON (r : Reporter) (result : checker.CheckResult)
  : list string * option Go.error :=
  json_Encode result.

(** [func (r *Reporter) outputYAML(result *checker.CheckResult) error] *)
Definition outputYAML (r : Reporter) (result : checker.CheckResult)
  : list string * option Go.error :=
  yaml_Encode result.

(** [func (r *Reporter) OutputCheckResult(result *checker.CheckResult) error] *)
Definition OutputCheckResult (r : Reporter) (result : checker.CheckResult)
  : list string * option Go.error :=
  if (format r =? "json")%string then outputJSON r result
  else if (format r =? "yaml")%string then outputYAML r result
  else if (format r =? "text")%string then outputText r result
  else ([], Some ("unsupported format: " ++ format r)).

End Output.

End report.

(* ===================================================================== *)
(** ** The interactive setup *)
(* ===================================================================== *)

(** [promptui.Prompt{Label, Default, Validate}] *)
Record Prompt : Type := {
  Prompt_Label : string;
  Prompt_Default : string;
  Prompt_Validate : option (string -> option Go.error)
}.

(** [promptui.Select{Label, Items}] *)
Record Select : Type := {
  Select_Label : string;
  Select_Items : list string
}.

(** The terminal session the interactive setup talks to: [Session] is its
    state, [Prompt_Run] and [Select_Run] are the [Run] methods of promptui
    (the index a [Select] also returns is never used), [git_remote_url] is
    [exec.Command("git", "config", "--get", "remote.origin.url")] run in a
    directory, and [TrimSpace] is [strings.TrimSpace]. *)
Class Console : Type := {
  Session : Type;
  Prompt_Run : Prompt -> Session -> (Go.error + string) * Session;
  Select_Run : Select -> Session -> (Go.error + string) * Session;
  git_remote_url : string -> Session -> (Go.error + list byte) * Session;
  TrimSpace : string -> string
}.

Module interactive.

(** The loop [for _, m := range maintainers] of [GatherConfiguration]. *)
Fixpoint range_maintainers {con : Console} (maintainers : list string)
         (acc : Go.slice string) : Go.slice string :=
  match maintainers with
  | [] => acc
  | m :: rest =>
      let m := TrimSpace m in
      if negb (m =? "")%string
      then
        let m := if negb (Go.HasPrefix m "github:") then "github:" ++ m else m in
        range_maintainers rest (Go.append acc m)
      else range_maintainers rest acc
  end.

(** The loop [for _, d := range distPoints] of [GatherConfiguration]. *)
Fixpoint range_distPoints {con : Console} (distPoints : list string)
         (acc : Go.slice string) : Go.slice string :=
  match distPoints with
  | [] => acc
  | d :: rest =>
      let d := TrimSpace d in
      if negb (d =? "")%string
      then range_distPoints rest (Go.append acc d)
      else range_distPoints rest acc
  end.

Section Setup.

Context {sys : System} {con : Console}.

(** [func detectGitRemote(repoPath string) (string, error)] *)
Definition detectGitRemote (repo : string) (s : Session)
  : (string * option Go.error) * Session :=
  let (output, s) := git_remote_url repo s in
  match output with
  | inl err => (("", Some err), s)
  | inr output =>
      let url := TrimSpace (string_of_list_byte output) in
      let url :=
        if Go.HasPrefix url "git@github.com:"
        then
          let url := strings.Replace1 url "git@github.com:" "https://github.com/" in
          strings.TrimSuffix url ".git"
        else url in
      ((url, None), s)
  end.

(** A step of [GatherConfiguration] that may fail: the answer to a prompt,
    or the error the function returns at once, wrapped as "prompt failed". *)
Definition Step (A : Type) : Type := Session -> (Go.error + A) * Session.

Definition answer (run : Session -> (Go.error + string) * Session) : Step string :=
  fun s =>
    let (r, s) := run s in
    match r with
    | inl err => (inl ("prompt failed: " ++ err), s)
    | inr value => (inr value, s)
    end.

Definition and_then {A B : Type} (step : Step A) (k : A -> Step B) : Step B :=
  fun s =>
    let (r, s) := step s in
    match r with
    | inl err => (inl err, s)
    | inr value => k value s
    end.

Definition done {A : Type} (value : A) : Step A := fun s => (inr value, s).

Notation "'let*' x ':=' step 'in' k" :=
  (and_then step (fun x => k))
    (at level 10, x name, step at level 100, k at level 200).

Definition yes_no : list string := ["Yes"; "No"].

(** The body of [GatherConfiguration] after the three lines it prints
    first: the configuration, or the error it returns with a nil
    configuration. *)
Definition gather (repo : string) : Step generator.Config :=
  fun s =>
    let '((projectURL, err), s) := detectGitRemote repo s in
    let projectURL := match err with Some _ => "" | None => projectURL end in
    (let* ProjectURL :=
       answer (Prompt_Run {| Prompt_Label := "Project URL";
                             Prompt_Default := projectURL;
                             Prompt_Validate := None |}) in
     let projectName := Base repo in
     let* ProjectName :=
       answer (Prompt_Run {| Prompt_Label := "Project Name";
                             Prompt_Default := projectName;
                             Prompt_Validate := None |}) in
     let* SecurityEmail :=
       answer (Prompt_Run
                 {| Prompt_Label := "Security Contact Email";
                    Prompt_Default := "security@example.com";
                    Prompt_Validate :=
                      Some (fun input =>
                              if negb (strings.Contains input "@")
                              then Some "invalid email address"
                              else None) |}) in
     let* ProjectStage :=
       answer (Select_Run {| Select_Label := "Project Lifecycle Stage";
                             Select_Items := ["active"; "archived"; "concept";
                                              "moved"; "wip"] |}) in
     let* vulnResponse :=
       answer (Select_Run {| Select_Label := "Accept Vulnerability Reports";
                             Select_Items := yes_no |}) in
     let* prResponse :=
       answer (Select_Run {| Select_Label := "Accept Pull Requests";
                             Select_Items := yes_no |}) in
     let* autoPrResponse :=
       answer (Select_Run
                 {| Select_Label := "Accept Automated Pull Requests (e.g., Dependabot)";
                    Select_Items := yes_no |}) in
     let* bugFixResponse :=
       answer (Select_Run {| Select_Label := "Bug Fixes Only (no new features)";
                             Select_Items := ["No"; "Yes"] |}) in
     let* maintainerInput :=
       answer (Prompt_Run
                 {| Prompt_Label := "GitHub Maintainer Username(s) (comma-separated)";
                    Prompt_Default := "maintainer";
                    Prompt_Validate := None |}) in
     let maintainers := strings.Split maintainerInput "," in
     let Maintainers := range_maintainers maintainers (Go.mk_slice []) in
     let* distInput :=
       answer (Prompt_Run
                 {| Prompt_Label :=
                      "Distribution Points (URLs, comma-separated, or press Enter to skip)";
                    Prompt_Default := "";
                    Prompt_Validate := None |}) in
     let DistributionPoints :=
       if negb (distInput =? "")%string
       then range_distPoints (strings.Split distInput ",") (Go.mk_slice [])
       else Go.nil_slice in
     done {| generator.ProjectURL := ProjectURL;
             generator.ProjectName := ProjectName;
             generator.SecurityEmail := SecurityEmail;
             generator.AcceptsVulnReports := (vulnResponse =? "Yes")%string;
             generator.AcceptsPullRequests := (prResponse =? "Yes")%string;
             generator.AcceptsAutomatedPR := (autoPrResponse =? "Yes")%string;
             generator.ProjectStage := ProjectStage;
             generator.BugFixesOnly := (bugFixResponse =? "Yes")%string;
             generator.Maintainers := Maintainers;
             generator.DistributionPoints := DistributionPoints |}) s.

(** [func GatherConfiguration(repoPath string)], which returns a
    [*generator.Config] and an [error], with what it prints. *)
Definition GatherConfiguration (repo : string) (s : Session)
  : list string * (Go.error + generator.Config) * Session :=
  let banner :=
    ["🔧 OpenSSF Baseline Interactive Setup
";
     "======================================
";
     "
"] in
  let (r, s) := gather repo s in
  match r with
  | inl err => (banner, inl err, s)
  | inr config => ((banner ++ ["
"])%list, inr config, s)
  end.

End Setup.

End interactive.

(* ===================================================================== *)
(** ** The setup command *)
(* ===================================================================== *)

(** The flags of the setup command, [setupAuto], [setupInteractive],
    [setupPath] and [setupForce], package variables that [runSetup] reads
    and, for [setupInteractive], writes. *)
Record SetupFlags : Type := {
  setupAuto : bool;
  setupInteractive : bool;
  setupPath : string;
  setupForce : bool
}.

Section SetupCommand.

Context {sys : System} {disk : Disk} {term : Terminal} {con : Console}.

(** The five lines [runSetup] prints when the files have been generated. *)
Definition setup_closing : list string :=
  ["
✓ OpenSSF baseline compliance files generated successfully!
";
   "
Next steps:
";
   "  1. Review and customize the generated files
";
   "  2. Run 'baseline-init check' to validate
";
   "  3. Commit the files to your repository
"].

(** [func runSetup(cmd *cobra.Command, args []string) error], with what it
    prints, the flags as it leaves them, and the state of the disk and of
    the terminal session after it. *)
Definition runSetup (flags : SetupFlags) (args : list string)
           (w : World) (s : Session)
  : list string * outcome * SetupFlags * World * Session :=
  let repoPath :=
    match args with
    | [] => setupPath flags
    | arg :: _ => arg
    end in
  if stat_IsNotExist (StatAt repoPath w)
  then ([], Return (Some ("path does not exist: " ++ repoPath)), flags, w, s)
  else
    let flags :=
      if negb (setupAuto flags) && negb (setupInteractive flags)
      then {| setupAuto := setupAuto flags;
              setupInteractive := true;
              setupPath := setupPath flags;
              setupForce := setupForce flags |}
      else flags in
    let gen := generator.New repoPath (setupForce flags) in
    if setupInteractive flags
    then
      let '(out1, gathered, s) := interactive.GatherConfiguration repoPath s in
      match gathered with
      | inl err =>
          (out1, Return (Some ("failed to gather configuration: " ++ err)),
           flags, w, s)
      | inr config =>
          let '(out2, res, w) := generator.GenerateWithConfig gen config w in
          match res with
          | Return None =>
              ((out1 ++ out2 ++ setup_closing)%list, Return None, flags, w, s)
          | Return (Some err) =>
              ((out1 ++ out2)%list,
               Return (Some ("failed to generate files: " ++ err)), flags, w, s)
          | stop => ((out1 ++ out2)%list, stop, flags, w, s)
          end
      end
    else
      let '(out2, res, w) := generator.GenerateDefaults gen w in
      match res with
      | Return None => ((out2 ++ setup_closing)%list, Return None, flags, w, s)
      | Return (Some err) =>
          (out2, Return (Some ("failed to generate files: " ++ err)), flags, w, s)
      | stop => (out2, stop, flags, w, s)
      end.

End SetupCommand.

(* ===================================================================== *)
(** ** A sample machine *)
(* ===================================================================== *)

(** A small file system, a terminal without colours and a disk for the
    generator, to run the commands on. *)
Module Machine.

(** The files of the sample repository [repo]. *)
Definition files : list (string * list byte) :=
  [("repo/SECURITY-INSIGHTS.yml", Fixtures.bytes Fixtures.valid_minimal_file);
   ("repo/.github/Security-Insights.YAML", Fixtures.bytes Fixtures.v2_missing_required);
   ("repo/security-insights/notes.txt", Fixtures.bytes Fixtures.missing_required_fields);
   ("repo/LICENSE.txt", list_byte_of_string "Apache-2.0");
   ("repo/docs/SECURITY.md", list_byte_of_string "# Security Policy")].

Definition lookup (path : string) (fs : list (string * list byte))
  : option (list byte) :=
  match find (fun e => (fst e =? path)%string) fs with
  | Some e => Some (snd e)
  | None => None
  end.

Definition read (path : string) : Go.error + list byte :=
  match lookup path files with
  | Some data => inr data
  | None => inl ("open " ++ path ++ ": no such file or directory")
  end.

Definition stat_in (path : string) (fs : list (string * list byte)) : stat_result :=
  match lookup path fs with
  | Some _ => StatFound
  | None => StatNotExist ("stat " ++ path ++ ": no such file or directory")
  end.

(** [filepath.Join] on clean, non-empty elements. *)
Definition join (elem : list string) : string := String.concat "/" elem.

Definition sample : System := {|
  ReadFile := read;
  Stat := fun path => stat_in path files;
  Join := join;
  Base := fun path => path;
  unicode_ToLower := fun s => s;
  unicode_ToUpper := fun s => s
|}.

Definition plain : Terminal := {|
  green := fun s => s;
  yellow := fun s => s;
  red := fun s => s;
  cyan := fun s => s;
  bold := fun s => s;
  white := fun s => s;
  red_bold := fun s => s
|}.

(** A disk that never fails: its state is the list of its files, newest
    first. *)
Definition disk : Disk := {|
  World := list (string * list byte);
  MkdirAll := fun _ w => (None, w);
  StatAt := stat_in;
  WriteFile := fun path data w => (None, (path, data) :: w);
  Today := fun w => ("2026-01-01", w)
|}.

Definition encoders : Encoders := {|
  json_Encode := fun _ => (["{}
"], None);
  yaml_Encode := fun _ => (["{}
"], None)
|}.

(** Trimming of blanks and newlines, enough for the sample answers. *)
Fixpoint trim_left (s : string) : string :=
  match s with
  | String c rest =>
      if (Ascii.eqb c " " || Ascii.eqb c "010")%bool then trim_left rest else s
  | EmptyString => EmptyString
  end.

Fixpoint reverse (s : string) (acc : string) : string :=
  match s with
  | EmptyString => acc
  | String c rest => reverse rest (String c acc)
  end.

Definition trim (s : string) : string :=
  reverse (trim_left (reverse (trim_left s) "")) "".

(** A session that answers the prompts from a script, one answer per
    prompt, and fails a prompt once the script is used up; the repository
    has an SSH remote. *)
Definition next_answer (s : list string) : (Go.error + string) * list string :=
  match s with
  | a :: rest => (inr a, rest)
  | [] => (inl "^C", [])
  end.

Definition console : Console := {|
  Session := list string;
  Prompt_Run := fun _ s => next_answer s;
  Select_Run := fun _ s => next_answer s;
  git_remote_url := fun _ s =>
    (inr (list_byte_of_string "git@github.com:example/repo.git
"), s);
  TrimSpace := trim
|}.

(** A decoder that yields, whatever the buffer, a V1 document and a V2
    document whose second list entry is blank. *)
Definition blank_entries : Externals := {|
  any := string;
  Sprint_v := fun v => v;
  Unmarshal_header := fun _ => inr {| Header_SchemaVersion := "1.0.0" |};
  Unmarshal_V1 := fun _ =>
    inr (Fixtures.mkV1 "1.0.0" "2026-12-31T23:59:59Z" "2025-01-01T00:00:00Z"
           "2025-01-01T00:00:00Z" "https://github.com/example/repo" "active"
           [Fixtures.emailContact; {| V1.Type_ := ""; V1.Value := "" |}]);
  Unmarshal_V2 := fun _ =>
    inr (Fixtures.mkV2 "2.0.0" "2025-01-01" "2025-01-01"
           "https://github.com/example/repo/SECURITY-INSIGHTS.yml" "example"
           [Fixtures.alice; {| sitooling.Name := ""; sitooling.Email := "" |}]
           "https://github.com/example/repo" "active");
  ParseRFC3339 := Fixtures.parse_timestamp
|}.

(** A recommendation with a priority the reporter does not know, and a
    check result that holds it between two that it knows. *)
Definition urgent : checker.Recommendation :=
  {| checker.Priority := "urgent";
     checker.Category := "Legal";
     checker.Description := "LICENSE file is outdated";
     checker.Action := "Update the license" |}.

Definition with_recommendations (recs : list checker.Recommendation)
  : checker.CheckResult :=
  {| checker.Result_Path := "repo";
     checker.IsCompliant := false;
     checker.Files := Go.mk_slice [];
     checker.MissingFiles := Go.mk_slice ["LICENSE"];
     checker.Recommendations := Go.mk_slice recs |}.

(** A disk that holds the two generated files already. *)
Definition generated : list (string * list byte) :=
  [("repo/SECURITY-INSIGHTS.yml", Fixtures.bytes Fixtures.v2_complete);
   ("repo/SECURITY.md", list_byte_of_string "# Security Policy");
   ("repo", [])].

(** A configuration with two maintainers. *)
Definition configuration : generator.Config :=
  {| generator.ProjectURL := "https://github.com/example/repo";
     generator.ProjectName := "repo";
     generator.SecurityEmail := "security@example.com";
     generator.AcceptsVulnReports := true;
     generator.AcceptsPullRequests := true;
     generator.AcceptsAutomatedPR := false;
     generator.ProjectStage := "active";
     generator.BugFixesOnly := false;
     generator.Maintainers := Go.mk_slice ["github:alice"; "bob"];
     generator.DistributionPoints := Go.nil_slice |}.

(** The answers of one complete run of the interactive setup. *)
Definition answers : list string :=
  ["https://github.com/example/repo"; "repo"; "security@example.com"; "active";
   "Yes"; "Yes"; "No"; "No"; "alice, github:bob, ,github:"; ""].

(** A repository that holds neither of the generated files. *)
Definition fresh : list (string * list byte) := [("repo", [])].

(** A disk whose directories exist and whose files cannot be written. *)
Definition read_only : Disk := {|
  World := list (string * list byte);
  MkdirAll := fun _ w => (None, w);
  StatAt := stat_in;
  WriteFile := fun path _ w => (Some ("open " ++ path ++ ": permission denied"), w);
  Today := fun w => ("2026-01-01", w)
|}.


End Machine.

(* ===================================================================== *)
(** ** Notions the further theorems are stated with *)
(* ===================================================================== *)

(** The name test of [ValidateFile] on a path of ASCII bytes: some part of
    the path reads security-insights once its letters are lowered. *)
Definition names_security_insights (path : string) : Prop :=
  exists pre name post,
    path = pre ++ name ++ post
    /\ strings.map_bytes strings.lower_byte name = "security-insights".

(** [os.Stat] finds one of the paths. *)
Definition found {sys : System} (paths : list string) : Prop :=
  exists path, In path paths /\ Stat path = StatFound.

(** The check [f] of the candidates [paths]: when it reports a file, the
    file is the first candidate that [os.Stat] finds; when it reports none,
    [os.Stat] finds no candidate and the path is left empty. *)
Definition reports_first_found {sys : System} (paths : list string)
           (f : checker.FileCheck) : Prop :=
  (checker.Exists f = true ->
   exists before after,
     paths = (before ++ checker.Path f :: after)%list
     /\ Stat (checker.Path f) = StatFound
     /\ Forall (fun p => Stat p <> StatFound) before)
  /\ (checker.Exists f = false ->
      checker.Path f = "" /\ Forall (fun p => Stat p <> StatFound) paths).

(** The recommendation [Check] makes when the file [name] is not found. *)
Definition recommendation_for (name : string) : checker.Recommendation :=
  if (name =? "SECURITY-INSIGHTS.yml")%string then
    {| checker.Priority := "high";
       checker.Category := "Security Metadata";
       checker.Description := "SECURITY-INSIGHTS.yml file is missing";
       checker.Action := "Run 'baseline-init setup --auto' to generate this file" |}
  else if (name =? "SECURITY.md")%string then
    {| checker.Priority := "medium";
       checker.Category := "Security Policy";
       checker.Description := "SECURITY.md file is missing";
       checker.Action := "Create a SECURITY.md file documenting your security policy" |}
  else if (name =? "LICENSE")%string then
    {| checker.Priority := "high";
       checker.Category := "Legal";
       checker.Description := "LICENSE file is missing";
       checker.Action := "Add an appropriate open source license to your repository" |}
  else if (name =? "CODE_OF_CONDUCT.md")%string then
    {| checker.Priority := "medium";
       checker.Category := "Community";
       checker.Description := "CODE_OF_CONDUCT.md file is missing";
       checker.Action := "Consider adding a code of conduct for contributors" |}
  else
    {| checker.Priority := "low";
       checker.Category := "Community";
       checker.Description := "CONTRIBUTING.md file is missing";
       checker.Action := "Consider adding contribution guidelines" |}.

(** One entry of the maintainers section that [formatMaintainersV2] builds,
    without its final newline: the maintainer [m] at index [i]. *)
Definition maintainer_entry (email : string) (i : nat) (m : string) : string :=
  "    - name: " ++ generator.username_of m ++ "
      affiliation: Organization
      email: " ++ email ++ "
      social: https://github.com/" ++ generator.username_of m ++ "
      primary: " ++ (if (i =? 0)%nat then "true" else "false").

(** The entries for the maintainers at the indices [i], [i+1], ... *)
Fixpoint maintainer_entries (email : string) (i : nat) (maintainers : list string)
  : list string :=
  match maintainers with
  | [] => []
  | m :: rest => maintainer_entry email i m :: maintainer_entries email (S i) rest
  end.





(** The three lines [GatherConfiguration] prints before it asks anything. *)
Definition banner : list string :=
  ["🔧 OpenSSF Baseline Interactive Setup
";
   "======================================
";
   "
"].

(** The step of [GenerateWithConfig] for SECURITY-INSIGHTS.yml goes through
    from the machine [w1]: the file is found and kept, or it is written
    without an error; [line] is what the step prints and [w2] the machine
    it leaves. *)
Definition insights_step_succeeds {sys : System} {disk : Disk} {term : Terminal}
           (g : generator.Generator) (config : generator.Config)
           (w1 : World) (line : string) (w2 : World) : Prop :=
  let siPath := Join [generator.repoPath g; "SECURITY-INSIGHTS.yml"] in
  (stat_ok (StatAt siPath w1) && negb (generator.force g) = true
   /\ line = yellow "⚠" ++ " SECURITY-INSIGHTS.yml already exists (use --force to overwrite)
"
   /\ w2 = w1)
  \/ (stat_ok (StatAt siPath w1) && negb (generator.force g) = false
      /\ line = green "✓" ++ " Generated SECURITY-INSIGHTS.yml
"
      /\ exists lastUpdated wa lastReviewed wb section,
          Today w1 = (lastUpdated, wa)
          /\ Today wa = (lastReviewed, wb)
          /\ generator.formatMaintainersV2 (generator.Maintainers config)
                (generator.SecurityEmail config) = Some section
          /\ WriteFile siPath
                (list_byte_of_string
                   (generator.SecurityInsights_content lastUpdated lastReviewed
                      section config)) wb
             = (None, w2)).

(* ===================================================================== *)
(** ** Lemmas on checks *)
(* ===================================================================== *)

Lemma no_errors_app (l1 l2 : list string) :
  no_errors (l1 ++ l2) = no_errors l1 && no_errors l2.
Proof. destruct l1; reflexivity. Qed.

Lemma no_errors_length (l : list string) :
  no_errors l = (List.length l =? 0)%nat.
Proof. destruct l; reflexivity. Qed.

Lemma extend_app (s : Go.slice string) (l1 l2 : list string) :
  extend (extend s l1) l2 = extend s (l1 ++ l2).
Proof.
  destruct l1 as [|a l1]; [reflexivity|].
  destruct l2 as [|b l2]; simpl.
  - now rewrite app_nil_r.
  - now rewrite <- app_assoc.
Qed.

Lemma extend_fresh (l : list string) : extend (Go.mk_slice []) l = Go.mk_slice l.
Proof. destruct l; reflexivity. Qed.

Lemma adds_skip : adds skip [] [].
Proof. intros [v es ws]; unfold skip; simpl. now rewrite andb_true_r. Qed.

Lemma adds_seq (c1 c2 : Check) (e1 w1 e2 w2 : list string) :
  adds c1 e1 w1 -> adds c2 e2 w2 -> adds (c1 ;; c2) (e1 ++ e2) (w1 ++ w2).
Proof.
  intros H1 H2 result. unfold seq. rewrite H1, H2; simpl.
  now rewrite !extend_app, no_errors_app, andb_assoc.
Qed.

Lemma adds_error (msg : string) : adds (set_invalid ;; append_error msg) [msg] [].
Proof. intros [v es ws]; unfold seq; simpl. now rewrite andb_false_r. Qed.

Lemma adds_warning (msg : string) : adds (append_warning msg) [] [msg].
Proof. intros [v es ws]; unfold append_warning; simpl. now rewrite andb_true_r. Qed.

Lemma adds_if (b : bool) (c1 c2 : Check) (e1 w1 e2 w2 : list string) :
  adds c1 e1 w1 -> adds c2 e2 w2 ->
  adds (if b then c1 else c2) (if b then e1 else e2) (if b then w1 else w2).
Proof. now destruct b. Qed.

Lemma adds_ext (c : Check) (es ws es' ws' : list string) :
  adds c es ws -> es = es' -> ws = ws' -> adds c es' ws'.
Proof. now intros H <- <-. Qed.

(** Run on the fresh result of a call, a check leaves exactly what it adds;
    both slices stay non-nil. *)
Lemma adds_new_result (c : Check) (es ws : list string) :
  adds c es ws ->
  c new_result = {| IsValid := no_errors es;
                    Errors := Go.mk_slice es;
                    Warnings := Go.mk_slice ws |}.
Proof. intros H. rewrite H; simpl. now rewrite !extend_fresh. Qed.

Lemma rejected_new_result (msg : string) :
  (set_invalid ;; append_error msg) new_result =
  {| IsValid := false; Errors := Go.mk_slice [msg]; Warnings := Go.mk_slice [] |}.
Proof. reflexivity. Qed.

Create HintDb checks.
#[local] Hint Resolve adds_skip adds_error adds_warning : checks.

(** The loop over [validStatuses] decides membership. *)
Lemma status_isValid_In (s : string) (statuses : list string) :
  status_isValid s statuses = true <-> In s statuses.
Proof.
  induction statuses as [|status rest IH]; simpl.
  - split; [discriminate | tauto].
  - destruct (String.eqb_spec s status) as [->|Hne].
    + split; auto.
    + rewrite IH. split; [auto | intros [Heq|Hin]; [congruence | assumption]].
Qed.

Lemma status_isValid_not_In (s : string) (statuses : list string) :
  ~ In s statuses -> status_isValid s statuses = false.
Proof.
  intros Hn. destruct (status_isValid s statuses) eqn:E; [|reflexivity].
  apply status_isValid_In in E. contradiction.
Qed.

Example Itoa_renders_decimal :
  Go.Itoa 0 = "0" /\ Go.Itoa 7 = "7" /\ Go.Itoa 12 = "12".
Proof. repeat split. Qed.

Lemma Join_validStatuses :
  Go.Join validStatuses ", " = "active, archived, concept, moved, wip".
Proof. reflexivity. Qed.

Section Runs.

Context {ext : Externals}.

Lemma adds_range_SecurityContacts (contacts : list V1.SecurityContact) :
  forall i, adds (range_SecurityContacts i contacts) [] (contact_warnings i contacts).
Proof.
  induction contacts as [|contact rest IH]; intros i; simpl.
  - apply adds_skip.
  - eapply adds_ext.
    + apply adds_seq; [ apply adds_if; auto with checks |].
      apply adds_seq; [ apply adds_if; auto with checks | apply IH ].
    + now destruct (_ =? _)%string, (_ =? _)%string.
    + now destruct (V1.Type_ contact =? "")%string, (V1.Value contact =? "")%string.
Qed.

Lemma adds_range_Administrators (admins : list sitooling.Person) :
  forall i, adds (range_Administrators i admins) [] (administrator_warnings i admins).
Proof.
  induction admins as [|admin rest IH]; intros i; simpl.
  - apply adds_skip.
  - eapply adds_ext.
    + apply adds_seq; [ apply adds_if; auto with checks |].
      apply adds_seq; [ apply adds_if; auto with checks | apply IH ].
    + now destruct (_ =? _)%string, (_ =? _)%string.
    + now destruct (sitooling.Name admin =? "")%string,
                   (sitooling.Email admin =? "")%string.
Qed.

(** The block that requires a field. *)
Lemma adds_required (field value : string) :
  adds (if (value =? "")%string
        then set_invalid ;; append_error ("Missing required field: " ++ field)
        else skip)
       (required field value) [].
Proof. unfold required. destruct (value =? "")%string; auto with checks. Qed.

(** The block that recommends a field. *)
Lemma adds_recommended (field value : string) :
  adds (if (value =? "")%string
        then append_warning ("Missing recommended field: " ++ field)
        else skip)
       [] (recommended field value).
Proof. unfold recommended. destruct (value =? "")%string; auto with checks. Qed.

(** The block on a status field: required, and warned about when it is
    not one of [validStatuses]. *)
Lemma adds_status (field value : string) :
  adds (if (value =? "")%string
        then set_invalid ;; append_error ("Missing required field: " ++ field)
        else
          let isValid := status_isValid value validStatuses in
          if negb isValid
          then append_warning
                 ("Unusual " ++ field ++ ": " ++ value
                  ++ " (expected one of: " ++ Go.Join validStatuses ", " ++ ")")
          else skip)
       (required field value) (unusual field value).
Proof.
  unfold required, unusual. rewrite Join_validStatuses.
  destruct (value =? "")%string; [auto with checks|]. cbv zeta.
  destruct (status_isValid value validStatuses); simpl; auto with checks.
Qed.

(** The block on [header.expiration-date]. *)
Lemma adds_expiration (now : Go.Time) (value : string) :
  adds (if (value =? "")%string
        then set_invalid ;;
             append_error "Missing required field: header.expiration-date"
        else match ParseRFC3339 value with
             | inl _ =>
                 append_warning "Invalid expiration-date format (should be RFC3339)"
             | inr expirationDate =>
                 if Go.After now expirationDate
                 then append_warning "File has expired - please update expiration-date"
                 else skip
             end)
       (required "header.expiration-date" value) (expiration_warnings now value).
Proof.
  unfold required, expiration_warnings.
  destruct (value =? "")%string; [apply adds_error|].
  destruct (ParseRFC3339 value) as [err|expirationDate]; [apply adds_warning|].
  destruct (Go.After now expirationDate); auto with checks.
Qed.

(** The V1 checks add exactly [errorsV1] and [warningsV1]. *)
Lemma checksV1_adds (now : Go.Time) (si : V1.SecurityInsightsV1) :
  adds (checksV1 now si) (errorsV1 si) (warningsV1 now si).
Proof.
  unfold checksV1. eapply adds_ext.
  - apply adds_seq; [apply (adds_required "header.schema-version")|].
    apply adds_seq; [apply (adds_required "header.project-url")|].
    apply adds_seq; [apply adds_expiration|].
    apply adds_seq; [apply (adds_recommended "header.last-updated")|].
    apply adds_seq; [apply (adds_recommended "header.last-reviewed")|].
    apply adds_seq; [apply (adds_status "project-lifecycle.status")|].
    apply adds_if; [apply adds_warning | apply adds_range_SecurityContacts].
  - unfold errorsV1, early_errorsV1, late_errorsV1. simpl.
    rewrite <- app_assoc.
    now destruct (List.length (V1.SecurityContacts si) =? 0)%nat;
      rewrite app_nil_r.
  - unfold warningsV1, other_warningsV1. simpl.
    now destruct (List.length (V1.SecurityContacts si) =? 0)%nat.
Qed.

(** The V2 checks add exactly [errorsV2] and [warningsV2]. *)
Lemma checksV2_adds (insights : sitooling.SecurityInsights) :
  adds (checksV2 insights) (errorsV2 insights) (warningsV2 insights).
Proof.
  unfold checksV2. eapply adds_ext.
  - apply adds_seq; [apply (adds_recommended "header.last-updated")|].
    apply adds_seq; [apply (adds_recommended "header.last-reviewed")|].
    apply adds_seq; [apply (adds_required "header.url")|].
    apply adds_seq; [apply (adds_recommended "project.name")|].
    apply adds_seq;
      [apply adds_if; [apply adds_warning | apply adds_range_Administrators]|].
    apply adds_seq; [apply (adds_required "repository.url")|].
    apply (adds_status "repository.status").
  - unfold errorsV2. simpl.
    now destruct (List.length (sitooling.Project_Administrators insights) =? 0)%nat.
  - unfold warningsV2. simpl.
    destruct (List.length (sitooling.Project_Administrators insights) =? 0)%nat;
      simpl; now rewrite <- ?app_assoc.
Qed.

End Runs.

(* ===================================================================== *)
(** ** The result of each path *)
(* ===================================================================== *)

Section Paths.

Context {ext : Externals}.

(** V1 on a buffer that decodes: all checks run, and the result holds what
    they collected. *)
Lemma validateSecurityInsightsV1_decoded (now : Go.Time) (data : list byte)
      (si : V1.SecurityInsightsV1) :
  Unmarshal_V1 data = inr si ->
  validateSecurityInsightsV1 now data =
  (collected (errorsV1 si) (warningsV1 now si), None).
Proof.
  intros Hdec. unfold validateSecurityInsightsV1. rewrite Hdec. cbv zeta.
  now rewrite (adds_new_result _ _ _ (checksV1_adds now si)).
Qed.

Lemma validateSecurityInsightsV1_undecoded (now : Go.Time) (data : list byte)
      (err : Go.error) :
  Unmarshal_V1 data = inl err ->
  validateSecurityInsightsV1 now data = (rejected ("Invalid YAML: " ++ err), None).
Proof.
  intros Hdec. unfold validateSecurityInsightsV1. now rewrite Hdec.
Qed.

(** V2 on a buffer that decodes with an accepted schema version. *)
Lemma validateSecurityInsightsV2_accepted (data : list byte)
      (insights : sitooling.SecurityInsights) :
  Unmarshal_V2 data = inr insights ->
  Go.HasPrefix (sitooling.Header_SchemaVersion insights) "2." = true ->
  validateSecurityInsightsV2 data =
  (collected (errorsV2 insights) (warningsV2 insights), None).
Proof.
  intros Hdec Hver. unfold validateSecurityInsightsV2.
  rewrite Hdec, Hver. cbv zeta. simpl negb. cbv iota.
  now rewrite (adds_new_result _ _ _ (checksV2_adds insights)).
Qed.

Lemma validateSecurityInsightsV2_mismatch (data : list byte)
      (insights : sitooling.SecurityInsights) :
  Unmarshal_V2 data = inr insights ->
  Go.HasPrefix (sitooling.Header_SchemaVersion insights) "2." = false ->
  validateSecurityInsightsV2 data =
  (rejected ("Invalid schema version: " ++ sitooling.Header_SchemaVersion insights
             ++ " (expected 2.x.x)"), None).
Proof.
  intros Hdec Hver. unfold validateSecurityInsightsV2. now rewrite Hdec, Hver.
Qed.

Lemma validateSecurityInsightsV2_undecoded (data : list byte) (err : Go.error) :
  Unmarshal_V2 data = inl err ->
  validateSecurityInsightsV2 data =
  (rejected ("Schema validation failed: " ++ err), None).
Proof.
  intros Hdec. unfold validateSecurityInsightsV2. now rewrite Hdec.
Qed.

Lemma rejected_collected (msg : string) : rejected msg = collected [msg] [].
Proof. reflexivity. Qed.

(** Whatever the path, a call returns the errors and warnings it collected,
    in two non-nil slices, with [IsValid] set from the errors, and a nil
    [error]. *)
Lemma validateSecurityInsightsV1_collected (now : Go.Time) (data : list byte) :
  exists es ws, validateSecurityInsightsV1 now data = (collected es ws, None).
Proof.
  destruct (Unmarshal_V1 data) as [err|si] eqn:Hdec.
  - exists ["Invalid YAML: " ++ err], [].
    now rewrite (validateSecurityInsightsV1_undecoded _ _ _ Hdec).
  - exists (errorsV1 si), (warningsV1 now si).
    now apply validateSecurityInsightsV1_decoded.
Qed.

Lemma validateSecurityInsightsV2_collected (data : list byte) :
  exists es ws, validateSecurityInsightsV2 data = (collected es ws, None).
Proof.
  destruct (Unmarshal_V2 data) as [err|insights] eqn:Hdec.
  - exists ["Schema validation failed: " ++ err], [].
    now rewrite (validateSecurityInsightsV2_undecoded _ _ Hdec).
  - destruct (Go.HasPrefix (sitooling.Header_SchemaVersion insights) "2.") eqn:Hver.
    + exists (errorsV2 insights), (warningsV2 insights).
      now apply validateSecurityInsightsV2_accepted.
    + eexists _, []. rewrite (validateSecurityInsightsV2_mismatch _ _ Hdec Hver).
      now rewrite rejected_collected.
Qed.

Lemma validateSecurityInsights_collected (now : Go.Time) (data : list byte) :
  exists es ws, validateSecurityInsights now data = (collected es ws, None).
Proof.
  unfold validateSecurityInsights.
  destruct (Unmarshal_header data) as [err|header].
  - now exists ["Invalid YAML: " ++ err], [].
  - cbv zeta. destruct (Go.HasPrefix _ "2.").
    + apply validateSecurityInsightsV2_collected.
    + apply validateSecurityInsightsV1_collected.
Qed.

Lemma collected_IsValid (es ws : list string) :
  IsValid (collected es ws) = (Go.len (Errors (collected es ws)) =? 0)%nat.
Proof. apply no_errors_length. Qed.

End Paths.

(* ===================================================================== *)
(** ** Routing and fatal errors *)
(* ===================================================================== *)

Lemma prefix_1_not_prefix_2 (s : string) :
  Go.HasPrefix s "1." = true -> Go.HasPrefix s "2." = false.
Proof.
  unfold Go.HasPrefix. destruct s as [|c s]; [discriminate|].
  cbn [String.prefix].
  destruct (ascii_dec "1" c) as [Heq|Hne]; [subst c; reflexivity | discriminate].
Qed.

Section Routing.

Context {ext : Externals}.

(** C1, as amended.  When the router's decode of the buffer succeeds, the
    call is the V2 validator's call if the [%v] rendering of
    [header.schema-version] starts with "2.", and the V1 validator's call
    otherwise; the latter covers an empty rendering, the rendering [<nil>]
    of an absent field, and any rendering that starts with "1.". *)
Theorem routes_by_schema_version_prefix
        (now : Go.Time) (data : list byte) (header : HeaderProbe any) :
  Unmarshal_header data = inr header ->
  let schemaVersion := Sprint_v (Header_SchemaVersion header) in
  (Go.HasPrefix schemaVersion "2." = true ->
   validateSecurityInsights now data = validateSecurityInsightsV2 data)
  /\ (Go.HasPrefix schemaVersion "2." = false ->
      validateSecurityInsights now data = validateSecurityInsightsV1 now data)
  /\ (schemaVersion = "" \/ schemaVersion = "<nil>"
      \/ Go.HasPrefix schemaVersion "1." = true ->
      validateSecurityInsights now data = validateSecurityInsightsV1 now data).
Proof.
  intros Hdec schemaVersion.
  assert (Hroute : validateSecurityInsights now data =
                   if Go.HasPrefix schemaVersion "2."
                   then validateSecurityInsightsV2 data
                   else validateSecurityInsightsV1 now data).
  { unfold validateSecurityInsights. now rewrite Hdec. }
  repeat split.
  - intros Hpre. now rewrite Hroute, Hpre.
  - intros Hpre. now rewrite Hroute, Hpre.
  - intros Hcase. rewrite Hroute.
    assert (Hpre : Go.HasPrefix schemaVersion "2." = false).
    { destruct Hcase as [-> | [-> | H1]];
        [reflexivity | reflexivity | now apply prefix_1_not_prefix_2]. }
    now rewrite Hpre.
Qed.

(** C2.  When the V2 validator decodes the buffer and the decoded
    [header.schema-version] does not start with "2.", the call returns
    [IsValid = false], the single error that names the version and the
    expected 2.x.x, and no warning: the result is the same whatever the
    other fields hold, none of them is checked. *)
Theorem V2_rejects_other_schema_versions
        (data : list byte) (insights : sitooling.SecurityInsights) :
  Unmarshal_V2 data = inr insights ->
  Go.HasPrefix (sitooling.Header_SchemaVersion insights) "2." = false ->
  validateSecurityInsightsV2 data =
  ({| IsValid := false;
      Errors := Go.mk_slice
                  ["Invalid schema version: "
                   ++ sitooling.Header_SchemaVersion insights
                   ++ " (expected 2.x.x)"];
      Warnings := Go.mk_slice [] |}, None)
  /\ Go.len (Errors (fst (validateSecurityInsightsV2 data))) = 1
  /\ Go.len (Warnings (fst (validateSecurityInsightsV2 data))) = 0.
Proof.
  intros Hdec Hver.
  rewrite (validateSecurityInsightsV2_mismatch _ _ Hdec Hver).
  repeat split.
Qed.

(** C3.  A buffer that does not decode is rejected with [IsValid = false],
    one error that carries the decoder's message and no warning, at each
    of the three places where a decode happens: in the router, in the V1
    validator and in the V2 validator.  Hence a call of the router whose
    first failing decode is any of them returns a result of that shape. *)
Theorem undecodable_buffer_is_rejected :
  (forall now data err,
      Unmarshal_header data = inl err ->
      validateSecurityInsights now data =
      ({| IsValid := false;
          Errors := Go.mk_slice ["Invalid YAML: " ++ err];
          Warnings := Go.mk_slice [] |}, None))
  /\ (forall now data err,
         Unmarshal_V1 data = inl err ->
         validateSecurityInsightsV1 now data =
         ({| IsValid := false;
             Errors := Go.mk_slice ["Invalid YAML: " ++ err];
             Warnings := Go.mk_slice [] |}, None))
  /\ (forall data err,
         Unmarshal_V2 data = inl err ->
         validateSecurityInsightsV2 data =
         ({| IsValid := false;
             Errors := Go.mk_slice ["Schema validation failed: " ++ err];
             Warnings := Go.mk_slice [] |}, None))
  /\ (forall now data,
         decode_fails data ->
         exists msg,
           validateSecurityInsights now data =
           ({| IsValid := false;
               Errors := Go.mk_slice [msg];
               Warnings := Go.mk_slice [] |}, None)).
Proof.
  repeat split.
  - intros now data err Hdec. unfold validateSecurityInsights. now rewrite Hdec.
  - intros now data err Hdec. now apply validateSecurityInsightsV1_undecoded.
  - intros data err Hdec. now apply validateSecurityInsightsV2_undecoded.
  - intros now data. unfold decode_fails, validateSecurityInsights.
    destruct (Unmarshal_header data) as [err|header].
    + intros _. now exists ("Invalid YAML: " ++ err).
    + cbv zeta. destruct (Go.HasPrefix _ "2."); intros [err Hdec].
      * exists ("Schema validation failed: " ++ err).
        now apply validateSecurityInsightsV2_undecoded.
      * exists ("Invalid YAML: " ++ err).
        now apply validateSecurityInsightsV1_undecoded.
Qed.

End Routing.

(* ===================================================================== *)
(** ** Invariants of the result *)
(* ===================================================================== *)

Section Invariants.

Context {ext : Externals}.

(** C4.  Every result of the router, and of either validator, has
    [IsValid] true exactly when its error list is empty; appending a
    warning changes neither [IsValid] nor the errors. *)
Theorem IsValid_iff_no_errors :
  (forall now data,
      let result := fst (validateSecurityInsights now data) in
      IsValid result = (Go.len (Errors result) =? 0)%nat)
  /\ (forall now data,
         let result := fst (validateSecurityInsightsV1 now data) in
         IsValid result = (Go.len (Errors result) =? 0)%nat)
  /\ (forall data,
         let result := fst (validateSecurityInsightsV2 data) in
         IsValid result = (Go.len (Errors result) =? 0)%nat)
  /\ (forall msg result,
         IsValid (append_warning msg result) = IsValid result
         /\ Errors (append_warning msg result) = Errors result).
Proof.
  repeat split.
  - intros now data.
    destruct (validateSecurityInsights_collected now data) as (es & ws & ->).
    apply collected_IsValid.
  - intros now data.
    destruct (validateSecurityInsightsV1_collected now data) as (es & ws & ->).
    apply collected_IsValid.
  - intros data.
    destruct (validateSecurityInsightsV2_collected data) as (es & ws & ->).
    apply collected_IsValid.
Qed.

(** C10.  Every result of the router, and of either validator, carries
    non-nil [Errors] and [Warnings] slices: the fresh result starts with
    two empty non-nil slices, and a result without errors still holds the
    empty slice, not nil. *)
Theorem result_slices_are_not_nil :
  (Errors new_result = Go.mk_slice [] /\ Warnings new_result = Go.mk_slice [])
  /\ (forall now data,
         let result := fst (validateSecurityInsights now data) in
         Go.is_nil (Errors result) = false /\ Go.is_nil (Warnings result) = false)
  /\ (forall now data,
         let result := fst (validateSecurityInsightsV1 now data) in
         Go.is_nil (Errors result) = false /\ Go.is_nil (Warnings result) = false)
  /\ (forall data,
         let result := fst (validateSecurityInsightsV2 data) in
         Go.is_nil (Errors result) = false /\ Go.is_nil (Warnings result) = false)
  /\ (forall now data,
         let result := fst (validateSecurityInsights now data) in
         IsValid result = true -> Errors result = Go.mk_slice []).
Proof.
  repeat split.
  - destruct (validateSecurityInsights_collected now data) as (es & ws & ->).
    reflexivity.
  - destruct (validateSecurityInsights_collected now data) as (es & ws & ->).
    reflexivity.
  - destruct (validateSecurityInsightsV1_collected now data) as (es & ws & ->).
    reflexivity.
  - destruct (validateSecurityInsightsV1_collected now data) as (es & ws & ->).
    reflexivity.
  - destruct (validateSecurityInsightsV2_collected data) as (es & ws & ->).
    reflexivity.
  - destruct (validateSecurityInsightsV2_collected data) as (es & ws & ->).
    reflexivity.
  - intros now data.
    destruct (validateSecurityInsights_collected now data) as (es & ws & ->).
    simpl. now destruct es.
Qed.

End Invariants.

(* ===================================================================== *)
(** ** The field checks *)
(* ===================================================================== *)

Lemma required_empty (field : string) :
  required field "" = ["Missing required field: " ++ field].
Proof. reflexivity. Qed.

Lemma required_present (field value : string) :
  value <> "" -> required field value = [].
Proof.
  intros Hne. unfold required.
  now destruct (String.eqb_spec value "").
Qed.

Lemma unusual_outside (field value : string) :
  value <> "" -> ~ In value validStatuses ->
  unusual field value =
  ["Unusual " ++ field ++ ": " ++ value
   ++ " (expected one of: active, archived, concept, moved, wip)"].
Proof.
  intros Hne Hout. unfold unusual.
  destruct (String.eqb_spec value ""); [contradiction|].
  now rewrite (status_isValid_not_In _ _ Hout).
Qed.

Section FieldChecks.

Context {ext : Externals}.

(** C5.  On a buffer that decodes as a V1 document whose
    [header.schema-version], [header.project-url],
    [header.expiration-date] and [project-lifecycle.status] are all empty,
    the V1 validator returns [IsValid = false] and exactly four errors,
    one per field, in the order of the checks: no check stops the ones
    after it. *)
Theorem V1_collects_four_missing_fields
        (now : Go.Time) (data : list byte) (si : V1.SecurityInsightsV1) :
  Unmarshal_V1 data = inr si ->
  V1.Header_SchemaVersion si = "" ->
  V1.Header_ProjectURL si = "" ->
  V1.Header_ExpirationDate si = "" ->
  V1.ProjectLifecycle_Status si = "" ->
  let result := fst (validateSecurityInsightsV1 now data) in
  IsValid result = false
  /\ Errors result =
     Go.mk_slice ["Missing required field: header.schema-version";
                  "Missing required field: header.project-url";
                  "Missing required field: header.expiration-date";
                  "Missing required field: project-lifecycle.status"]
  /\ Go.len (Errors result) = 4.
Proof.
  intros Hdec Hsv Hurl Hexp Hst.
  rewrite (validateSecurityInsightsV1_decoded now _ _ Hdec).
  unfold errorsV1, early_errorsV1, late_errorsV1.
  rewrite Hsv, Hurl, Hexp, Hst.
  repeat split.
Qed.

(** C8.  On a buffer that the V2 validator decodes, with a schema version
    that starts with "2." and with [header.url], [repository.url] and
    [repository.status] all empty, the call returns [IsValid = false] and
    exactly three errors, one per field, in the order of the checks. *)
Theorem V2_collects_three_missing_fields
        (data : list byte) (insights : sitooling.SecurityInsights) :
  Unmarshal_V2 data = inr insights ->
  Go.HasPrefix (sitooling.Header_SchemaVersion insights) "2." = true ->
  sitooling.Header_URL insights = "" ->
  sitooling.Repository_URL insights = "" ->
  sitooling.Repository_Status insights = "" ->
  let result := fst (validateSecurityInsightsV2 data) in
  IsValid result = false
  /\ Errors result =
     Go.mk_slice ["Missing required field: header.url";
                  "Missing required field: repository.url";
                  "Missing required field: repository.status"]
  /\ Go.len (Errors result) = 3.
Proof.
  intros Hdec Hver Hurl Hrepo Hst.
  rewrite (validateSecurityInsightsV2_accepted _ _ Hdec Hver).
  unfold errorsV2. rewrite Hurl, Hrepo, Hst.
  repeat split.
Qed.

(** C6.  On a buffer that decodes as a V1 document with a non-empty
    [header.expiration-date], the field contributes no error: the errors
    and [IsValid] are those of the other three required fields.  Its
    contribution to the warnings is the format warning when the value is
    not an RFC3339 timestamp, the expiration warning when the timestamp is
    strictly before the clock reading, and nothing when the timestamp is
    after it; the rest of the warnings come from the other checks and do
    not depend on the field. *)
Theorem V1_expiration_date_only_warns
        (now : Go.Time) (data : list byte) (si : V1.SecurityInsightsV1) :
  Unmarshal_V1 data = inr si ->
  V1.Header_ExpirationDate si <> "" ->
  let result := fst (validateSecurityInsightsV1 now data) in
  Errors result = Go.mk_slice (early_errorsV1 si ++ late_errorsV1 si)
  /\ IsValid result = no_errors (early_errorsV1 si ++ late_errorsV1 si)
  /\ (forall err,
         ParseRFC3339 (V1.Header_ExpirationDate si) = inl err ->
         Warnings result =
         Go.mk_slice ("Invalid expiration-date format (should be RFC3339)"
                      :: other_warningsV1 si))
  /\ (forall expirationDate,
         ParseRFC3339 (V1.Header_ExpirationDate si) = inr expirationDate ->
         (expirationDate < now)%Z ->
         Warnings result =
         Go.mk_slice ("File has expired - please update expiration-date"
                      :: other_warningsV1 si))
  /\ (forall expirationDate,
         ParseRFC3339 (V1.Header_ExpirationDate si) = inr expirationDate ->
         (now < expirationDate)%Z ->
         Warnings result = Go.mk_slice (other_warningsV1 si)).
Proof.
  intros Hdec Hne.
  rewrite (validateSecurityInsightsV1_decoded now _ _ Hdec).
  cbv zeta. unfold collected, fst, Errors, IsValid, Warnings.
  unfold errorsV1, warningsV1, expiration_warnings.
  rewrite (required_present _ _ Hne).
  destruct (String.eqb_spec (V1.Header_ExpirationDate si) ""); [contradiction|].
  repeat split.
  - intros err ->. reflexivity.
  - intros expirationDate -> Hpast. unfold Go.After.
    now rewrite (proj2 (Z.ltb_lt _ _) Hpast).
  - intros expirationDate -> Hfuture. unfold Go.After.
    assert (Hnot : (expirationDate <? now)%Z = false) by (apply Z.ltb_ge; lia).
    now rewrite Hnot.
Qed.

(** C7, as amended.  On a buffer that decodes as a V1 document whose
    [project-lifecycle.status] is non-empty and not one of active,
    archived, concept, moved, wip, the V1 validator warns about the value
    by name and raises no error for the field; the same holds of the V2
    validator and [repository.status] on a buffer it decodes with a schema
    version that starts with "2.".  In both cases the result is valid,
    with no error at all, when the other required fields are present. *)
Theorem unusual_status_only_warns :
  (forall now data si,
      Unmarshal_V1 data = inr si ->
      V1.ProjectLifecycle_Status si <> "" ->
      ~ In (V1.ProjectLifecycle_Status si) validStatuses ->
      let result := fst (validateSecurityInsightsV1 now data) in
      In ("Unusual project-lifecycle.status: " ++ V1.ProjectLifecycle_Status si
          ++ " (expected one of: active, archived, concept, moved, wip)")
         (Go.elems (Warnings result))
      /\ Errors result =
         Go.mk_slice
           (required "header.schema-version" (V1.Header_SchemaVersion si)
            ++ required "header.project-url" (V1.Header_ProjectURL si)
            ++ required "header.expiration-date" (V1.Header_ExpirationDate si))
      /\ (V1.Header_SchemaVersion si <> "" ->
          V1.Header_ProjectURL si <> "" ->
          V1.Header_ExpirationDate si <> "" ->
          IsValid result = true /\ Errors result = Go.mk_slice []))
  /\ (forall data insights,
         Unmarshal_V2 data = inr insights ->
         Go.HasPrefix (sitooling.Header_SchemaVersion insights) "2." = true ->
         sitooling.Repository_Status insights <> "" ->
         ~ In (sitooling.Repository_Status insights) validStatuses ->
         let result := fst (validateSecurityInsightsV2 data) in
         In ("Unusual repository.status: " ++ sitooling.Repository_Status insights
             ++ " (expected one of: active, archived, concept, moved, wip)")
            (Go.elems (Warnings result))
         /\ Errors result =
            Go.mk_slice
              (required "header.url" (sitooling.Header_URL insights)
               ++ required "repository.url" (sitooling.Repository_URL insights))
         /\ (sitooling.Header_URL insights <> "" ->
             sitooling.Repository_URL insights <> "" ->
             IsValid result = true /\ Errors result = Go.mk_slice [])).
Proof.
  split.
  - intros now data si Hdec Hne Hout.
    rewrite (validateSecurityInsightsV1_decoded now _ _ Hdec).
    cbv zeta. unfold collected, fst, Errors, IsValid, Warnings, Go.elems.
    unfold errorsV1, early_errorsV1, late_errorsV1, warningsV1, other_warningsV1.
    rewrite (required_present _ _ Hne), (unusual_outside _ _ Hne Hout).
    rewrite !app_nil_r, <- app_assoc.
    split; [|split].
    + rewrite !in_app_iff. right. right. right. left. now left.
    + reflexivity.
    + intros Hsv Hurl Hexp. now rewrite !required_present.
  - intros data insights Hdec Hver Hne Hout.
    rewrite (validateSecurityInsightsV2_accepted _ _ Hdec Hver).
    cbv zeta. unfold collected, fst, Errors, IsValid, Warnings, Go.elems.
    unfold errorsV2, warningsV2.
    rewrite (required_present _ _ Hne), (unusual_outside _ _ Hne Hout).
    rewrite !app_nil_r.
    split; [|split].
    + rewrite !in_app_iff. right. right. right. right. now left.
    + reflexivity.
    + intros Hurl Hrepo. now rewrite !required_present.
Qed.

(** C9.  A call is a function of the buffer and of the clock reading, and
    the clock matters only through the comparison with the expiration date
    in the V1 validator: two calls on the same buffer, at clock readings
    that fall on the same side of that date (equal readings always do),
    return identical results.  The V2 validator does not read the clock. *)
Theorem validation_is_deterministic (data : list byte) (now1 now2 : Go.Time) :
  same_side_of_expiration data now1 now2 ->
  validateSecurityInsights now1 data = validateSecurityInsights now2 data
  /\ validateSecurityInsightsV1 now1 data = validateSecurityInsightsV1 now2 data.
Proof.
  intros Hside.
  assert (HV1 : validateSecurityInsightsV1 now1 data =
                validateSecurityInsightsV1 now2 data).
  { destruct (Unmarshal_V1 data) as [err|si] eqn:Hdec.
    - now rewrite !(validateSecurityInsightsV1_undecoded _ _ _ Hdec).
    - rewrite !(validateSecurityInsightsV1_decoded _ _ _ Hdec).
      unfold warningsV1, expiration_warnings.
      destruct (V1.Header_ExpirationDate si =? "")%string; [reflexivity|].
      destruct (ParseRFC3339 (V1.Header_ExpirationDate si))
        as [err|expirationDate] eqn:Hparse; [reflexivity|].
      now rewrite (Hside si expirationDate Hdec Hparse). }
  split; [|exact HV1].
  unfold validateSecurityInsights.
  destruct (Unmarshal_header data) as [err|header]; [reflexivity|].
  cbv zeta. now destruct (Go.HasPrefix _ "2.").
Qed.

End FieldChecks.

(* ===================================================================== *)
(** ** The theorems on the sample documents *)
(* ===================================================================== *)

#[local] Existing Instance Fixtures.sample.

(** The table of [TestValidator_ValidateSecurityInsights], replayed with the
    clock at 2026-01-01: each case asserts [IsValid], the number of errors
    and a lower bound on the number of warnings. *)
Example test_valid_minimal_file :
  let result := fst (validateSecurityInsights Fixtures.new_year_2026
                       (Fixtures.bytes Fixtures.valid_minimal_file)) in
  IsValid result = true /\ Go.len (Errors result) = 0
  /\ 0 <= Go.len (Warnings result).
Proof. vm_compute. repeat split; lia. Qed.

Example test_missing_required_fields :
  let result := fst (validateSecurityInsights Fixtures.new_year_2026
                       (Fixtures.bytes Fixtures.missing_required_fields)) in
  IsValid result = false /\ Go.len (Errors result) = 4
  /\ 0 <= Go.len (Warnings result).
Proof. vm_compute. repeat split; lia. Qed.

Example test_missing_recommended_fields :
  let result := fst (validateSecurityInsights Fixtures.new_year_2026
                       (Fixtures.bytes Fixtures.missing_recommended_fields)) in
  IsValid result = true /\ Go.len (Errors result) = 0
  /\ 3 <= Go.len (Warnings result).
Proof. vm_compute. repeat split; lia. Qed.

Example test_expired_file :
  let result := fst (validateSecurityInsights Fixtures.new_year_2026
                       (Fixtures.bytes Fixtures.expired_file)) in
  IsValid result = true /\ Go.len (Errors result) = 0
  /\ 1 <= Go.len (Warnings result).
Proof. vm_compute. repeat split; lia. Qed.

Example test_invalid_YAML :
  let result := fst (validateSecurityInsights Fixtures.new_year_2026
                       (list_byte_of_string Fixtures.invalid_YAML)) in
  IsValid result = false /\ Go.len (Errors result) = 1
  /\ 0 <= Go.len (Warnings result).
Proof. vm_compute. repeat split; lia. Qed.

(** C1 on two documents: the complete V2 document goes to the V2 validator,
    the minimal V1 document to the V1 validator. *)
Lemma routes_by_schema_version_prefix_witness :
  validateSecurityInsights Fixtures.new_year_2026
    (Fixtures.bytes Fixtures.v2_complete)
  = validateSecurityInsightsV2 (Fixtures.bytes Fixtures.v2_complete)
  /\ validateSecurityInsights Fixtures.new_year_2026
       (Fixtures.bytes Fixtures.valid_minimal_file)
     = validateSecurityInsightsV1 Fixtures.new_year_2026
         (Fixtures.bytes Fixtures.valid_minimal_file).
Proof.
  split.
  - refine (proj1 (routes_by_schema_version_prefix (ext := Fixtures.sample)
                     Fixtures.new_year_2026
                     (Fixtures.bytes Fixtures.v2_complete)
                     (Fixtures.as_header Fixtures.v2_complete) _) _).
    + vm_compute. reflexivity.
    + vm_compute. reflexivity.
  - refine (proj1 (proj2 (routes_by_schema_version_prefix (ext := Fixtures.sample)
                            Fixtures.new_year_2026
                            (Fixtures.bytes Fixtures.valid_minimal_file)
                            (Fixtures.as_header Fixtures.valid_minimal_file) _)) _).
    + vm_compute. reflexivity.
    + vm_compute. reflexivity.
Defined.

(** C2 on the V2-shaped document that declares version 1.0.0. *)
Lemma V2_rejects_other_schema_versions_witness :
  validateSecurityInsightsV2 (Fixtures.bytes Fixtures.v2_shape_version_1)
  = ({| IsValid := false;
        Errors := Go.mk_slice ["Invalid schema version: 1.0.0 (expected 2.x.x)"];
        Warnings := Go.mk_slice [] |}, None).
Proof.
  apply (V2_rejects_other_schema_versions (ext := Fixtures.sample)
           (Fixtures.bytes Fixtures.v2_shape_version_1)
           (Fixtures.as_V2 Fixtures.v2_shape_version_1)).
  - vm_compute. reflexivity.
  - vm_compute. reflexivity.
Defined.

(** C3 on the buffer of the test case "invalid YAML". *)
Lemma undecodable_buffer_is_rejected_witness :
  validateSecurityInsights Fixtures.new_year_2026
    (list_byte_of_string Fixtures.invalid_YAML)
  = ({| IsValid := false;
        Errors := Go.mk_slice
                    ["Invalid YAML: yaml: mapping values are not allowed in this context"];
        Warnings := Go.mk_slice [] |}, None).
Proof.
  apply (proj1 (@undecodable_buffer_is_rejected Fixtures.sample) Fixtures.new_year_2026
           (list_byte_of_string Fixtures.invalid_YAML)
           "yaml: mapping values are not allowed in this context").
  vm_compute. reflexivity.
Defined.

(** C10 on the minimal V1 document: it is valid and its errors are the empty
    slice. *)
Lemma result_slices_are_not_nil_witness :
  Errors (fst (validateSecurityInsights Fixtures.new_year_2026
                 (Fixtures.bytes Fixtures.valid_minimal_file)))
  = Go.mk_slice [].
Proof.
  apply (proj2 (proj2 (proj2 (proj2 (@result_slices_are_not_nil Fixtures.sample))))
           Fixtures.new_year_2026 (Fixtures.bytes Fixtures.valid_minimal_file)).
  vm_compute. reflexivity.
Defined.

(** C5 on the document of the test case "missing required fields". *)
Lemma V1_collects_four_missing_fields_witness :
  let result := fst (validateSecurityInsightsV1 Fixtures.new_year_2026
                       (Fixtures.bytes Fixtures.missing_required_fields)) in
  IsValid result = false
  /\ Errors result =
     Go.mk_slice ["Missing required field: header.schema-version";
                  "Missing required field: header.project-url";
                  "Missing required field: header.expiration-date";
                  "Missing required field: project-lifecycle.status"]
  /\ Go.len (Errors result) = 4.
Proof.
  apply (V1_collects_four_missing_fields (ext := Fixtures.sample) Fixtures.new_year_2026
           (Fixtures.bytes Fixtures.missing_required_fields)
           (Fixtures.as_V1 Fixtures.missing_required_fields)).
  - vm_compute. reflexivity.
  - reflexivity.
  - reflexivity.
  - reflexivity.
  - reflexivity.
Defined.

(** C8 on the V2 document with its three required fields empty. *)
Lemma V2_collects_three_missing_fields_witness :
  let result := fst (validateSecurityInsightsV2
                       (Fixtures.bytes Fixtures.v2_missing_required)) in
  IsValid result = false
  /\ Errors result =
     Go.mk_slice ["Missing required field: header.url";
                  "Missing required field: repository.url";
                  "Missing required field: repository.status"]
  /\ Go.len (Errors result) = 3.
Proof.
  apply (V2_collects_three_missing_fields (ext := Fixtures.sample)
           (Fixtures.bytes Fixtures.v2_missing_required)
           (Fixtures.as_V2 Fixtures.v2_missing_required)).
  - vm_compute. reflexivity.
  - vm_compute. reflexivity.
  - reflexivity.
  - reflexivity.
  - reflexivity.
Defined.

(** C6 on three documents, with the clock at 2026-01-01: a date that is not
    a timestamp, a date in 2020 and a date at the end of 2026.  All three
    results are valid. *)
Lemma V1_expiration_date_only_warns_witness :
  (let result := fst (validateSecurityInsightsV1 Fixtures.new_year_2026
                        (Fixtures.bytes Fixtures.odd_date_and_status)) in
   IsValid result = true
   /\ Warnings result =
      Go.mk_slice
        ["Invalid expiration-date format (should be RFC3339)";
         "Unusual project-lifecycle.status: experimental (expected one of: active, archived, concept, moved, wip)"])
  /\ (let result := fst (validateSecurityInsightsV1 Fixtures.new_year_2026
                           (Fixtures.bytes Fixtures.expired_file)) in
      IsValid result = true
      /\ Warnings result =
         Go.mk_slice ["File has expired - please update expiration-date"])
  /\ (let result := fst (validateSecurityInsightsV1 Fixtures.new_year_2026
                           (Fixtures.bytes Fixtures.valid_minimal_file)) in
      IsValid result = true /\ Warnings result = Go.mk_slice []).
Proof.
  split; [|split].
  - destruct (V1_expiration_date_only_warns (ext := Fixtures.sample) Fixtures.new_year_2026
                (Fixtures.bytes Fixtures.odd_date_and_status)
                (Fixtures.as_V1 Fixtures.odd_date_and_status))
      as (_ & Hvalid & Hformat & _ & _).
    + vm_compute. reflexivity.
    + vm_compute. discriminate.
    + split; [exact Hvalid|].
      apply (Hformat "parsing time next year: not an RFC3339 timestamp").
      vm_compute. reflexivity.
  - destruct (V1_expiration_date_only_warns (ext := Fixtures.sample) Fixtures.new_year_2026
                (Fixtures.bytes Fixtures.expired_file)
                (Fixtures.as_V1 Fixtures.expired_file))
      as (_ & Hvalid & _ & Hpast & _).
    + vm_compute. reflexivity.
    + vm_compute. discriminate.
    + split; [exact Hvalid|].
      apply (Hpast 1577836800000000000%Z).
      * vm_compute. reflexivity.
      * unfold Fixtures.new_year_2026. lia.
  - destruct (V1_expiration_date_only_warns (ext := Fixtures.sample) Fixtures.new_year_2026
                (Fixtures.bytes Fixtures.valid_minimal_file)
                (Fixtures.as_V1 Fixtures.valid_minimal_file))
      as (_ & Hvalid & _ & _ & Hfuture).
    + vm_compute. reflexivity.
    + vm_compute. discriminate.
    + split; [exact Hvalid|].
      apply (Hfuture 1798761599000000000%Z).
      * vm_compute. reflexivity.
      * unfold Fixtures.new_year_2026. lia.
Defined.

Lemma experimental_is_unusual : ~ In "experimental" validStatuses.
Proof.
  intros Hin. apply status_isValid_In in Hin. vm_compute in Hin. discriminate Hin.
Qed.

(** C1 as stated fails on a buffer that is well-formed YAML but does not
    fit the structure the router decodes into.  The buffer [header: 5]
    parses; its [header] is a number where the router's target takes a
    mapping, so the decode into that target fails with a type error and the
    router returns the Invalid YAML result with that error.  The buffer
    reaches neither validator: the result is not that of the V1 call, to
    which a buffer without a schema version would go, nor that of the V2
    call. *)
Lemma well_formed_buffer_reaches_no_validator_counterexample :
  let data := list_byte_of_string Samples.scalar_header_text in
  let now := Fixtures.new_year_2026 in
  let type_error :=
    "yaml: unmarshal errors:
  line 1: cannot unmarshal !!int `5` into struct { SchemaVersion interface {} "
    ++ Samples.tag "schema-version" ++ " }" in
  well_formed Samples.yaml data
  /\ Unmarshal_header (Externals := Samples.sample) data = inl type_error
  /\ validateSecurityInsights (ext := Samples.sample) now data
     = (rejected ("Invalid YAML: " ++ type_error), None)
  /\ validateSecurityInsights (ext := Samples.sample) now data
     <> validateSecurityInsightsV1 (ext := Samples.sample) now data
  /\ validateSecurityInsights (ext := Samples.sample) now data
     <> validateSecurityInsightsV2 (ext := Samples.sample) data.
Proof.
  cbv zeta. split; [|split; [|split; [|split]]].
  - exists Samples.scalar_header. vm_compute. reflexivity.
  - vm_compute. reflexivity.
  - vm_compute. reflexivity.
  - vm_compute. discriminate.
  - vm_compute. discriminate.
Qed.

(** C7 as stated fails on a document that the router sends to the V2
    validator.  The document is well-formed and has the V2 shape; its
    [schema-version] is the plain scalar [25e-1], which the router reads as
    the number 2.5 and prints as 2.5, so the document goes to the V2
    validator, where the field is the string 25e-1.  Its [header.url] and
    [repository.url] are present and its [repository.status] is the
    non-empty value experimental, outside the usual set.  The call returns
    the version error alone: no warning names the status, and the result is
    invalid. *)
Lemma unusual_status_unreported_counterexample :
  let data := list_byte_of_string Samples.float_version_text in
  let now := Fixtures.new_year_2026 in
  let result := fst (validateSecurityInsights (ext := Samples.sample) now data) in
  well_formed Samples.yaml data
  /\ (exists header,
        Unmarshal_header (Externals := Samples.sample) data = inr header
        /\ Go.HasPrefix
             (Sprint_v (Externals := Samples.sample) (Header_SchemaVersion header))
             "2." = true)
  /\ validateSecurityInsights (ext := Samples.sample) now data
     = validateSecurityInsightsV2 (ext := Samples.sample) data
  /\ (exists insights,
        Unmarshal_V2 (Externals := Samples.sample) data = inr insights
        /\ sitooling.Repository_Status insights = "experimental"
        /\ ~ In (sitooling.Repository_Status insights) validStatuses
        /\ sitooling.Header_URL insights <> ""
        /\ sitooling.Repository_URL insights <> "")
  /\ result = rejected "Invalid schema version: 25e-1 (expected 2.x.x)"
  /\ ~ In "Unusual repository.status: experimental (expected one of: active, archived, concept, moved, wip)"
          (Go.elems (Warnings result)).
Proof.
  cbv zeta. split; [|split; [|split; [|split; [|split]]]].
  - exists Samples.float_version. vm_compute. reflexivity.
  - eexists. split; [vm_compute; reflexivity|]. vm_compute. reflexivity.
  - vm_compute. reflexivity.
  - eexists. split; [vm_compute; reflexivity|].
    split; [reflexivity|].
    split; [exact experimental_is_unusual|].
    split; [vm_compute; discriminate|].
    vm_compute. discriminate.
  - vm_compute. reflexivity.
  - vm_compute. tauto.
Qed.

(** C7, as amended, on the V1 document and on the V2 document with the
    status experimental: both are valid and carry the warning. *)
Lemma unusual_status_only_warns_witness :
  (let result := fst (validateSecurityInsightsV1 Fixtures.new_year_2026
                        (Fixtures.bytes Fixtures.odd_date_and_status)) in
   In "Unusual project-lifecycle.status: experimental (expected one of: active, archived, concept, moved, wip)"
      (Go.elems (Warnings result))
   /\ IsValid result = true)
  /\ (let result := fst (validateSecurityInsightsV2
                           (Fixtures.bytes Fixtures.v2_unusual_status)) in
      In "Unusual repository.status: experimental (expected one of: active, archived, concept, moved, wip)"
         (Go.elems (Warnings result))
      /\ IsValid result = true).
Proof.
  split.
  - destruct (proj1 (@unusual_status_only_warns Fixtures.sample) Fixtures.new_year_2026
                (Fixtures.bytes Fixtures.odd_date_and_status)
                (Fixtures.as_V1 Fixtures.odd_date_and_status))
      as (Hwarn & _ & Hvalid).
    + vm_compute. reflexivity.
    + vm_compute. discriminate.
    + exact experimental_is_unusual.
    + split; [exact Hwarn|].
      apply Hvalid; vm_compute; discriminate.
  - destruct (proj2 (@unusual_status_only_warns Fixtures.sample)
                (Fixtures.bytes Fixtures.v2_unusual_status)
                (Fixtures.as_V2 Fixtures.v2_unusual_status))
      as (Hwarn & _ & Hvalid).
    + vm_compute. reflexivity.
    + vm_compute. reflexivity.
    + vm_compute. discriminate.
    + exact experimental_is_unusual.
    + split; [exact Hwarn|].
      apply Hvalid; vm_compute; discriminate.
Defined.

(** C9 on the minimal V1 document, whose expiration date is the end of 2026:
    the calls at 2025-01-01 and at 2026-01-01 return the same result. *)
Lemma validation_is_deterministic_witness :
  validateSecurityInsights 1735689600000000000%Z (Fixtures.bytes Fixtures.valid_minimal_file)
  = validateSecurityInsights Fixtures.new_year_2026
      (Fixtures.bytes Fixtures.valid_minimal_file).
Proof.
  apply (validation_is_deterministic (ext := Fixtures.sample) (Fixtures.bytes Fixtures.valid_minimal_file)
           1735689600000000000%Z Fixtures.new_year_2026).
  intros si expirationDate Hdec Hparse.
  vm_compute in Hdec. injection Hdec as <-.
  vm_compute in Hparse. injection Hparse as <-.
  reflexivity.
Defined.

(* ===================================================================== *)
(** ** Further properties of the validators *)
(* ===================================================================== *)

Lemma required_nil_iff (field value : string) :
  required field value = [] <-> value <> "".
Proof.
  unfold required. destruct (String.eqb_spec value "") as [->|Hne].
  - split; [discriminate | congruence].
  - split; auto.
Qed.

Lemma recommended_nil_iff (field value : string) :
  recommended field value = [] <-> value <> "".
Proof.
  unfold recommended. destruct (String.eqb_spec value "") as [->|Hne].
  - split; [discriminate | congruence].
  - split; auto.
Qed.

Lemma status_warning_nil_iff (field value : string) :
  value <> "" -> (unusual field value = [] <-> In value validStatuses).
Proof.
  intros Hne. unfold unusual.
  destruct (String.eqb_spec value ""); [contradiction|].
  destruct (status_isValid value validStatuses) eqn:E.
  - apply status_isValid_In in E. tauto.
  - split; [discriminate|]. intros Hin. apply status_isValid_In in Hin. congruence.
Qed.

Lemma required_length (field value : string) :
  List.length (required field value) <= 1.
Proof. unfold required. destruct (value =? "")%string; simpl; lia. Qed.

Lemma app_eq_nil_iff {A : Type} (l1 l2 : list A) :
  (l1 ++ l2)%list = [] <-> l1 = [] /\ l2 = [].
Proof.
  split; [apply app_eq_nil | intros [-> ->]; reflexivity].
Qed.

Lemma no_errors_nil_iff (es : list string) : no_errors es = true <-> es = [].
Proof. destruct es; simpl; split; congruence. Qed.

Lemma collected_new_result_iff (es ws : list string) :
  collected es ws = new_result <-> es = [] /\ ws = [].
Proof.
  unfold collected, new_result. split.
  - intros H. injection H as _ -> ->. auto.
  - intros [-> ->]. reflexivity.
Qed.

Lemma contact_warnings_nil_iff (contacts : list V1.SecurityContact) :
  forall i,
    contact_warnings i contacts = [] <->
    Forall (fun c => V1.Type_ c <> "" /\ V1.Value c <> "") contacts.
Proof.
  induction contacts as [|c rest IH]; intros i; simpl.
  - split; auto.
  - destruct (String.eqb_spec (V1.Type_ c) "") as [Ht|Ht];
      destruct (String.eqb_spec (V1.Value c) "") as [Hv|Hv]; simpl;
      try (split; [discriminate | intros HF; inversion HF; tauto]).
    rewrite IH. split.
    + intros HF. constructor; auto.
    + intros HF. now inversion HF.
Qed.

Lemma administrator_warnings_nil_iff (admins : list sitooling.Person) :
  forall i,
    administrator_warnings i admins = [] <->
    Forall (fun a => sitooling.Name a <> "" /\ sitooling.Email a <> "") admins.
Proof.
  induction admins as [|a rest IH]; intros i; simpl.
  - split; auto.
  - destruct (String.eqb_spec (sitooling.Name a) "") as [Ht|Ht];
      destruct (String.eqb_spec (sitooling.Email a) "") as [Hv|Hv]; simpl;
      try (split; [discriminate | intros HF; inversion HF; tauto]).
    rewrite IH. split.
    + intros HF. constructor; auto.
    + intros HF. now inversion HF.
Qed.

Lemma contact_warnings_nth (contacts : list V1.SecurityContact) :
  forall k i c,
    nth_error contacts i = Some c ->
    (V1.Type_ c = "" ->
     In ("Security contact " ++ Go.Itoa (k + i) ++ " missing type")
        (contact_warnings k contacts))
    /\ (V1.Value c = "" ->
        In ("Security contact " ++ Go.Itoa (k + i) ++ " missing value")
           (contact_warnings k contacts)).
Proof.
  induction contacts as [|c0 rest IH]; intros k i c Hnth.
  - destruct i; discriminate.
  - destruct i as [|i]; simpl in Hnth.
    + injection Hnth as ->. rewrite Nat.add_0_r. simpl. split; intros ->.
      * simpl. now left.
      * rewrite !in_app_iff. right. left. simpl. now left.
    + destruct (IH (S k) i c Hnth) as [Ht Hv].
      replace (k + S i) with (S k + i) by lia.
      simpl contact_warnings. split; intros He; rewrite !in_app_iff; right; right; auto.
Qed.

Lemma administrator_warnings_nth (admins : list sitooling.Person) :
  forall k i a,
    nth_error admins i = Some a ->
    (sitooling.Name a = "" ->
     In ("Administrator " ++ Go.Itoa (k + i) ++ " missing name")
        (administrator_warnings k admins))
    /\ (sitooling.Email a = "" ->
        In ("Administrator " ++ Go.Itoa (k + i) ++ " missing email")
           (administrator_warnings k admins)).
Proof.
  induction admins as [|a0 rest IH]; intros k i a Hnth.
  - destruct i; discriminate.
  - destruct i as [|i]; simpl in Hnth.
    + injection Hnth as ->. rewrite Nat.add_0_r. simpl. split; intros ->.
      * simpl. now left.
      * rewrite !in_app_iff. right. left. simpl. now left.
    + destruct (IH (S k) i a Hnth) as [Ht Hv].
      replace (k + S i) with (S k + i) by lia.
      simpl administrator_warnings.
      split; intros He; rewrite !in_app_iff; right; right; auto.
Qed.

Lemma contact_warnings_length (contacts : list V1.SecurityContact) :
  forall i, List.length (contact_warnings i contacts) <= 2 * List.length contacts.
Proof.
  induction contacts as [|c rest IH]; intros i; simpl; [lia|].
  specialize (IH (S i)).
  destruct (V1.Type_ c =? "")%string, (V1.Value c =? "")%string; simpl; lia.
Qed.

Section ValidatorProperties.

Context {ext : Externals}.

(** X1.  A buffer that decodes as a V1 document is valid exactly when its
    four required fields are all non-empty: nothing else, neither a warning
    nor the clock, bears on [IsValid]. *)
Theorem V1_valid_iff_required_fields_present
        (now : Go.Time) (data : list byte) (si : V1.SecurityInsightsV1) :
  Unmarshal_V1 data = inr si ->
  (IsValid (fst (validateSecurityInsightsV1 now data)) = true <->
   V1.Header_SchemaVersion si <> ""
   /\ V1.Header_ProjectURL si <> ""
   /\ V1.Header_ExpirationDate si <> ""
   /\ V1.ProjectLifecycle_Status si <> "").
Proof.
  intros Hdec. rewrite (validateSecurityInsightsV1_decoded now _ _ Hdec).
  cbn [fst collected IsValid]. rewrite no_errors_nil_iff.
  unfold errorsV1, early_errorsV1, late_errorsV1.
  rewrite !app_eq_nil_iff, !required_nil_iff. tauto.
Qed.

(** X2.  A buffer that the V2 validator decodes is valid exactly when its
    schema version starts with "2." and [header.url], [repository.url] and
    [repository.status] are all non-empty. *)
Theorem V2_valid_iff_version_and_required_fields
        (data : list byte) (insights : sitooling.SecurityInsights) :
  Unmarshal_V2 data = inr insights ->
  (IsValid (fst (validateSecurityInsightsV2 data)) = true <->
   Go.HasPrefix (sitooling.Header_SchemaVersion insights) "2." = true
   /\ sitooling.Header_URL insights <> ""
   /\ sitooling.Repository_URL insights <> ""
   /\ sitooling.Repository_Status insights <> "").
Proof.
  intros Hdec.
  destruct (Go.HasPrefix (sitooling.Header_SchemaVersion insights) "2.") eqn:Hver.
  - rewrite (validateSecurityInsightsV2_accepted _ _ Hdec Hver).
    cbn [fst collected IsValid]. rewrite no_errors_nil_iff.
    unfold errorsV2. rewrite !app_eq_nil_iff, !required_nil_iff. tauto.
  - rewrite (validateSecurityInsightsV2_mismatch _ _ Hdec Hver).
    cbn [fst rejected IsValid]. split; [discriminate|]. intros [H _]. discriminate.
Qed.

(** X3.  No call collects more errors than there are required fields: at
    most four from the V1 validator and from the router, at most three from
    the V2 validator. *)
Theorem error_count_is_bounded (now : Go.Time) (data : list byte) :
  Go.len (Errors (fst (validateSecurityInsightsV1 now data))) <= 4
  /\ Go.len (Errors (fst (validateSecurityInsightsV2 data))) <= 3
  /\ Go.len (Errors (fst (validateSecurityInsights now data))) <= 4.
Proof.
  assert (HV1 : Go.len (Errors (fst (validateSecurityInsightsV1 now data))) <= 4).
  { destruct (Unmarshal_V1 data) as [err|si] eqn:Hdec.
    - rewrite (validateSecurityInsightsV1_undecoded _ _ _ Hdec).
      unfold rejected, Go.len. cbn [fst Errors Go.elems List.length]. lia.
    - rewrite (validateSecurityInsightsV1_decoded now _ _ Hdec).
      cbn [fst collected Errors]. unfold Go.len, Go.elems.
      unfold errorsV1, early_errorsV1, late_errorsV1. rewrite !length_app.
      pose proof (required_length "header.schema-version" (V1.Header_SchemaVersion si)).
      pose proof (required_length "header.project-url" (V1.Header_ProjectURL si)).
      pose proof (required_length "header.expiration-date" (V1.Header_ExpirationDate si)).
      pose proof (required_length "project-lifecycle.status" (V1.ProjectLifecycle_Status si)).
      lia. }
  assert (HV2 : Go.len (Errors (fst (validateSecurityInsightsV2 data))) <= 3).
  { destruct (Unmarshal_V2 data) as [err|insights] eqn:Hdec.
    - rewrite (validateSecurityInsightsV2_undecoded _ _ Hdec).
      unfold rejected, Go.len. cbn [fst Errors Go.elems List.length]. lia.
    - destruct (Go.HasPrefix (sitooling.Header_SchemaVersion insights) "2.") eqn:Hver.
      + rewrite (validateSecurityInsightsV2_accepted _ _ Hdec Hver).
        cbn [fst collected Errors]. unfold Go.len, Go.elems.
        unfold errorsV2. rewrite !length_app.
        pose proof (required_length "header.url" (sitooling.Header_URL insights)).
        pose proof (required_length "repository.url" (sitooling.Repository_URL insights)).
        pose proof (required_length "repository.status"
                      (sitooling.Repository_Status insights)).
        lia.
      + rewrite (validateSecurityInsightsV2_mismatch _ _ Hdec Hver).
        unfold rejected, Go.len. cbn [fst Errors Go.elems List.length]. lia. }
  split; [exact HV1 | split; [exact HV2|]].
  unfold validateSecurityInsights.
  destruct (Unmarshal_header data) as [err|header];
    [cbv; lia|].
  cbv zeta. destruct (Go.HasPrefix _ "2."); lia.
Qed.

(** X4.  The V1 validator returns a result with no error and no warning,
    the fresh result, exactly for the documents that set the four required
    and the two recommended header fields, whose expiration date is an
    RFC3339 timestamp that the clock has not passed, whose status is one of
    the five usual values, and that list at least one security contact,
    each with a type and a value. *)
Theorem V1_clean_result_iff
        (now : Go.Time) (data : list byte) (si : V1.SecurityInsightsV1) :
  Unmarshal_V1 data = inr si ->
  (fst (validateSecurityInsightsV1 now data) = new_result <->
   V1.Header_SchemaVersion si <> ""
   /\ V1.Header_ProjectURL si <> ""
   /\ (exists expirationDate,
          ParseRFC3339 (V1.Header_ExpirationDate si) = inr expirationDate
          /\ (now <= expirationDate)%Z)
   /\ V1.Header_ExpirationDate si <> ""
   /\ V1.Header_LastUpdated si <> ""
   /\ V1.Header_LastReviewed si <> ""
   /\ In (V1.ProjectLifecycle_Status si) validStatuses
   /\ V1.SecurityContacts si <> []
   /\ Forall (fun c => V1.Type_ c <> "" /\ V1.Value c <> "")
             (V1.SecurityContacts si)).
Proof.
  intros Hdec. rewrite (validateSecurityInsightsV1_decoded now _ _ Hdec).
  cbn [fst]. rewrite collected_new_result_iff.
  unfold errorsV1, early_errorsV1, late_errorsV1, warningsV1, other_warningsV1.
  rewrite !app_eq_nil_iff, !required_nil_iff, !recommended_nil_iff.
  assert (Hexp : V1.Header_ExpirationDate si <> "" ->
                 (expiration_warnings now (V1.Header_ExpirationDate si) = [] <->
                  exists expirationDate,
                    ParseRFC3339 (V1.Header_ExpirationDate si) = inr expirationDate
                    /\ (now <= expirationDate)%Z)).
  { intros Hne. unfold expiration_warnings.
    destruct (String.eqb_spec (V1.Header_ExpirationDate si) ""); [contradiction|].
    destruct (ParseRFC3339 (V1.Header_ExpirationDate si)) as [err|t].
    - split; [discriminate | intros (t & Habs & _); discriminate].
    - unfold Go.After. destruct (Z.ltb_spec t now).
      + split; [discriminate|]. intros (t' & Heq & Hle). injection Heq as <-. lia.
      + split; [|reflexivity]. intros _. exists t. split; [reflexivity | lia]. }
  assert (Hcontacts :
            (if (List.length (V1.SecurityContacts si) =? 0)%nat
             then ["No security-contacts specified"]
             else contact_warnings 0 (V1.SecurityContacts si)) = [] <->
            V1.SecurityContacts si <> []
            /\ Forall (fun c => V1.Type_ c <> "" /\ V1.Value c <> "")
                      (V1.SecurityContacts si)).
  { destruct (V1.SecurityContacts si) as [|c rest] eqn:Hcs.
    - simpl. split; [discriminate | intros [Habs _]; congruence].
    - cbn [List.length Nat.eqb]. rewrite contact_warnings_nil_iff.
      split; [intros HF; split; [discriminate | exact HF] | tauto]. }
  rewrite Hcontacts. split.
  - intros H.
    assert (Hx : V1.Header_ExpirationDate si <> "") by tauto.
    assert (Hst : V1.ProjectLifecycle_Status si <> "") by tauto.
    rewrite (Hexp Hx), (status_warning_nil_iff _ _ Hst) in H. tauto.
  - intros H.
    assert (Hx : V1.Header_ExpirationDate si <> "") by tauto.
    assert (Hst : V1.ProjectLifecycle_Status si <> "").
    { intros Heq. destruct H as (_ & _ & _ & _ & _ & _ & Hin & _).
      rewrite Heq in Hin. apply status_isValid_In in Hin. discriminate. }
    rewrite (Hexp Hx), (status_warning_nil_iff _ _ Hst). tauto.
Qed.

(** X5.  The V2 validator returns the fresh result, no error and no
    warning, exactly for the documents it decodes with a schema version that
    starts with "2.", with [header.url], [header.last-updated],
    [header.last-reviewed], [project.name] and [repository.url] set, with a
    status among the five usual values, and with at least one administrator,
    each with a name and an email. *)
Theorem V2_clean_result_iff
        (data : list byte) (insights : sitooling.SecurityInsights) :
  Unmarshal_V2 data = inr insights ->
  (fst (validateSecurityInsightsV2 data) = new_result <->
   Go.HasPrefix (sitooling.Header_SchemaVersion insights) "2." = true
   /\ sitooling.Header_URL insights <> ""
   /\ sitooling.Repository_URL insights <> ""
   /\ sitooling.Header_LastUpdated insights <> ""
   /\ sitooling.Header_LastReviewed insights <> ""
   /\ sitooling.Project_Name insights <> ""
   /\ In (sitooling.Repository_Status insights) validStatuses
   /\ sitooling.Project_Administrators insights <> []
   /\ Forall (fun a => sitooling.Name a <> "" /\ sitooling.Email a <> "")
             (sitooling.Project_Administrators insights)).
Proof.
  intros Hdec.
  destruct (Go.HasPrefix (sitooling.Header_SchemaVersion insights) "2.") eqn:Hver.
  2:{ rewrite (validateSecurityInsightsV2_mismatch _ _ Hdec Hver). cbn [fst].
      split; [discriminate | intros [Habs _]; discriminate]. }
  rewrite (validateSecurityInsightsV2_accepted _ _ Hdec Hver).
  cbn [fst]. rewrite collected_new_result_iff.
  unfold errorsV2, warningsV2.
  rewrite !app_eq_nil_iff, !required_nil_iff, !recommended_nil_iff.
  assert (Hadmins :
            (if (List.length (sitooling.Project_Administrators insights) =? 0)%nat
             then ["No project administrators specified"]
             else administrator_warnings 0 (sitooling.Project_Administrators insights))
            = [] <->
            sitooling.Project_Administrators insights <> []
            /\ Forall (fun a => sitooling.Name a <> "" /\ sitooling.Email a <> "")
                      (sitooling.Project_Administrators insights)).
  { destruct (sitooling.Project_Administrators insights) as [|a rest] eqn:Has.
    - simpl. split; [discriminate | intros [Habs _]; congruence].
    - cbn [List.length Nat.eqb]. rewrite administrator_warnings_nil_iff.
      split; [intros HF; split; [discriminate | exact HF] | tauto]. }
  rewrite Hadmins. split.
  - intros H.
    assert (Hst : sitooling.Repository_Status insights <> "") by tauto.
    rewrite (status_warning_nil_iff _ _ Hst) in H. tauto.
  - intros H.
    assert (Hst : sitooling.Repository_Status insights <> "").
    { intros Heq. destruct H as (_ & _ & _ & _ & _ & _ & Hin & _).
      rewrite Heq in Hin. apply status_isValid_In in Hin. discriminate. }
    rewrite (status_warning_nil_iff _ _ Hst). tauto.
Qed.

(** X6.  The warnings about list entries carry the position of the entry,
    counted from 0: the security contact at index [i] of a decoded V1
    document is reported as "Security contact i" when its type or its value
    is empty, and the administrator at index [i] of an accepted V2 document
    as "Administrator i" when its name or its email is empty. *)
Theorem entry_warnings_name_the_index :
  (forall now data si i contact,
      Unmarshal_V1 data = inr si ->
      nth_error (V1.SecurityContacts si) i = Some contact ->
      let warnings := Go.elems (Warnings (fst (validateSecurityInsightsV1 now data))) in
      (V1.Type_ contact = "" ->
       In ("Security contact " ++ Go.Itoa i ++ " missing type") warnings)
      /\ (V1.Value contact = "" ->
          In ("Security contact " ++ Go.Itoa i ++ " missing value") warnings))
  /\ (forall data insights i admin,
         Unmarshal_V2 data = inr insights ->
         Go.HasPrefix (sitooling.Header_SchemaVersion insights) "2." = true ->
         nth_error (sitooling.Project_Administrators insights) i = Some admin ->
         let warnings := Go.elems (Warnings (fst (validateSecurityInsightsV2 data))) in
         (sitooling.Name admin = "" ->
          In ("Administrator " ++ Go.Itoa i ++ " missing name") warnings)
         /\ (sitooling.Email admin = "" ->
             In ("Administrator " ++ Go.Itoa i ++ " missing email") warnings)).
Proof.
  split.
  - intros now data si i contact Hdec Hnth.
    rewrite (validateSecurityInsightsV1_decoded now _ _ Hdec).
    cbn [fst collected Warnings Go.elems]. cbv zeta.
    unfold warningsV1, other_warningsV1.
    destruct (V1.SecurityContacts si) as [|c0 rest] eqn:Hcs;
      [destruct i; discriminate|].
    cbn [List.length Nat.eqb].
    destruct (contact_warnings_nth (c0 :: rest) 0 i contact Hnth) as [Ht Hv].
    cbn [Nat.add] in Ht, Hv.
    split; intros He; rewrite !in_app_iff; do 4 right; auto.
  - intros data insights i admin Hdec Hver Hnth.
    rewrite (validateSecurityInsightsV2_accepted _ _ Hdec Hver).
    cbn [fst collected Warnings Go.elems]. cbv zeta.
    unfold warningsV2.
    destruct (sitooling.Project_Administrators insights) as [|a0 rest] eqn:Has;
      [destruct i; discriminate|].
    cbn [List.length Nat.eqb].
    destruct (administrator_warnings_nth (a0 :: rest) 0 i admin Hnth) as [Hn Hm].
    cbn [Nat.add] in Hn, Hm.
    split; intros He; rewrite !in_app_iff; do 3 right; left; auto.
Qed.

End ValidatorProperties.

(* ===================================================================== *)
(** ** Lemmas on strings *)
(* ===================================================================== *)

Lemma prefix_iff (p s : string) :
  String.prefix p s = true <-> exists post, s = p ++ post.
Proof.
  revert s. induction p as [|a p IH]; intros s.
  - destruct s; simpl; split; eauto.
  - destruct s as [|b s]; cbn [String.prefix].
    + split; [discriminate | intros [post H]; discriminate].
    + destruct (ascii_dec a b) as [<-|Hne].
      * rewrite IH. split; intros [post H]; exists post.
        -- simpl. now rewrite H.
        -- simpl in H. now injection H.
      * split; [discriminate|]. intros [post H]. simpl in H. injection H as H1 _.
        congruence.
Qed.

Lemma Contains_unfold (s substr : string) :
  strings.Contains s substr =
  if String.prefix substr s then true
  else match s with
       | EmptyString => false
       | String _ rest => strings.Contains rest substr
       end.
Proof. destruct s; reflexivity. Qed.

(** [strings.Contains] finds exactly the strings that have [substr]
    somewhere inside. *)
Lemma Contains_iff (s substr : string) :
  strings.Contains s substr = true <->
  exists pre post, s = pre ++ substr ++ post.
Proof.
  split.
  - induction s as [|c s IH]; rewrite Contains_unfold;
      destruct (String.prefix substr _) eqn:Hp;
      try (apply prefix_iff in Hp; destruct Hp as [post ->];
           intros _; now exists "", post);
      [discriminate|].
    intros H. destruct (IH H) as (pre & post & ->).
    now exists (String c pre), post.
  - intros (pre & post & ->). induction pre as [|c pre IH].
    + rewrite Contains_unfold.
      assert (Hp : String.prefix substr ("" ++ substr ++ post) = true)
        by (apply prefix_iff; now exists post).
      now rewrite Hp.
    + rewrite Contains_unfold.
      destruct (String.prefix substr _); [reflexivity | exact IH].
Qed.

Lemma map_bytes_app (f : ascii -> ascii) (s1 s2 : string) :
  strings.map_bytes f (s1 ++ s2) = strings.map_bytes f s1 ++ strings.map_bytes f s2.
Proof. induction s1 as [|c s1 IH]; simpl; [reflexivity | now rewrite IH]. Qed.

Lemma map_bytes_app_inv (f : ascii -> ascii) (s x y : string) :
  strings.map_bytes f s = x ++ y ->
  exists a b, s = a ++ b /\ strings.map_bytes f a = x /\ strings.map_bytes f b = y.
Proof.
  revert s. induction x as [|c x IH]; intros s H.
  - now exists "", s.
  - destruct s as [|d s]; [discriminate|]. simpl in H. injection H as Hc Hrest.
    destruct (IH s Hrest) as (a & b & -> & Ha & Hb).
    exists (String d a), b. simpl. now rewrite Hc, Ha.
Qed.

Lemma map_lower_without_upper (s : string) :
  strings.hasUpper s = false -> strings.map_bytes strings.lower_byte s = s.
Proof.
  induction s as [|c s IH]; simpl; [reflexivity|].
  intros H. apply orb_false_iff in H. destruct H as [Hc Hs].
  rewrite (IH Hs). unfold strings.lower_byte. now rewrite Hc.
Qed.

(** On a string of ASCII bytes [strings.ToLower] lowers each byte, whatever
    the Unicode tables are. *)
Lemma ToLower_ASCII (unicode : string -> string) (s : string) :
  strings.isASCII s = true ->
  strings.ToLower unicode s = strings.map_bytes strings.lower_byte s.
Proof.
  intros H. unfold strings.ToLower. rewrite H.
  destruct (strings.hasUpper s) eqn:Hu; [reflexivity|].
  now rewrite map_lower_without_upper.
Qed.

(* ===================================================================== *)
(** ** The file entry point and the validate command *)
(* ===================================================================== *)

Section FileProperties.

Context {ext : Externals} {sys : System}.

Lemma name_test_iff (path : string) :
  strings.isASCII path = true ->
  (strings.Contains (strings.ToLower unicode_ToLower path) "security-insights" = true
   <-> names_security_insights path).
Proof.
  intros Hascii. rewrite (ToLower_ASCII _ _ Hascii), Contains_iff.
  unfold names_security_insights. split.
  - intros (pre' & post' & H).
    destruct (map_bytes_app_inv _ _ _ _ H) as (pre & rest & -> & Hpre & Hrest).
    destruct (map_bytes_app_inv _ _ _ _ Hrest) as (name & post & -> & Hname & Hpost).
    now exists pre, name, post.
  - intros (pre & name & post & -> & Hname).
    exists (strings.map_bytes strings.lower_byte pre),
           (strings.map_bytes strings.lower_byte post).
    now rewrite !map_bytes_app, Hname.
Qed.

Lemma validateSecurityInsights_nil_error (now : Go.Time) (data : list byte) :
  snd (validateSecurityInsights now data) = None.
Proof.
  now destruct (validateSecurityInsights_collected now data) as (es & ws & ->).
Qed.

Lemma ValidateFile_read (now : Go.Time) (path : string) (data : list byte) :
  ReadFile path = inr data ->
  ValidateFile now path =
  if strings.Contains (strings.ToLower unicode_ToLower path) "security-insights"
  then (Some (fst (validateSecurityInsights now data)), None)
  else (None, Some ("unknown file type: " ++ path)).
Proof.
  intros Hread. unfold ValidateFile. rewrite Hread. cbv zeta.
  destruct (strings.Contains _ _); [|reflexivity].
  pose proof (validateSecurityInsights_nil_error now data) as Herr.
  destruct (validateSecurityInsights now data) as [result err].
  simpl in Herr. now rewrite Herr.
Qed.

Lemma ValidateFile_cases (now : Go.Time) (path : string) :
  match ValidateFile now path with
  | (Some result, None) =>
      exists data,
        ReadFile path = inr data
        /\ result = fst (validateSecurityInsights now data)
  | (None, Some err) =>
      (exists e, ReadFile path = inl e /\ err = "failed to read file: " ++ e)
      \/ (exists data,
             ReadFile path = inr data /\ err = "unknown file type: " ++ path)
  | _ => False
  end.
Proof.
  destruct (ReadFile path) as [e|data] eqn:Hread.
  - unfold ValidateFile. rewrite Hread. left. now exists e.
  - rewrite (ValidateFile_read now _ _ Hread).
    destruct (strings.Contains _ _).
    + now exists data.
    + right. now exists data.
Qed.

(** X7.  [ValidateFile] returns either a result and a nil error, or a nil
    result and an error, never both and never neither.  A result is the
    router's on the bytes of the file; an error says that the file could
    not be read, or else that its type is unknown, so that an unreadable
    file is reported as such whatever its name. *)
Theorem ValidateFile_result_or_error (now : Go.Time) (path : string) :
  match ValidateFile now path with
  | (Some result, None) =>
      exists data,
        ReadFile path = inr data
        /\ result = fst (validateSecurityInsights now data)
  | (None, Some err) =>
      (exists e, ReadFile path = inl e /\ err = "failed to read file: " ++ e)
      \/ (exists data,
             ReadFile path = inr data /\ err = "unknown file type: " ++ path)
  | _ => False
  end.
Proof. apply ValidateFile_cases. Qed.

(** X8.  For a readable file whose path is made of ASCII bytes, the file is
    validated exactly when security-insights occurs somewhere in the path,
    in any mix of upper and lower case and in a directory name as well as
    in the file name; any other path is refused as an unknown file type. *)
Theorem ValidateFile_tests_the_name_in_any_case
        (now : Go.Time) (path : string) (data : list byte) :
  ReadFile path = inr data ->
  strings.isASCII path = true ->
  (names_security_insights path ->
   ValidateFile now path = (Some (fst (validateSecurityInsights now data)), None))
  /\ (~ names_security_insights path ->
      ValidateFile now path = (None, Some ("unknown file type: " ++ path))).
Proof.
  intros Hread Hascii. rewrite (ValidateFile_read now _ _ Hread).
  pose proof (name_test_iff path Hascii) as Hiff.
  destruct (strings.Contains _ _).
  - split; [reflexivity|]. intros Hn. exfalso. apply Hn. now apply Hiff.
  - split; [|reflexivity]. intros Hn. apply Hiff in Hn. discriminate.
Qed.

Lemma ValidateFile_result_invariant (now : Go.Time) (path : string)
      (result : ValidationResult) (err : option Go.error) :
  ValidateFile now path = (Some result, err) ->
  err = None /\ IsValid result = (Go.len (Errors result) =? 0)%nat.
Proof.
  intros H. pose proof (ValidateFile_cases now path) as Hx.
  rewrite H in Hx. destruct err; [contradiction|].
  destruct Hx as (data & _ & ->). split; [reflexivity|].
  destruct (validateSecurityInsights_collected now data) as (es & ws & ->).
  apply collected_IsValid.
Qed.

(** X9.  [runValidate] on at least one argument never panics, and if it
    stops the process the exit status is 1.  When it returns an error it has
    printed nothing; a path that [os.Stat] reports missing is answered with
    "file does not exist" before the file is read. *)
Theorem runValidate_fails_quietly (now : Go.Time) (path : string) (rest : list string) :
  match snd (runValidate now (path :: rest)) with
  | Panic _ => False
  | Exit code => code = 1%Z
  | Return (Some _) => fst (runValidate now (path :: rest)) = []
  | Return None => True
  end
  /\ (stat_IsNotExist (Stat path) = true ->
      runValidate now (path :: rest)
      = ([], Return (Some ("file does not exist: " ++ path)))).
Proof.
  unfold runValidate. destruct (stat_IsNotExist (Stat path)).
  - split; reflexivity.
  - split; [|discriminate].
    pose proof (ValidateFile_cases now path) as Hx.
    destruct (ValidateFile now path) as [[result|] [err|]]; try contradiction.
    + destruct (IsValid result); cbv zeta; simpl; auto.
    + reflexivity.
Qed.

(** X10.  On a file that is validated, [runValidate] stops the process with
    status 1 exactly when the result holds at least one error, and returns
    nil otherwise.  For a valid file it prints the one line that says so
    and none of the warnings.  For an invalid one it prints, in this order,
    the heading that names the file, one line per error in the order of the
    result and then, only if there are warnings, the heading Warnings after
    an empty line and one line per warning in the order of the result. *)
Theorem runValidate_exit_status_follows_errors
        (now : Go.Time) (path : string) (rest : list string)
        (result : ValidationResult) :
  stat_IsNotExist (Stat path) = false ->
  ValidateFile now path = (Some result, None) ->
  let run := runValidate now (path :: rest) in
  let item := fun message : string => "  - " ++ message ++ "
" in
  let invalid_heading := "✗ " ++ path ++ " is invalid:
" in
  let warnings_heading := "
Warnings:
" in
  (Go.len (Errors result) = 0 ->
   run = (["✓ " ++ path ++ " is valid
"], Return None))
  /\ (0 < Go.len (Errors result) ->
      run = ((invalid_heading
              :: map item (Go.elems (Errors result))
              ++ (if (Go.len (Warnings result) =? 0)%nat then []
                  else warnings_heading :: map item (Go.elems (Warnings result))))%list,
             Exit 1)).
Proof.
  intros Hstat Hfile.
  destruct (ValidateFile_result_invariant _ _ _ _ Hfile) as [_ Hvalid].
  cbv zeta. unfold runValidate. rewrite Hstat, Hfile, Hvalid. split.
  - intros ->. reflexivity.
  - intros Hpos. destruct (Nat.eqb_spec (Go.len (Errors result)) 0) as [H0|_]; [lia|].
    cbv zeta. unfold print_items.
    destruct (Go.len (Warnings result)); reflexivity.
Qed.

End FileProperties.

(* ===================================================================== *)
(** ** The checker *)
(* ===================================================================== *)

Section CheckerProperties.

Context {sys : System}.

Lemma stat_ok_iff (r : stat_result) : stat_ok r = true <-> r = StatFound.
Proof. destruct r; simpl; split; congruence. Qed.

Lemma range_possiblePaths_Exists (name : string) (paths : list string) :
  checker.Exists (checker.range_possiblePaths name paths) = true <-> found paths.
Proof.
  unfold found. induction paths as [|p rest IH]; simpl.
  - split; [discriminate | intros (path & [] & _)].
  - destruct (stat_ok (Stat p)) eqn:Hp; simpl.
    + split; [|reflexivity]. intros _. exists p. split; [now left|].
      now apply stat_ok_iff.
    + rewrite IH. split.
      * intros (path & Hin & Hst). exists path. split; [now right | exact Hst].
      * intros (path & [<-|Hin] & Hst).
        -- apply stat_ok_iff in Hst. congruence.
        -- now exists path.
Qed.

Lemma range_possiblePaths_first (name : string) (paths : list string) :
  reports_first_found paths (checker.range_possiblePaths name paths).
Proof.
  unfold reports_first_found. induction paths as [|p rest IH]; simpl.
  - split; [discriminate|]. intros _. split; [reflexivity | constructor].
  - destruct (stat_ok (Stat p)) eqn:Hp; simpl.
    + split; [|discriminate]. intros _. exists [], rest.
      split; [reflexivity|]. split; [now apply stat_ok_iff | constructor].
    + assert (Hnot : Stat p <> StatFound).
      { intros H. apply stat_ok_iff in H. congruence. }
      destruct IH as [IHt IHf]. split.
      * intros He. destruct (IHt He) as (before & after & Heq & Hst & Hall).
        exists (p :: before), after. split; [simpl; now rewrite <- Heq|].
        split; [exact Hst | now constructor].
      * intros He. destruct (IHf He) as [Hpath Hall].
        split; [exact Hpath | now constructor].
Qed.

Lemma range_possiblePaths_shape (name : string) (paths : list string) :
  let f := checker.range_possiblePaths name paths in
  checker.Name f = name
  /\ checker.Valid f = checker.Exists f
  /\ checker.Errors f = Go.nil_slice
  /\ checker.Warnings f = Go.nil_slice.
Proof.
  induction paths as [|p rest IH]; simpl; [repeat split|].
  destruct (stat_ok (Stat p)); [repeat split | exact IH].
Qed.

(** [Check] in one piece: the five reports, the required files among them
    that are missing, one recommendation per missing file, and compliance
    from the three required files. *)
Lemma Check_result (c : checker.Checker) :
  let si := checker.checkSecurityInsights c in
  let md := checker.checkSecurityPolicy c in
  let lic := checker.checkLicense c in
  let coc := checker.checkCodeOfConduct c in
  let con := checker.checkContributing c in
  let missing (f : checker.FileCheck) := negb (checker.Exists f) in
  let absent (name : string) (f : checker.FileCheck) :=
    if checker.Exists f then [] else [name] in
  checker.Check c =
  ({| checker.Result_Path := checker.repoPath c;
      checker.IsCompliant :=
        checker.Exists si && checker.Exists md && checker.Exists lic;
      checker.Files := Go.mk_slice [si; md; lic; coc; con];
      checker.MissingFiles :=
        Go.mk_slice (absent "SECURITY-INSIGHTS.yml" si ++ absent "SECURITY.md" md
                     ++ absent "LICENSE" lic)%list;
      checker.Recommendations :=
        Go.mk_slice
          (map recommendation_for
               (absent "SECURITY-INSIGHTS.yml" si ++ absent "SECURITY.md" md
                ++ absent "LICENSE" lic ++ absent "CODE_OF_CONDUCT.md" coc
                ++ absent "CONTRIBUTING.md" con)%list) |}, None).
Proof.
  cbv zeta. unfold checker.Check.
  generalize (checker.checkSecurityInsights c) (checker.checkSecurityPolicy c)
             (checker.checkLicense c) (checker.checkCodeOfConduct c)
             (checker.checkContributing c).
  intros si md lic coc con.
  destruct (checker.Exists si), (checker.Exists md), (checker.Exists lic),
    (checker.Exists coc), (checker.Exists con); reflexivity.
Qed.

(** X11.  A repository is compliant exactly when [os.Stat] finds, for each
    of SECURITY-INSIGHTS.yml, SECURITY.md and LICENSE, one of its candidate
    paths; CODE_OF_CONDUCT.md and CONTRIBUTING.md do not bear on
    compliance. *)
Theorem Check_compliant_iff_required_files_found (c : checker.Checker) :
  let repo := checker.repoPath c in
  checker.IsCompliant (fst (checker.Check c)) = true <->
  found [Join [repo; "SECURITY-INSIGHTS.yml"];
         Join [repo; ".github"; "SECURITY-INSIGHTS.yml"];
         Join [repo; "SECURITY-INSIGHTS.yaml"];
         Join [repo; ".github"; "SECURITY-INSIGHTS.yaml"]]
  /\ found [Join [repo; "SECURITY.md"];
            Join [repo; ".github"; "SECURITY.md"];
            Join [repo; "docs"; "SECURITY.md"]]
  /\ found [Join [repo; "LICENSE"];
            Join [repo; "LICENSE.md"];
            Join [repo; "LICENSE.txt"];
            Join [repo; "COPYING"]].
Proof.
  cbv zeta.
  rewrite <- (range_possiblePaths_Exists "SECURITY-INSIGHTS.yml").
  rewrite <- (range_possiblePaths_Exists "SECURITY.md").
  rewrite <- (range_possiblePaths_Exists "LICENSE").
  fold (checker.checkSecurityInsights c) (checker.checkSecurityPolicy c)
       (checker.checkLicense c).
  pose proof (Check_result c) as H. cbv zeta in H. rewrite H.
  cbn [fst checker.IsCompliant]. rewrite !andb_true_iff. tauto.
Qed.

(** X12.  Each of the five checks reports the first of its candidate paths
    that [os.Stat] finds, in the order root, [.github], [docs] (for the
    licence: LICENSE, LICENSE.md, LICENSE.txt, COPYING), and reports no file
    and an empty path when it finds none. *)
Theorem checks_report_the_first_candidate_found (c : checker.Checker) :
  let repo := checker.repoPath c in
  reports_first_found
    [Join [repo; "SECURITY-INSIGHTS.yml"];
     Join [repo; ".github"; "SECURITY-INSIGHTS.yml"];
     Join [repo; "SECURITY-INSIGHTS.yaml"];
     Join [repo; ".github"; "SECURITY-INSIGHTS.yaml"]]
    (checker.checkSecurityInsights c)
  /\ reports_first_found
       [Join [repo; "SECURITY.md"];
        Join [repo; ".github"; "SECURITY.md"];
        Join [repo; "docs"; "SECURITY.md"]]
       (checker.checkSecurityPolicy c)
  /\ reports_first_found
       [Join [repo; "LICENSE"];
        Join [repo; "LICENSE.md"];
        Join [repo; "LICENSE.txt"];
        Join [repo; "COPYING"]]
       (checker.checkLicense c)
  /\ reports_first_found
       [Join [repo; "CODE_OF_CONDUCT.md"];
        Join [repo; ".github"; "CODE_OF_CONDUCT.md"];
        Join [repo; "docs"; "CODE_OF_CONDUCT.md"]]
       (checker.checkCodeOfConduct c)
  /\ reports_first_found
       [Join [repo; "CONTRIBUTING.md"];
        Join [repo; ".github"; "CONTRIBUTING.md"];
        Join [repo; "docs"; "CONTRIBUTING.md"]]
       (checker.checkContributing c).
Proof.
  cbv zeta. split; [|split; [|split; [|split]]]; apply range_possiblePaths_first.
Qed.

Lemma check_shapes (c : checker.Checker) :
  Forall (fun f => checker.Valid f = checker.Exists f
                   /\ checker.Errors f = Go.nil_slice
                   /\ checker.Warnings f = Go.nil_slice)
         [checker.checkSecurityInsights c; checker.checkSecurityPolicy c;
          checker.checkLicense c; checker.checkCodeOfConduct c;
          checker.checkContributing c]
  /\ map checker.Name
         [checker.checkSecurityInsights c; checker.checkSecurityPolicy c;
          checker.checkLicense c; checker.checkCodeOfConduct c;
          checker.checkContributing c]
     = ["SECURITY-INSIGHTS.yml"; "SECURITY.md"; "LICENSE";
        "CODE_OF_CONDUCT.md"; "CONTRIBUTING.md"].
Proof.
  unfold checker.checkSecurityInsights, checker.checkSecurityPolicy,
    checker.checkLicense, checker.checkCodeOfConduct, checker.checkContributing.
  cbv zeta. split.
  - repeat constructor; apply range_possiblePaths_shape.
  - cbn [map]. now rewrite !(proj1 (range_possiblePaths_shape _ _)).
Qed.

(** X13.  [Check] always reports five files, in the order
    SECURITY-INSIGHTS.yml, SECURITY.md, LICENSE, CODE_OF_CONDUCT.md,
    CONTRIBUTING.md, and returns a nil error.  In every report [Valid]
    equals [Exists] and no error or warning is attached: a file that exists
    counts as valid, its content is not looked at. *)
Theorem Check_reports_five_files (c : checker.Checker) :
  snd (checker.Check c) = None
  /\ checker.Result_Path (fst (checker.Check c)) = checker.repoPath c
  /\ map checker.Name (Go.elems (checker.Files (fst (checker.Check c))))
     = ["SECURITY-INSIGHTS.yml"; "SECURITY.md"; "LICENSE";
        "CODE_OF_CONDUCT.md"; "CONTRIBUTING.md"]
  /\ Forall (fun f => checker.Valid f = checker.Exists f
                      /\ checker.Errors f = Go.nil_slice
                      /\ checker.Warnings f = Go.nil_slice)
            (Go.elems (checker.Files (fst (checker.Check c)))).
Proof.
  pose proof (Check_result c) as H. cbv zeta in H. rewrite H.
  cbn [fst snd checker.Result_Path checker.Files Go.elems].
  destruct (check_shapes c) as [Hall Hnames].
  split; [reflexivity|]. split; [reflexivity|]. split; assumption.
Qed.

Lemma recommendation_priorities (names : list string) :
  Forall (fun r => In (checker.Priority r) ["high"; "medium"; "low"])
         (map recommendation_for names).
Proof.
  induction names as [|name rest IH]; simpl; constructor; [|exact IH].
  unfold recommendation_for.
  destruct (name =? "SECURITY-INSIGHTS.yml")%string; [simpl; tauto|].
  destruct (name =? "SECURITY.md")%string; [simpl; tauto|].
  destruct (name =? "LICENSE")%string; [simpl; tauto|].
  destruct (name =? "CODE_OF_CONDUCT.md")%string; simpl; tauto.
Qed.

(** X14.  [Check] recommends one action for each of the five files it does
    not find, with a priority that is high, medium or low and never
    critical, and lists as missing those among SECURITY-INSIGHTS.yml,
    SECURITY.md and LICENSE that it does not find, in this order. *)
Theorem Check_recommends_per_missing_file (c : checker.Checker) :
  let result := fst (checker.Check c) in
  let missing (f : checker.FileCheck) := negb (checker.Exists f) in
  Go.len (checker.Recommendations result)
  = List.length (filter missing (Go.elems (checker.Files result)))
  /\ Go.elems (checker.MissingFiles result)
     = map checker.Name
           (filter missing [checker.checkSecurityInsights c;
                            checker.checkSecurityPolicy c;
                            checker.checkLicense c])
  /\ Forall (fun r => In (checker.Priority r) ["high"; "medium"; "low"])
            (Go.elems (checker.Recommendations result)).
Proof.
  cbv zeta. pose proof (Check_result c) as H. cbv zeta in H. rewrite H.
  cbn [fst checker.Recommendations checker.MissingFiles checker.Files Go.elems].
  unfold Go.len. cbn [Go.elems].
  destruct (check_shapes c) as [_ Hnames]. cbn [map] in Hnames.
  injection Hnames as Hn1 Hn2 Hn3 _ _.
  split; [|split].
  - rewrite length_map. cbn [filter].
    destruct (checker.Exists (checker.checkSecurityInsights c)),
      (checker.Exists (checker.checkSecurityPolicy c)),
      (checker.Exists (checker.checkLicense c)),
      (checker.Exists (checker.checkCodeOfConduct c)),
      (checker.Exists (checker.checkContributing c)); reflexivity.
  - cbn [filter].
    destruct (checker.Exists (checker.checkSecurityInsights c)),
      (checker.Exists (checker.checkSecurityPolicy c)),
      (checker.Exists (checker.checkLicense c));
      cbn [negb map app]; rewrite ?Hn1, ?Hn2, ?Hn3; reflexivity.
  - apply recommendation_priorities.
Qed.

End CheckerProperties.

(* ===================================================================== *)
(** ** The generator *)
(* ===================================================================== *)

Lemma append_assoc (a b c : string) : (a ++ b) ++ c = a ++ b ++ c.
Proof. induction a as [|x a IH]; simpl; [reflexivity | now rewrite IH]. Qed.

Lemma append_nil_r (a : string) : a ++ "" = a.
Proof. induction a as [|x a IH]; simpl; [reflexivity | now rewrite IH]. Qed.

Lemma length_append (a b : string) :
  String.length (a ++ b) = String.length a + String.length b.
Proof. induction a as [|x a IH]; simpl; [reflexivity | now rewrite IH]. Qed.

Lemma take_append (a b : string) : strings.take (String.length a) (a ++ b) = a.
Proof. induction a as [|x a IH]; simpl; [now destruct b | now rewrite IH]. Qed.

Lemma drop_append (a b : string) : strings.drop (String.length a) (a ++ b) = b.
Proof. induction a as [|x a IH]; simpl; [reflexivity | exact IH]. Qed.

(** Dropping the last byte of a string that ends in a newline is in
    bounds. *)
Lemma slice_to_drops_newline (s : string) :
  slice_to (s ++ "
") (Z.of_nat (String.length (s ++ "
")) - 1) = Some s.
Proof.
  unfold slice_to. rewrite length_append. cbn [String.length].
  replace (Z.of_nat (String.length s + 1) - 1)%Z with (Z.of_nat (String.length s))
    by lia.
  assert (Hb : ((0 <=? Z.of_nat (String.length s))
                && (Z.of_nat (String.length s) <=? Z.of_nat (String.length s + 1)))%Z
               = true).
  { apply andb_true_iff. split; apply Z.leb_le; lia. }
  rewrite Hb, Nat2Z.id. now rewrite take_append.
Qed.

(** The loop that appends one line per item builds the items joined by
    newlines, with one more newline at the end. *)
Lemma range_lines_joins (lead : string) (items : list string) :
  forall result,
    items <> [] ->
    generator.range_lines lead items result
    = result ++ Go.Join (map (fun m => lead ++ m) items) "
" ++ "
".
Proof.
  induction items as [|m rest IH]; intros result Hne; [contradiction|].
  cbn [generator.range_lines]. destruct rest as [|m' rest'].
  - cbn. now rewrite !append_assoc.
  - rewrite IH by discriminate.
    change (Go.Join (map (fun m0 => lead ++ m0) (m :: m' :: rest')) "
") with ((lead ++ m) ++ "
" ++ Go.Join (map (fun m0 => lead ++ m0) (m' :: rest')) "
").
    now rewrite !append_assoc.
Qed.

Lemma range_maintainersV2_joins (email : string) (maintainers : list string) :
  forall i result,
    maintainers <> [] ->
    generator.range_maintainersV2 email i maintainers result
    = result ++ Go.Join (maintainer_entries email i maintainers) "
" ++ "
".
Proof.
  induction maintainers as [|m rest IH]; intros i result Hne; [contradiction|].
  cbn [generator.range_maintainersV2 maintainer_entries]. cbv zeta.
  destruct rest as [|m' rest'].
  - cbn [generator.range_maintainersV2 maintainer_entries Go.Join String.concat].
    unfold maintainer_entry. now rewrite !append_assoc.
  - rewrite IH by discriminate.
    change (Go.Join (maintainer_entry email i m
                     :: maintainer_entries email (S i) (m' :: rest')) "
") with (maintainer_entry email i m ++ "
" ++ Go.Join (maintainer_entries email (S i) (m' :: rest')) "
").
    unfold maintainer_entry. now rewrite !append_assoc.
Qed.

Lemma len_zero_iff {A : Type} (s : Go.slice A) :
  (Go.len s =? 0)%nat = true <-> Go.elems s = [].
Proof.
  unfold Go.len. destruct (Go.elems s); simpl; split; congruence.
Qed.

(** X15.  [formatMaintainersList] and [formatDistributionPoints] never
    panic: on an empty list they give their default line, and otherwise the
    items, one per line behind the list marker, joined by newlines, with no
    newline after the last one. *)
Theorem line_formatters_join_their_items (items : Go.slice string) :
  generator.formatMaintainersList items
  = Some (if (Go.len items =? 0)%nat
          then "    - github:maintainer"
          else Go.Join (map (fun m => "    - " ++ m) (Go.elems items)) "
")
  /\ generator.formatDistributionPoints items
     = Some (if (Go.len items =? 0)%nat
             then "  - https://github.com/example/repo/releases"
             else Go.Join (map (fun p => "  - " ++ p) (Go.elems items)) "
").
Proof.
  unfold generator.formatMaintainersList, generator.formatDistributionPoints.
  destruct (Go.len items =? 0)%nat eqn:Hlen; [split; reflexivity|].
  assert (Hne : Go.elems items <> []).
  { intros H. apply len_zero_iff in H. congruence. }
  cbv zeta. rewrite !range_lines_joins by exact Hne.
  cbn [String.append]. now rewrite !slice_to_drops_newline.
Qed.

Lemma formatMaintainersV2_value
        (maintainers : Go.slice string) (email : string) :
  generator.formatMaintainersV2 maintainers email
  = Some (if (Go.len maintainers =? 0)%nat
          then "    - name: Maintainer
      affiliation: Organization
      email: " ++ email ++ "
      social: https://github.com/maintainer
      primary: true"
          else Go.Join (maintainer_entries email 0 (Go.elems maintainers)) "
").
Proof.
  unfold generator.formatMaintainersV2.
  destruct (Go.len maintainers =? 0)%nat eqn:Hlen; [reflexivity|].
  assert (Hne : Go.elems maintainers <> []).
  { intros H. apply len_zero_iff in H. congruence. }
  cbv zeta. rewrite range_maintainersV2_joins by exact Hne.
  cbn [String.append]. now rewrite slice_to_drops_newline.
Qed.

(** X16.  [formatMaintainersV2] never panics.  On an empty list it gives
    the default entry with the given email; otherwise it gives one entry
    per maintainer, in order, joined by newlines with no newline after the
    last, where the entry at index 0 is the only one marked primary. *)
Theorem formatMaintainersV2_joins_the_entries
        (maintainers : Go.slice string) (email : string) :
  generator.formatMaintainersV2 maintainers email
  = Some (if (Go.len maintainers =? 0)%nat
          then "    - name: Maintainer
      affiliation: Organization
      email: " ++ email ++ "
      social: https://github.com/maintainer
      primary: true"
          else Go.Join (maintainer_entries email 0 (Go.elems maintainers)) "
").
Proof. apply formatMaintainersV2_value. Qed.

Lemma username_of_prefixed (user : string) :
  user <> "" -> generator.username_of ("github:" ++ user) = user.
Proof.
  intros Hne. unfold generator.username_of.
  destruct user as [|c user]; [contradiction|]. reflexivity.
Qed.

Lemma username_of_unprefixed (m : string) :
  Go.HasPrefix m "github:" = false -> generator.username_of m = m.
Proof.
  intros Hpre. unfold generator.username_of.
  destruct (strings.take 7 m =? "github:")%string eqn:Ht;
    [|now rewrite andb_false_r].
  destruct (7 <? String.length m)%nat eqn:Hlen; [|reflexivity].
  exfalso. apply String.eqb_eq in Ht.
  assert (Hp : Go.HasPrefix m "github:" = true).
  { unfold Go.HasPrefix. apply prefix_iff. exists (strings.drop 7 m).
    rewrite <- Ht at 1.
    clear Hpre Ht. apply Nat.ltb_lt in Hlen.
    do 7 (destruct m as [|? m]; [simpl in Hlen; lia|]). reflexivity. }
  congruence.
Qed.

(** X17.  The user name of a maintainer is what follows the prefix
    "github:" when something follows it, and the whole string otherwise: a
    string without the prefix, and the bare string "github:", are kept as
    they are. *)
Theorem username_strips_the_github_prefix :
  (forall user, user <> "" -> generator.username_of ("github:" ++ user) = user)
  /\ (forall m, Go.HasPrefix m "github:" = false -> generator.username_of m = m)
  /\ generator.username_of "github:" = "github:".
Proof.
  split; [exact username_of_prefixed | split; [exact username_of_unprefixed|]].
  reflexivity.
Qed.

Section GeneratorProperties.

Context {sys : System} {disk : Disk} {term : Terminal}.

(** X18.  Without [force], a run that finds both SECURITY-INSIGHTS.yml and
    SECURITY.md writes nothing: it returns nil, prints the two "already
    exists" lines, and leaves the machine as [os.MkdirAll] left it,
    whatever the configuration. *)
Theorem GenerateWithConfig_keeps_existing_files
        (g : generator.Generator) (config : generator.Config) (w w1 : World) :
  generator.force g = false ->
  MkdirAll (Join [generator.repoPath g; ".github"]) w = (None, w1) ->
  StatAt (Join [generator.repoPath g; "SECURITY-INSIGHTS.yml"]) w1 = StatFound ->
  StatAt (Join [generator.repoPath g; "SECURITY.md"]) w1 = StatFound ->
  generator.GenerateWithConfig g config w
  = ([yellow "⚠" ++ " SECURITY-INSIGHTS.yml already exists (use --force to overwrite)
";
      yellow "⚠" ++ " SECURITY.md already exists (use --force to overwrite)
"],
     Return None, w1).
Proof.
  intros Hforce Hmk Hsi Hmd. unfold generator.GenerateWithConfig.
  rewrite Hmk, Hsi, Hforce. cbn. now rewrite Hmd.
Qed.

Lemma GenerateWithConfig_mkdir_fails
        (g : generator.Generator) (config : generator.Config) (w w1 : World)
        (e : Go.error) :
  MkdirAll (Join [generator.repoPath g; ".github"]) w = (Some e, w1) ->
  generator.GenerateWithConfig g config w
  = ([], Return (Some ("failed to create .github directory: " ++ e)), w1).
Proof.
  intros Hmk. unfold generator.GenerateWithConfig. now rewrite Hmk.
Qed.

Lemma GenerateWithConfig_insights_fails
        (g : generator.Generator) (config : generator.Config)
        (w w1 wa wb w2 : World) (lastUpdated lastReviewed section : string)
        (e : Go.error) :
  MkdirAll (Join [generator.repoPath g; ".github"]) w = (None, w1) ->
  stat_ok (StatAt (Join [generator.repoPath g; "SECURITY-INSIGHTS.yml"]) w1)
  && negb (generator.force g) = false ->
  Today w1 = (lastUpdated, wa) ->
  Today wa = (lastReviewed, wb) ->
  generator.formatMaintainersV2 (generator.Maintainers config)
    (generator.SecurityEmail config) = Some section ->
  WriteFile (Join [generator.repoPath g; "SECURITY-INSIGHTS.yml"])
    (list_byte_of_string
       (generator.SecurityInsights_content lastUpdated lastReviewed section config))
    wb = (Some e, w2) ->
  generator.GenerateWithConfig g config w
  = ([], Return (Some ("failed to generate SECURITY-INSIGHTS.yml: " ++ e)), w2).
Proof.
  intros Hmk Hstat Hd1 Hd2 Hfmt Hwr.
  unfold generator.GenerateWithConfig, generator.generateSecurityInsights.
  now rewrite Hmk, Hstat, Hd1, Hd2, Hfmt, Hwr.
Qed.

Lemma GenerateWithConfig_policy_fails
        (g : generator.Generator) (config : generator.Config)
        (w w1 w2 w3 : World) (line : string) (e : Go.error) :
  MkdirAll (Join [generator.repoPath g; ".github"]) w = (None, w1) ->
  insights_step_succeeds g config w1 line w2 ->
  stat_ok (StatAt (Join [generator.repoPath g; "SECURITY.md"]) w2)
  && negb (generator.force g) = false ->
  WriteFile (Join [generator.repoPath g; "SECURITY.md"])
    (list_byte_of_string (generator.SecurityMd_content config)) w2 = (Some e, w3) ->
  generator.GenerateWithConfig g config w
  = ([line], Return (Some ("failed to generate SECURITY.md: " ++ e)), w3).
Proof.
  intros Hmk Hsi Hstat Hwr.
  unfold generator.GenerateWithConfig, generator.generateSecurityInsights,
    generator.generateSecurityMd.
  rewrite Hmk.
  destruct Hsi as [(Hkept & -> & ->)
                  |(Hnew & -> & d1 & wa & d2 & wb & section & Hd1 & Hd2 & Hfmt & Hsiw)].
  - rewrite Hkept. cbv zeta. now rewrite Hstat, Hwr.
  - rewrite Hnew, Hd1, Hd2, Hfmt, Hsiw. cbv zeta. now rewrite Hstat, Hwr.
Qed.

Lemma GenerateWithConfig_outcome
        (g : generator.Generator) (config : generator.Config) (w : World) :
  let githubDir := Join [generator.repoPath g; ".github"] in
  let siPath := Join [generator.repoPath g; "SECURITY-INSIGHTS.yml"] in
  let securityMdPath := Join [generator.repoPath g; "SECURITY.md"] in
  match generator.GenerateWithConfig g config w with
  | (_, Return None, _) => True
  | (out, Return (Some err), w') =>
      (exists e,
          MkdirAll githubDir w = (Some e, w')
          /\ out = []
          /\ err = "failed to create .github directory: " ++ e)
      \/ (exists e w1 lastUpdated wa lastReviewed wb section,
             MkdirAll githubDir w = (None, w1)
             /\ stat_ok (StatAt siPath w1) && negb (generator.force g) = false
             /\ Today w1 = (lastUpdated, wa)
             /\ Today wa = (lastReviewed, wb)
             /\ generator.formatMaintainersV2 (generator.Maintainers config)
                   (generator.SecurityEmail config) = Some section
             /\ WriteFile siPath
                   (list_byte_of_string
                      (generator.SecurityInsights_content lastUpdated lastReviewed
                         section config)) wb
                = (Some e, w')
             /\ out = []
             /\ err = "failed to generate SECURITY-INSIGHTS.yml: " ++ e)
      \/ (exists e w1 line w2,
             MkdirAll githubDir w = (None, w1)
             /\ insights_step_succeeds g config w1 line w2
             /\ stat_ok (StatAt securityMdPath w2) && negb (generator.force g) = false
             /\ WriteFile securityMdPath
                   (list_byte_of_string (generator.SecurityMd_content config)) w2
                = (Some e, w')
             /\ out = [line]
             /\ err = "failed to generate SECURITY.md: " ++ e)
  | _ => False
  end.
Proof.
  cbv zeta.
  unfold generator.GenerateWithConfig, generator.generateSecurityInsights,
    generator.generateSecurityMd.
  pose proof (formatMaintainersV2_value (generator.Maintainers config)
                (generator.SecurityEmail config)) as Hfmt.
  destruct (generator.formatMaintainersV2 _ _) as [section|] eqn:Hsec;
    [|discriminate].
  clear Hfmt.
  destruct (MkdirAll _ w) as [[e|] w1] eqn:Hmk.
  { left. exists e. repeat split. }
  cbv zeta.
  destruct (stat_ok (StatAt (Join [_; "SECURITY-INSIGHTS.yml"]) _) && negb _) eqn:Hsi.
  - destruct (stat_ok (StatAt (Join [_; "SECURITY.md"]) _) && negb _) eqn:Hmd; [exact I|].
    destruct (WriteFile _ _ w1) as [[e|] w2] eqn:Hwr; [|exact I].
    right. right. exists e, w1.
    eexists. exists w1. split; [reflexivity|]. split.
    { left. split; [exact Hsi|]. split; reflexivity. }
    split; [exact Hmd|]. split; [exact Hwr|]. split; reflexivity.
  - destruct (Today w1) as [d1 wa] eqn:Hd1. destruct (Today wa) as [d2 wb] eqn:Hd2.
    destruct (WriteFile _ _ wb) as [[e|] w2] eqn:Hsiw.
    + right. left. exists e, w1, d1, wa, d2, wb, section.
      repeat split; assumption || reflexivity.
    + destruct (stat_ok (StatAt (Join [_; "SECURITY.md"]) _) && negb _) eqn:Hmd; [exact I|].
      destruct (WriteFile _ _ w2) as [[e|] w3] eqn:Hwr; [|exact I].
      right. right. exists e, w1.
      eexists. exists w2. split; [reflexivity|]. split.
      { right. split; [exact Hsi|]. split; [reflexivity|].
        exists d1, wa, d2, wb, section. repeat split; assumption || reflexivity. }
      split; [exact Hmd|]. split; [exact Hwr|]. split; reflexivity.
Qed.

(** X19.  [GenerateWithConfig] never panics and never stops the process:
    it returns, with nil or with an error.  An error it returns is the
    error of the step that failed under the message of that step, and the
    run ends at that step.  If [os.MkdirAll] fails with [e], the error is
    "failed to create .github directory: e" and nothing is printed.  If the
    write of SECURITY-INSIGHTS.yml fails with [e], the error is "failed to
    generate SECURITY-INSIGHTS.yml: e", nothing is printed and SECURITY.md
    is not touched.  If the write of SECURITY.md fails with [e], the error
    is "failed to generate SECURITY.md: e" and the one line printed is that
    of SECURITY-INSIGHTS.yml.  No other error is returned. *)
Theorem GenerateWithConfig_returns
        (g : generator.Generator) (config : generator.Config) (w : World) :
  let githubDir := Join [generator.repoPath g; ".github"] in
  let siPath := Join [generator.repoPath g; "SECURITY-INSIGHTS.yml"] in
  let securityMdPath := Join [generator.repoPath g; "SECURITY.md"] in
  (forall e w1,
      MkdirAll githubDir w = (Some e, w1) ->
      generator.GenerateWithConfig g config w
      = ([], Return (Some ("failed to create .github directory: " ++ e)), w1))
  /\ (forall w1 lastUpdated wa lastReviewed wb section e w2,
         MkdirAll githubDir w = (None, w1) ->
         stat_ok (StatAt siPath w1) && negb (generator.force g) = false ->
         Today w1 = (lastUpdated, wa) ->
         Today wa = (lastReviewed, wb) ->
         generator.formatMaintainersV2 (generator.Maintainers config)
           (generator.SecurityEmail config) = Some section ->
         WriteFile siPath
           (list_byte_of_string
              (generator.SecurityInsights_content lastUpdated lastReviewed
                 section config)) wb
         = (Some e, w2) ->
         generator.GenerateWithConfig g config w
         = ([], Return (Some ("failed to generate SECURITY-INSIGHTS.yml: " ++ e)), w2))
  /\ (forall w1 line w2 e w3,
         MkdirAll githubDir w = (None, w1) ->
         insights_step_succeeds g config w1 line w2 ->
         stat_ok (StatAt securityMdPath w2) && negb (generator.force g) = false ->
         WriteFile securityMdPath
           (list_byte_of_string (generator.SecurityMd_content config)) w2
         = (Some e, w3) ->
         generator.GenerateWithConfig g config w
         = ([line], Return (Some ("failed to generate SECURITY.md: " ++ e)), w3))
  /\ match generator.GenerateWithConfig g config w with
     | (_, Return None, _) => True
     | (out, Return (Some err), w') =>
         (exists e,
             MkdirAll githubDir w = (Some e, w')
             /\ out = []
             /\ err = "failed to create .github directory: " ++ e)
         \/ (exists e w1 lastUpdated wa lastReviewed wb section,
                MkdirAll githubDir w = (None, w1)
                /\ stat_ok (StatAt siPath w1) && negb (generator.force g) = false
                /\ Today w1 = (lastUpdated, wa)
                /\ Today wa = (lastReviewed, wb)
                /\ generator.formatMaintainersV2 (generator.Maintainers config)
                      (generator.SecurityEmail config) = Some section
                /\ WriteFile siPath
                      (list_byte_of_string
                         (generator.SecurityInsights_content lastUpdated
                            lastReviewed section config)) wb
                   = (Some e, w')
                /\ out = []
                /\ err = "failed to generate SECURITY-INSIGHTS.yml: " ++ e)
         \/ (exists e w1 line w2,
                MkdirAll githubDir w = (None, w1)
                /\ insights_step_succeeds g config w1 line w2
                /\ stat_ok (StatAt securityMdPath w2) && negb (generator.force g)
                   = false
                /\ WriteFile securityMdPath
                      (list_byte_of_string (generator.SecurityMd_content config)) w2
                   = (Some e, w')
                /\ out = [line]
                /\ err = "failed to generate SECURITY.md: " ++ e)
     | _ => False
     end.
Proof.
  cbv zeta. split; [|split; [|split]].
  - intros e w1. apply GenerateWithConfig_mkdir_fails.
  - intros w1 lastUpdated wa lastReviewed wb section e w2.
    apply GenerateWithConfig_insights_fails.
  - intros w1 line w2 e w3. apply GenerateWithConfig_policy_fails.
  - apply GenerateWithConfig_outcome.
Qed.

End GeneratorProperties.

(* ===================================================================== *)
(** ** The reporter *)
(* ===================================================================== *)

Lemma select_priority_filters (priority : string)
      (recommendations : list checker.Recommendation) :
  forall recs,
    Go.elems (report.select_priority priority recommendations recs)
    = (Go.elems recs
       ++ filter (fun r => (checker.Priority r =? priority)%string) recommendations)%list.
Proof.
  induction recommendations as [|rec rest IH]; intros recs; simpl.
  - now rewrite app_nil_r.
  - rewrite IH. destruct (checker.Priority rec =? priority)%string.
    + unfold Go.append. cbn [Go.elems]. now rewrite <- app_assoc.
    + reflexivity.
Qed.

Section ReportProperties.

Context {sys : System} {term : Terminal} {enc : Encoders}.

Lemma range_priorities_prints (ps : list string)
      (recommendations : list checker.Recommendation) (rec : checker.Recommendation) :
  In rec recommendations ->
  In (checker.Priority rec) ps ->
  forall line,
    In line (report.print_recommendation (checker.Priority rec) rec) ->
    In line (report.range_priorities ps recommendations).
Proof.
  intros Hrec Hp line Hline. induction ps as [|p rest IH]; [contradiction|].
  cbn [report.range_priorities]. cbv zeta. apply in_or_app.
  destruct (String.eqb_spec (checker.Priority rec) p) as [Heq|Hne].
  - left. subst p.
    assert (Hin : In rec (Go.elems (report.select_priority (checker.Priority rec)
                                      recommendations Go.nil_slice))).
    { rewrite select_priority_filters. cbn [Go.elems app].
      apply filter_In. split; [exact Hrec | apply String.eqb_refl]. }
    unfold Go.len.
    destruct (Go.elems (report.select_priority (checker.Priority rec)
                          recommendations Go.nil_slice)) as [|r0 rs] eqn:Hsel;
      [contradiction|].
    cbn [List.length Nat.eqb]. apply in_flat_map. now exists rec.
  - right. apply IH. destruct Hp as [Heq|Hin]; [congruence | exact Hin].
Qed.

Lemma range_priorities_ignores (ps : list string)
      (before after : list checker.Recommendation) (rec : checker.Recommendation) :
  ~ In (checker.Priority rec) ps ->
  report.range_priorities ps (before ++ rec :: after)
  = report.range_priorities ps (before ++ after).
Proof.
  intros Hp. induction ps as [|p rest IH]; [reflexivity|].
  cbn [report.range_priorities]. cbv zeta.
  rewrite IH by (intros H; apply Hp; now right).
  assert (Hsel : Go.elems (report.select_priority p (before ++ rec :: after) Go.nil_slice)
                 = Go.elems (report.select_priority p (before ++ after) Go.nil_slice)).
  { rewrite !select_priority_filters, !filter_app. cbn [filter].
    destruct (String.eqb_spec (checker.Priority rec) p) as [Heq|Hne]; [|reflexivity].
    exfalso. apply Hp. now left. }
  unfold Go.len. now rewrite Hsel.
Qed.

(** X20.  The text report prints every recommendation that [Check] makes:
    its three lines, under the colour of its priority, are part of the
    output, since the priorities [Check] uses are among those the reporter
    groups by. *)
Theorem outputText_prints_the_recommendations_of_Check
        (r : report.Reporter) (c : checker.Checker) (rec : checker.Recommendation)
        (line : string) :
  In rec (Go.elems (checker.Recommendations (fst (checker.Check c)))) ->
  In line (report.print_recommendation (checker.Priority rec) rec) ->
  In line (fst (report.outputText r (fst (checker.Check c)))).
Proof.
  intros Hrec Hline.
  assert (Hp : In (checker.Priority rec) report.priorities).
  { pose proof (Check_result c) as H. cbv zeta in H. rewrite H in Hrec.
    cbn [fst checker.Recommendations Go.elems] in Hrec.
    pose proof (recommendation_priorities
                  ((if checker.Exists (checker.checkSecurityInsights c)
                    then [] else ["SECURITY-INSIGHTS.yml"])
                   ++ (if checker.Exists (checker.checkSecurityPolicy c)
                       then [] else ["SECURITY.md"])
                   ++ (if checker.Exists (checker.checkLicense c)
                       then [] else ["LICENSE"])
                   ++ (if checker.Exists (checker.checkCodeOfConduct c)
                       then [] else ["CODE_OF_CONDUCT.md"])
                   ++ (if checker.Exists (checker.checkContributing c)
                       then [] else ["CONTRIBUTING.md"]))%list) as Hall.
    rewrite Forall_forall in Hall. specialize (Hall rec Hrec).
    unfold report.priorities. simpl in Hall |- *. tauto. }
  unfold report.outputText. cbv zeta. cbn [fst].
  rewrite !in_app_iff. do 4 right. left.
  unfold Go.len.
  destruct (Go.elems (checker.Recommendations (fst (checker.Check c))))
    as [|r0 rs] eqn:Hrecs; [contradiction|].
  cbn [List.length Nat.ltb Nat.leb]. right. apply in_or_app. left.
  now apply (range_priorities_prints report.priorities (r0 :: rs) rec).
Qed.

(** X21.  The text report leaves out, without a word, a recommendation
    whose priority is none of critical, high, medium and low: as long as
    another recommendation remains, the output is the same with and
    without it. *)
Theorem outputText_omits_unknown_priorities
        (r : report.Reporter) (result result' : checker.CheckResult)
        (before after : list checker.Recommendation) (rec : checker.Recommendation) :
  ~ In (checker.Priority rec) ["critical"; "high"; "medium"; "low"] ->
  Go.elems (checker.Recommendations result) = (before ++ rec :: after)%list ->
  Go.elems (checker.Recommendations result') = (before ++ after)%list ->
  (before ++ after)%list <> [] ->
  checker.Result_Path result' = checker.Result_Path result ->
  checker.IsCompliant result' = checker.IsCompliant result ->
  checker.Files result' = checker.Files result ->
  checker.MissingFiles result' = checker.MissingFiles result ->
  report.outputText r result' = report.outputText r result.
Proof.
  intros Hp Hrecs Hrecs' Hne Hpath Hcomp Hfiles Hmissing.
  unfold report.outputText. cbv zeta.
  rewrite Hpath, Hcomp, Hfiles, Hmissing. unfold Go.len.
  rewrite Hrecs, Hrecs'.
  rewrite (range_priorities_ignores report.priorities before after rec Hp).
  destruct (before ++ after)%list as [|x xs] eqn:Hba; [contradiction|].
  assert (Hlen : (0 <? List.length (before ++ rec :: after))%nat = true).
  { apply Nat.ltb_lt. rewrite length_app. simpl. lia. }
  rewrite Hlen. reflexivity.
Qed.

End ReportProperties.

(* ===================================================================== *)
(** ** The interactive setup *)
(* ===================================================================== *)

Lemma Replace1_unfold (s old new : string) :
  strings.Replace1 s old new =
  if String.prefix old s then new ++ strings.drop (String.length old) s
  else match s with
       | EmptyString => EmptyString
       | String c rest => String c (strings.Replace1 rest old new)
       end.
Proof. destruct s; reflexivity. Qed.

(** Replacing the first occurrence of a prefix replaces the prefix. *)
Lemma Replace1_prefix (old new rest : string) :
  strings.Replace1 (old ++ rest) old new = new ++ rest.
Proof.
  rewrite Replace1_unfold.
  assert (Hp : String.prefix old (old ++ rest) = true)
    by (apply prefix_iff; now exists rest).
  now rewrite Hp, drop_append.
Qed.

Lemma drop_append_plus (p r : string) (k : nat) :
  strings.drop (String.length p + k) (p ++ r) = strings.drop k r.
Proof. induction p as [|c p IH]; simpl; [reflexivity | exact IH]. Qed.

Lemma take_append_plus (p r : string) (k : nat) :
  strings.take (String.length p + k) (p ++ r) = p ++ strings.take k r.
Proof. induction p as [|c p IH]; simpl; [reflexivity | now rewrite IH]. Qed.

(** A suffix that is trimmed off is removed whole. *)
Lemma TrimSuffix_append (a suffix : string) :
  strings.TrimSuffix (a ++ suffix) suffix = a.
Proof.
  unfold strings.TrimSuffix, strings.HasSuffix. rewrite length_append.
  replace (String.length a + String.length suffix - String.length suffix)
    with (String.length a) by lia.
  assert (Hle : (String.length suffix <=? String.length a + String.length suffix)%nat
                = true) by (apply Nat.leb_le; lia).
  now rewrite Hle, drop_append, String.eqb_refl, take_append.
Qed.

(** Trimming ".git" off an HTTPS GitHub address trims it off the part after
    the host: the host itself is never cut into. *)
Lemma TrimSuffix_after_host (rest : string) :
  strings.TrimSuffix ("https://github.com/" ++ rest) ".git"
  = "https://github.com/" ++ strings.TrimSuffix rest ".git".
Proof.
  destruct (Nat.le_gt_cases 4 (String.length rest)) as [Hlong|Hshort].
  - unfold strings.TrimSuffix, strings.HasSuffix. rewrite length_append.
    change (String.length ".git") with 4.
    replace (String.length "https://github.com/" + String.length rest - 4)
      with (String.length "https://github.com/" + (String.length rest - 4)) by lia.
    rewrite drop_append_plus, take_append_plus.
    assert (H1 : (4 <=? String.length "https://github.com/" + String.length rest)%nat
                 = true) by (apply Nat.leb_le; lia).
    assert (H2 : (4 <=? String.length rest)%nat = true) by (now apply Nat.leb_le).
    rewrite H1, H2. cbn [andb].
    now destruct (strings.drop (String.length rest - 4) rest =? ".git")%string.
  - destruct rest as [|a [|b [|c [|d rest]]]];
      [reflexivity | reflexivity | reflexivity | reflexivity |].
    simpl in Hshort. lia.
Qed.

Lemma range_maintainers_Forall {con : Console} (P : string -> Prop)
      (maintainers : list string) :
  (forall m, m <> "" ->
             P (if negb (Go.HasPrefix m "github:") then "github:" ++ m else m)) ->
  forall acc,
    Forall P (Go.elems acc) ->
    Forall P (Go.elems (interactive.range_maintainers maintainers acc)).
Proof.
  intros HP. induction maintainers as [|m rest IH]; intros acc Hacc.
  - exact Hacc.
  - cbn [interactive.range_maintainers]. cbv zeta.
    destruct (String.eqb_spec (TrimSpace m) "") as [He|Hne]; cbn [negb].
    + apply IH. exact Hacc.
    + apply IH. unfold Go.append. cbn [Go.elems]. apply Forall_app. split;
        [exact Hacc | constructor; [now apply HP | constructor]].
Qed.

Lemma range_maintainers_not_nil {con : Console} (maintainers : list string) :
  forall acc,
    Go.is_nil acc = false ->
    Go.is_nil (interactive.range_maintainers maintainers acc) = false.
Proof.
  induction maintainers as [|m rest IH]; intros acc Hacc; [exact Hacc|].
  cbn [interactive.range_maintainers]. cbv zeta.
  destruct (negb (TrimSpace m =? "")%string); apply IH; [reflexivity | exact Hacc].
Qed.

Lemma range_distPoints_Forall {con : Console} (distPoints : list string) :
  forall acc,
    Forall (fun d => d <> "") (Go.elems acc) ->
    Forall (fun d => d <> "") (Go.elems (interactive.range_distPoints distPoints acc)).
Proof.
  induction distPoints as [|d rest IH]; intros acc Hacc; [exact Hacc|].
  cbn [interactive.range_distPoints]. cbv zeta.
  destruct (String.eqb_spec (TrimSpace d) "") as [He|Hne]; cbn [negb].
  - apply IH. exact Hacc.
  - apply IH. unfold Go.append. cbn [Go.elems]. apply Forall_app. split;
      [exact Hacc | constructor; [exact Hne | constructor]].
Qed.

(** What [GatherConfiguration] makes of a name the user typed: it has the
    prefix "github:" and yields a user name that is not empty. *)
Lemma normalized_maintainer (m : string) :
  m <> "" ->
  let m' := if negb (Go.HasPrefix m "github:") then "github:" ++ m else m in
  Go.HasPrefix m' "github:" = true /\ generator.username_of m' <> "".
Proof.
  intros Hne. cbv zeta. destruct (Go.HasPrefix m "github:") eqn:Hpre; cbn [negb].
  - split; [exact Hpre|]. unfold Go.HasPrefix in Hpre.
    apply prefix_iff in Hpre. destruct Hpre as [user ->].
    destruct user as [|c user]; [discriminate|].
    now rewrite username_of_prefixed.
  - split; [apply prefix_iff; now exists m|].
    now rewrite username_of_prefixed.
Qed.

Section SetupProperties.

Context {sys : System} {con : Console}.

(** X22.  [detectGitRemote] turns an SSH address of GitHub into the HTTPS
    address of the same repository, without its ".git" ending, and leaves
    any other address as git printed it, blanks trimmed, a ".git" ending
    included. *)
Theorem detectGitRemote_rewrites_ssh_addresses
        (repo : string) (s s' : Session) (output : list byte) :
  git_remote_url repo s = (inr output, s') ->
  let url := TrimSpace (string_of_list_byte output) in
  (forall path,
      url = "git@github.com:" ++ path ++ ".git" ->
      interactive.detectGitRemote repo s = (("https://github.com/" ++ path, None), s'))
  /\ (forall path,
         url = "git@github.com:" ++ path ->
         strings.HasSuffix path ".git" = false ->
         interactive.detectGitRemote repo s
         = (("https://github.com/" ++ path, None), s'))
  /\ (Go.HasPrefix url "git@github.com:" = false ->
      interactive.detectGitRemote repo s = ((url, None), s')).
Proof.
  intros Hgit. cbv zeta. unfold interactive.detectGitRemote. rewrite Hgit.
  cbv zeta.
  assert (Hssh : forall rest,
             TrimSpace (string_of_list_byte output) = "git@github.com:" ++ rest ->
             (if Go.HasPrefix (TrimSpace (string_of_list_byte output)) "git@github.com:"
              then strings.TrimSuffix
                     (strings.Replace1 (TrimSpace (string_of_list_byte output))
                                       "git@github.com:" "https://github.com/") ".git"
              else TrimSpace (string_of_list_byte output))
             = "https://github.com/" ++ strings.TrimSuffix rest ".git").
  { intros rest ->.
    assert (Hp : Go.HasPrefix ("git@github.com:" ++ rest) "git@github.com:" = true)
      by (apply prefix_iff; now exists rest).
    now rewrite Hp, Replace1_prefix, TrimSuffix_after_host. }
  split; [|split].
  - intros path Hurl. rewrite (Hssh _ Hurl). now rewrite TrimSuffix_append.
  - intros path Hurl Hsuf. rewrite (Hssh _ Hurl).
    unfold strings.TrimSuffix. now rewrite Hsuf.
  - intros Hpre. now rewrite Hpre.
Qed.

Lemma and_then_inr {A B : Type} (step : interactive.Step A)
      (k : A -> interactive.Step B) (s s' : Session) (v : B) :
  interactive.and_then step k s = (inr v, s') ->
  exists a s1, step s = (inr a, s1) /\ k a s1 = (inr v, s').
Proof.
  unfold interactive.and_then. destruct (step s) as [[e|a] s1]; [discriminate|].
  intros H. now exists a, s1.
Qed.









(** X23.  In a configuration that [GatherConfiguration] returns, the list
    of maintainers is not nil, every maintainer starts with "github:" and
    gives [formatMaintainersV2] a user name that is not empty, and no
    distribution point is empty: blank entries between the commas are
    dropped. *)
Theorem GatherConfiguration_normalizes_the_lists
        (repo : string) (s s' : Session) (out : list string)
        (config : generator.Config) :
  interactive.GatherConfiguration repo s = (out, inr config, s') ->
  Go.is_nil (generator.Maintainers config) = false
  /\ Forall (fun m => Go.HasPrefix m "github:" = true
                      /\ generator.username_of m <> "")
            (Go.elems (generator.Maintainers config))
  /\ Forall (fun d => d <> "") (Go.elems (generator.DistributionPoints config)).
Proof.
  unfold interactive.GatherConfiguration. cbv zeta.
  destruct (interactive.gather repo s) as [[e|c] s1] eqn:Hg; [discriminate|].
  intros H. injection H as _ <- _.
  unfold interactive.gather in Hg.
  destruct (interactive.detectGitRemote repo s) as [[projectURL err] s0].
  repeat (apply and_then_inr in Hg; destruct Hg as (? & ? & _ & Hg)).
  unfold interactive.done in Hg. injection Hg as <- _.
  cbn [generator.Maintainers generator.DistributionPoints].
  split; [|split].
  - now apply range_maintainers_not_nil.
  - apply range_maintainers_Forall; [|constructor].
    intros m Hne. now apply normalized_maintainer.
  - destruct (negb (_ =? "")%string); [|constructor].
    apply range_distPoints_Forall. constructor.
Qed.





End SetupProperties.

(* ===================================================================== *)
(** ** The commands from end to end *)
(* ===================================================================== *)

Section EndToEnd.

Context {ext : Externals} {sys : System}.

(** X25.  From the command line to the verdict: for a file that exists and
    can be read, whose ASCII path names security-insights in some case, that
    the router sends to the V1 validator and that decodes as a V1 document
    with its four required fields set, [runValidate] prints the one line
    that says the file is valid and returns nil, whatever warnings the
    document earns. *)
Theorem runValidate_accepts_a_complete_V1_file
        (now : Go.Time) (path : string) (rest : list string) (data : list byte)
        (header : HeaderProbe any) (si : V1.SecurityInsightsV1) :
  stat_IsNotExist (Stat path) = false ->
  ReadFile path = inr data ->
  strings.isASCII path = true ->
  names_security_insights path ->
  Unmarshal_header data = inr header ->
  Go.HasPrefix (Sprint_v (Header_SchemaVersion header)) "2." = false ->
  Unmarshal_V1 data = inr si ->
  V1.Header_SchemaVersion si <> "" ->
  V1.Header_ProjectURL si <> "" ->
  V1.Header_ExpirationDate si <> "" ->
  V1.ProjectLifecycle_Status si <> "" ->
  runValidate now (path :: rest) = (["✓ " ++ path ++ " is valid
"], Return None).
Proof.
  intros Hstat Hread Hascii Hname Hhdr Hver Hdec Hsv Hurl Hexp Hst.
  unfold runValidate. rewrite Hstat, (ValidateFile_read now _ _ Hread).
  rewrite (proj2 (name_test_iff path Hascii) Hname).
  assert (Hrun : validateSecurityInsights now data
                 = (collected (errorsV1 si) (warningsV1 now si), None)).
  { unfold validateSecurityInsights. rewrite Hhdr. cbv zeta. rewrite Hver.
    now apply validateSecurityInsightsV1_decoded. }
  rewrite Hrun. cbn [fst collected IsValid].
  unfold errorsV1, early_errorsV1, late_errorsV1.
  now rewrite !required_present.
Qed.

End EndToEnd.

Section SetupCommandProperties.

Context {sys : System} {disk : Disk} {term : Terminal} {con : Console}.

(** X26.  In auto mode [runSetup] asks nothing: the terminal session and
    the flags are after the call what they were before it, whether the
    call succeeds or fails. *)
Theorem runSetup_auto_asks_nothing
        (flags : SetupFlags) (args : list string) (w : World) (s : Session) :
  setupAuto flags = true ->
  setupInteractive flags = false ->
  let '(_, _, flags', _, s') := runSetup flags args w s in
  s' = s /\ flags' = flags.
Proof.
  intros Hauto Hinter. unfold runSetup. cbv zeta.
  destruct (stat_IsNotExist _); [split; reflexivity|].
  rewrite Hauto, Hinter. cbn [negb andb].
  rewrite Hinter.
  destruct (generator.GenerateDefaults _ w) as [[out2 res] w1].
  destruct res as [[err|]| |]; split; reflexivity.
Qed.

(** X27.  [runSetup] leaves the disk as it is when it cannot start: when
    the path is reported missing, in which case it asks and prints nothing,
    and when, in a run without [--auto], a prompt fails, in which case it
    returns the prompt's error as a failure to gather the configuration. *)
Theorem runSetup_writes_nothing_unless_configured
        (flags : SetupFlags) (args : list string) (w : World) (s : Session) :
  let repoPath := match args with [] => setupPath flags | arg :: _ => arg end in
  (stat_IsNotExist (StatAt repoPath w) = true ->
   runSetup flags args w s
   = ([], Return (Some ("path does not exist: " ++ repoPath)), flags, w, s))
  /\ (stat_IsNotExist (StatAt repoPath w) = false ->
      setupAuto flags = false ->
      forall out err s1,
        interactive.GatherConfiguration repoPath s = (out, inl err, s1) ->
        let '(out', res, flags', w', s') := runSetup flags args w s in
        out' = out
        /\ res = Return (Some ("failed to gather configuration: " ++ err))
        /\ setupInteractive flags' = true
        /\ w' = w /\ s' = s1).
Proof.
  cbv zeta. unfold runSetup. cbv zeta. split.
  - intros ->. reflexivity.
  - intros -> Hauto out err s1 Hg. rewrite Hauto. cbn [negb andb].
    destruct (setupInteractive flags) eqn:Hi; cbn [negb setupInteractive];
      rewrite ?Hi, Hg; repeat split; auto.
Qed.

End SetupCommandProperties.

(* ===================================================================== *)
(** ** The further theorems on the sample machine *)
(* ===================================================================== *)

(** X1 on the minimal V1 document: it is valid. *)
Lemma V1_valid_iff_required_fields_present_witness :
  IsValid (fst (validateSecurityInsightsV1 Fixtures.new_year_2026
                  (Fixtures.bytes Fixtures.valid_minimal_file))) = true.
Proof.
  apply (V1_valid_iff_required_fields_present (ext := Fixtures.sample)
           Fixtures.new_year_2026 (Fixtures.bytes Fixtures.valid_minimal_file)
           (Fixtures.as_V1 Fixtures.valid_minimal_file)).
  - vm_compute. reflexivity.
  - repeat split; vm_compute; discriminate.
Defined.

(** X2 on the complete V2 document: it is valid. *)
Lemma V2_valid_iff_version_and_required_fields_witness :
  IsValid (fst (validateSecurityInsightsV2
                  (Fixtures.bytes Fixtures.v2_complete))) = true.
Proof.
  apply (V2_valid_iff_version_and_required_fields (ext := Fixtures.sample)
           (Fixtures.bytes Fixtures.v2_complete)
           (Fixtures.as_V2 Fixtures.v2_complete)).
  - vm_compute. reflexivity.
  - split; [vm_compute; reflexivity|]. repeat split; vm_compute; discriminate.
Defined.

Lemma active_is_usual : In "active" validStatuses.
Proof. simpl. tauto. Qed.

(** X4 on the minimal V1 document, before its expiration date: no error and
    no warning. *)
Lemma V1_clean_result_iff_witness :
  fst (validateSecurityInsightsV1 Fixtures.new_year_2026
         (Fixtures.bytes Fixtures.valid_minimal_file)) = new_result.
Proof.
  apply (V1_clean_result_iff (ext := Fixtures.sample)
           Fixtures.new_year_2026 (Fixtures.bytes Fixtures.valid_minimal_file)
           (Fixtures.as_V1 Fixtures.valid_minimal_file)).
  - vm_compute. reflexivity.
  - split; [vm_compute; discriminate|]. split; [vm_compute; discriminate|].
    split.
    { exists 1798761599000000000%Z. split; [vm_compute; reflexivity|].
      unfold Fixtures.new_year_2026. lia. }
    split; [vm_compute; discriminate|]. split; [vm_compute; discriminate|].
    split; [vm_compute; discriminate|]. split; [exact active_is_usual|].
    split; [vm_compute; discriminate|].
    repeat constructor; vm_compute; discriminate.
Defined.

(** X5 on the complete V2 document: no error and no warning. *)
Lemma V2_clean_result_iff_witness :
  fst (validateSecurityInsightsV2 (Fixtures.bytes Fixtures.v2_complete)) = new_result.
Proof.
  apply (V2_clean_result_iff (ext := Fixtures.sample)
           (Fixtures.bytes Fixtures.v2_complete)
           (Fixtures.as_V2 Fixtures.v2_complete)).
  - vm_compute. reflexivity.
  - split; [vm_compute; reflexivity|].
    split; [vm_compute; discriminate|]. split; [vm_compute; discriminate|].
    split; [vm_compute; discriminate|]. split; [vm_compute; discriminate|].
    split; [vm_compute; discriminate|]. split; [exact active_is_usual|].
    split; [vm_compute; discriminate|].
    repeat constructor; vm_compute; discriminate.
Defined.

(** X6 on documents whose second entry is blank: the warnings name
    index 1. *)
Lemma entry_warnings_name_the_index_witness :
  In "Security contact 1 missing type"
     (Go.elems (Warnings (fst (validateSecurityInsightsV1
                                 (ext := Machine.blank_entries)
                                 Fixtures.new_year_2026 []))))
  /\ In "Administrator 1 missing email"
        (Go.elems (Warnings (fst (validateSecurityInsightsV2
                                    (ext := Machine.blank_entries) [])))).
Proof.
  split.
  - refine (proj1 (proj1 (entry_warnings_name_the_index (ext := Machine.blank_entries))
                     Fixtures.new_year_2026 [] _ 1
                     {| V1.Type_ := ""; V1.Value := "" |} eq_refl eq_refl) eq_refl).
  - refine (proj2 (proj2 (entry_warnings_name_the_index (ext := Machine.blank_entries))
                     [] _ 1 {| sitooling.Name := ""; sitooling.Email := "" |}
                     eq_refl eq_refl eq_refl) eq_refl).
Defined.

Lemma sample_path_names_security_insights :
  names_security_insights "repo/.github/Security-Insights.YAML".
Proof. exists "repo/.github/", "Security-Insights", ".YAML". split; reflexivity. Qed.

(** X8 on a file whose name mixes cases: it is validated. *)
Lemma ValidateFile_tests_the_name_in_any_case_witness :
  ValidateFile (ext := Fixtures.sample) (sys := Machine.sample)
    Fixtures.new_year_2026 "repo/.github/Security-Insights.YAML"
  = (Some (fst (validateSecurityInsights (ext := Fixtures.sample)
                  Fixtures.new_year_2026
                  (Fixtures.bytes Fixtures.v2_missing_required))), None).
Proof.
  refine (proj1 (ValidateFile_tests_the_name_in_any_case
                   (ext := Fixtures.sample) (sys := Machine.sample)
                   Fixtures.new_year_2026 "repo/.github/Security-Insights.YAML"
                   (Fixtures.bytes Fixtures.v2_missing_required) _ _) _).
  - vm_compute. reflexivity.
  - vm_compute. reflexivity.
  - exact sample_path_names_security_insights.
Defined.

(** X10 on a file that holds four errors and three warnings: the command
    stops with status 1 after it has printed them under their headings. *)
Lemma runValidate_exit_status_follows_errors_witness :
  runValidate (ext := Fixtures.sample) (sys := Machine.sample)
    Fixtures.new_year_2026 ["repo/security-insights/notes.txt"]
  = (["✗ repo/security-insights/notes.txt is invalid:
";
      "  - Missing required field: header.schema-version
";
      "  - Missing required field: header.project-url
";
      "  - Missing required field: header.expiration-date
";
      "  - Missing required field: project-lifecycle.status
";
      "
Warnings:
";
      "  - Missing recommended field: header.last-updated
";
      "  - Missing recommended field: header.last-reviewed
";
      "  - No security-contacts specified
"], Exit 1).
Proof.
  refine (eq_trans
            (proj2 (runValidate_exit_status_follows_errors
                      (ext := Fixtures.sample) (sys := Machine.sample)
                      Fixtures.new_year_2026
                      "repo/security-insights/notes.txt" []
                      (fst (validateSecurityInsights (ext := Fixtures.sample)
                              Fixtures.new_year_2026
                              (Fixtures.bytes Fixtures.missing_required_fields)))
                      _ _) _) _).
  - vm_compute. reflexivity.
  - vm_compute. reflexivity.
  - vm_compute. lia.
  - vm_compute. reflexivity.
Defined.

(** X18 on a disk that holds both files: nothing is written. *)
Lemma GenerateWithConfig_keeps_existing_files_witness :
  generator.GenerateWithConfig (sys := Machine.sample) (disk := Machine.disk)
    (term := Machine.plain) (generator.New "repo" false) Machine.configuration
    Machine.generated
  = (["⚠ SECURITY-INSIGHTS.yml already exists (use --force to overwrite)
";
      "⚠ SECURITY.md already exists (use --force to overwrite)
"],
     Return None, Machine.generated).
Proof.
  apply (GenerateWithConfig_keeps_existing_files
           (sys := Machine.sample) (disk := Machine.disk) (term := Machine.plain)
           (generator.New "repo" false) Machine.configuration
           Machine.generated Machine.generated);
    reflexivity.
Defined.

(** X21 on a result with an unknown priority between two known ones: the
    report is the same without it. *)
Lemma outputText_omits_unknown_priorities_witness :
  report.outputText (sys := Machine.sample) (term := Machine.plain)
    (report.NewReporter "text")
    (Machine.with_recommendations
       [recommendation_for "LICENSE"; recommendation_for "CONTRIBUTING.md"])
  = report.outputText (sys := Machine.sample) (term := Machine.plain)
      (report.NewReporter "text")
      (Machine.with_recommendations
         [recommendation_for "LICENSE"; Machine.urgent;
          recommendation_for "CONTRIBUTING.md"]).
Proof.
  apply (outputText_omits_unknown_priorities
           (sys := Machine.sample) (term := Machine.plain)
           (report.NewReporter "text") _ _
           [recommendation_for "LICENSE"] [recommendation_for "CONTRIBUTING.md"]
           Machine.urgent); try reflexivity.
  - intros Hin. simpl in Hin.
    repeat (destruct Hin as [Hin|Hin]; [discriminate Hin|]). exact Hin.
  - discriminate.
Defined.

(** X22 on the sample repository, whose remote is an SSH address. *)
Lemma detectGitRemote_rewrites_ssh_addresses_witness :
  interactive.detectGitRemote (con := Machine.console) "repo" Machine.answers
  = (("https://github.com/example/repo", None), Machine.answers).
Proof.
  refine (proj1 (detectGitRemote_rewrites_ssh_addresses (con := Machine.console)
                   "repo" Machine.answers Machine.answers
                   (list_byte_of_string "git@github.com:example/repo.git
") _) "example/repo" _).
  - reflexivity.
  - vm_compute. reflexivity.
Defined.

(** X23 on the scripted session: the names typed as
    [alice, github:bob, ,github:] become three maintainers. *)
Lemma GatherConfiguration_normalizes_the_lists_witness :
  match interactive.GatherConfiguration (sys := Machine.sample)
          (con := Machine.console) "repo" Machine.answers with
  | (_, inr config, _) =>
      generator.Maintainers config
      = Go.mk_slice ["github:alice"; "github:bob"; "github:"]
      /\ Forall (fun m => Go.HasPrefix m "github:" = true
                          /\ generator.username_of m <> "")
                (Go.elems (generator.Maintainers config))
  | (_, inl _, _) => False
  end.
Proof.
  destruct (interactive.GatherConfiguration (sys := Machine.sample)
              (con := Machine.console) "repo" Machine.answers)
    as [[out [err|config]] s'] eqn:Hrun.
  - vm_compute in Hrun. discriminate Hrun.
  - split.
    + vm_compute in Hrun. injection Hrun as _ <- _. reflexivity.
    + exact (proj1 (proj2 (GatherConfiguration_normalizes_the_lists
                             (sys := Machine.sample) (con := Machine.console)
                             "repo" Machine.answers s' out config Hrun))).
Defined.

Lemma sample_file_names_security_insights :
  names_security_insights "repo/SECURITY-INSIGHTS.yml".
Proof. exists "repo/", "SECURITY-INSIGHTS", ".yml". split; reflexivity. Qed.

(** X25 on the minimal V1 document in the sample repository. *)
Lemma runValidate_accepts_a_complete_V1_file_witness :
  runValidate (ext := Fixtures.sample) (sys := Machine.sample)
    Fixtures.new_year_2026 ["repo/SECURITY-INSIGHTS.yml"]
  = (["✓ repo/SECURITY-INSIGHTS.yml is valid
"], Return None).
Proof.
  apply (runValidate_accepts_a_complete_V1_file
           (ext := Fixtures.sample) (sys := Machine.sample)
           Fixtures.new_year_2026 "repo/SECURITY-INSIGHTS.yml" []
           (Fixtures.bytes Fixtures.valid_minimal_file)
           (Fixtures.as_header Fixtures.valid_minimal_file)
           (Fixtures.as_V1 Fixtures.valid_minimal_file)).
  - vm_compute. reflexivity.
  - vm_compute. reflexivity.
  - vm_compute. reflexivity.
  - exact sample_file_names_security_insights.
  - vm_compute. reflexivity.
  - vm_compute. reflexivity.
  - vm_compute. reflexivity.
  - vm_compute. discriminate.
  - vm_compute. discriminate.
  - vm_compute. discriminate.
  - vm_compute. discriminate.
Defined.

(** X26 on the sample machine: an auto run leaves the script of answers
    untouched. *)
Lemma runSetup_auto_asks_nothing_witness :
  let '(_, _, flags', _, s') :=
    runSetup (sys := Machine.sample) (disk := Machine.disk) (term := Machine.plain)
      (con := Machine.console)
      {| setupAuto := true; setupInteractive := false;
         setupPath := "repo"; setupForce := false |}
      [] Machine.generated Machine.answers in
  s' = Machine.answers
  /\ flags' = {| setupAuto := true; setupInteractive := false;
                 setupPath := "repo"; setupForce := false |}.
Proof.
  apply (runSetup_auto_asks_nothing
           (sys := Machine.sample) (disk := Machine.disk) (term := Machine.plain)
           (con := Machine.console)
           {| setupAuto := true; setupInteractive := false;
              setupPath := "repo"; setupForce := false |}
           [] Machine.generated Machine.answers); reflexivity.
Defined.

(** X20 on the sample repository, which lacks CONTRIBUTING.md: the report
    prints the category of the recommendation to add it. *)
Lemma outputText_prints_the_recommendations_of_Check_witness :
  In "  Category: Community
"
     (fst (report.outputText (sys := Machine.sample) (term := Machine.plain)
             (report.NewReporter "text")
             (fst (checker.Check (sys := Machine.sample) (checker.New "repo"))))).
Proof.
  apply (outputText_prints_the_recommendations_of_Check
           (sys := Machine.sample) (term := Machine.plain)
           (report.NewReporter "text") (checker.New "repo")
           (recommendation_for "CONTRIBUTING.md")).
  - vm_compute. right. left. reflexivity.
  - vm_compute. right. left. reflexivity.
Defined.

(** X19 on a repository that holds no file yet, on a disk where nothing
    can be written: the run ends at SECURITY-INSIGHTS.yml with the error of
    that write, prints nothing and leaves the disk as it was. *)
Lemma GenerateWithConfig_returns_witness :
  generator.GenerateWithConfig (sys := Machine.sample) (disk := Machine.read_only)
    (term := Machine.plain) (generator.New "repo" false) Machine.configuration
    Machine.fresh
  = ([],
     Return (Some "failed to generate SECURITY-INSIGHTS.yml: open repo/SECURITY-INSIGHTS.yml: permission denied"),
     Machine.fresh).
Proof.
  refine (proj1 (proj2 (GenerateWithConfig_returns
                          (sys := Machine.sample) (disk := Machine.read_only)
                          (term := Machine.plain) (generator.New "repo" false)
                          Machine.configuration Machine.fresh))
            Machine.fresh "2026-01-01" Machine.fresh "2026-01-01" Machine.fresh
            (Go.Join (maintainer_entries "security@example.com" 0
                        ["github:alice"; "bob"]) "
")
            "open repo/SECURITY-INSIGHTS.yml: permission denied" Machine.fresh
            _ _ _ _ _ _).
  - reflexivity.
  - vm_compute. reflexivity.
  - reflexivity.
  - reflexivity.
  - vm_compute. reflexivity.
  - vm_compute. reflexivity.
Defined.

